(** * scikit-tree: the estimator classes of [sktree/tree/_classes.py]

    A shallow embedding of the Python estimator layer of scikit-tree:
    the unsupervised decision trees (leaf co-membership affinity matrix
    and clustering glue), the oblique and the patch-oblique classifiers
    (configuration checks and the choice of tree builder).

    The first part models the NumPy kernel [_compute_affinity_matrix];
    the second part models the estimator objects, their attributes and
    the methods, in a small error-and-state monad. *)

From Stdlib Require Import ZArith QArith Qround Lia Ascii String.
From stdpp Require Import base list sorting strings gmap.

(** ** NumPy arrays used by [_compute_affinity_matrix] *)

Module Numpy.

(** [np.int32] arithmetic: two's complement wrap-around on 32 bits. *)
Definition int32 (z : Z) : Z := ((z + 2 ^ 31) `mod` 2 ^ 32 - 2 ^ 31)%Z.

(** [np.zeros((r, c), dtype=np.int32)] *)
Definition zeros (r c : nat) : list (list Z) := replicate r (replicate c 0%Z).

(** [np.unique]: the sorted distinct values of a one-dimensional array. *)
Fixpoint insert_unique (x : Z) (l : list Z) : list Z :=
  match l with
  | [] => [x]
  | y :: t =>
      if (x <? y)%Z then x :: l
      else if (x =? y)%Z then l
      else y :: insert_unique x t
  end.

Definition unique (xs : list Z) : list Z := foldr insert_unique [] xs.

(** [np.argwhere(xs == leaf)]: a (k, 1) array holding, in increasing
    order, the positions at which [xs] equals [leaf]. *)
Fixpoint argwhere_eq_from (i : nat) (xs : list Z) (leaf : Z) : list (list nat) :=
  match xs with
  | [] => []
  | x :: xs' =>
      if (x =? leaf)%Z then [i] :: argwhere_eq_from (S i) xs' leaf
      else argwhere_eq_from (S i) xs' leaf
  end.

Definition argwhere_eq (xs : list Z) (leaf : Z) : list (list nat) :=
  argwhere_eq_from 0 xs leaf.

(** The result of [squeeze] on a (k, 1) array is zero-dimensional when
    k = 1 and one-dimensional otherwise. *)
Inductive squeezed : Type :=
  | Arr0 (x : nat)
  | Arr1 (xs : list nat).

Definition squeeze (a : list (list nat)) : squeezed :=
  match a with
  | [[x]] => Arr0 x
  | _ => Arr1 (concat a)
  end.

(** [np.atleast_1d] *)
Definition atleast_1d (a : squeezed) : list nat :=
  match a with
  | Arr0 x => [x]
  | Arr1 xs => xs
  end.

(** Fancy indexing with the open mesh [np.ix_(rs, cs)].  Reading gathers
    the sub-matrix; an index out of range is an [IndexError] ([None]). *)
Fixpoint getitem_row (row : list Z) (cs : list nat) : option (list Z) :=
  match cs with
  | [] => Some []
  | j :: cs' =>
      v ← row !! j;
      rest ← getitem_row row cs';
      Some (v :: rest)
  end.

Fixpoint ix_get (m : list (list Z)) (rs cs : list nat) : option (list (list Z)) :=
  match rs with
  | [] => Some []
  | i :: rs' =>
      row ← m !! i;
      sub ← getitem_row row cs;
      rest ← ix_get m rs' cs;
      Some (sub :: rest)
  end.

(** Assignment through the open mesh scatters the values, cell by cell
    and in index order; a shape mismatch or an index out of range is an
    error ([None]). *)
Fixpoint setitem_row (row : list Z) (cs : list nat) (vals : list Z) : option (list Z) :=
  match cs, vals with
  | [], [] => Some row
  | j :: cs', v :: vals' =>
      if decide (j < length row) then setitem_row (<[j := v]> row) cs' vals'
      else None
  | _, _ => None
  end.

Fixpoint ix_set (m : list (list Z)) (rs cs : list nat) (sub : list (list Z))
  : option (list (list Z)) :=
  match rs, sub with
  | [], [] => Some m
  | i :: rs', vals :: sub' =>
      row ← m !! i;
      row' ← setitem_row row cs vals;
      ix_set (<[i := row']> m) rs' cs sub'
  | _, _ => None
  end.

(** [sub + k] on an int32 array (broadcast of the scalar). *)
Definition add_scalar (sub : list (list Z)) (k : Z) : list (list Z) :=
  map (map (λ v, int32 (v + k))) sub.

(** [m[np.ix_(rs, cs)] += k] on an int32 array: gather, add, scatter. *)
Definition ix_iadd (m : list (list Z)) (rs cs : list nat) (k : Z)
  : option (list (list Z)) :=
  sub ← ix_get m rs cs;
  ix_set m rs cs (add_scalar sub k).

(** [m[i][j]]: [entry] is [None] out of range, [cell] reads 0 there. *)
Definition entry (m : list (list Z)) (i j : nat) : option Z :=
  row ← m !! i; row !! j.

Definition cell (m : list (list Z)) (i j : nat) : Z := (m !!! i) !!! j.

(** Shapes *)
Definition rows_of_length (n : nat) (m : list (list Z)) : Prop :=
  Forall (λ row, length row = n) m.

Definition square (n : nat) (m : list (list Z)) : Prop :=
  length m = n ∧ rows_of_length n m.

End Numpy.

(** ** [UnsupervisedDecisionTree._compute_affinity_matrix] *)

Module Affinity.
Import Numpy.

(** The body of the loop over the distinct leaves. *)
Definition samples_in_leaf (X_leaves : list Z) (leaf : Z) : list nat :=
  atleast_1d (squeeze (argwhere_eq X_leaves leaf)).

Fixpoint for_each_leaf (leaves : list Z) (X_leaves : list Z)
    (aff_matrix : list (list Z)) : option (list (list Z)) :=
  match leaves with
  | [] => Some aff_matrix
  | leaf :: rest =>
      let s := samples_in_leaf X_leaves leaf in
      aff_matrix' ← ix_iadd aff_matrix s s 1;
      for_each_leaf rest X_leaves aff_matrix'
  end.

Definition _compute_affinity_matrix (X_leaves : list Z) : option (list (list Z)) :=
  let n_samples := length X_leaves in
  let aff_matrix := zeros n_samples n_samples in
  for_each_leaf (unique X_leaves) X_leaves aff_matrix.

(** The matrix of leaf co-membership indicators. *)
Definition same_leaf (a b : Z) : Z := if decide (a = b) then 1%Z else 0%Z.

Definition co_membership (X_leaves : list Z) : list (list Z) :=
  (λ a, same_leaf a <$> X_leaves) <$> X_leaves.

(** What is claimed of an affinity matrix over n samples: it is square,
    symmetric, its entries are non-negative and its diagonal is 1. *)
Definition affinity_invariants (n : nat) (aff_matrix : list (list Z)) : Prop :=
  square n aff_matrix
  ∧ (∀ i j, entry aff_matrix i j = entry aff_matrix j i)
  ∧ (∀ i j v, entry aff_matrix i j = Some v → (0 ≤ v)%Z)
  ∧ (∀ i, i < n → entry aff_matrix i i = Some 1%Z).

(** The loop invariant: once the leaves in [seen] have been handled, the
    cell (i, j) is 1 exactly when i and j share a leaf of [seen]. *)
Definition counted (X_leaves seen : list Z) (m : list (list Z)) : Prop :=
  ∀ i j, i < length X_leaves → j < length X_leaves →
    cell m i j
    = if decide (X_leaves !!! i = X_leaves !!! j ∧ X_leaves !!! i ∈ seen)
      then 1%Z else 0%Z.

End Affinity.

(** ** Python values, exceptions and the objects the estimators build *)

Module Py.

(** Python numbers: [int] and (finite) [float]; a float is modelled by
    the rational it denotes, which is exact for the comparisons made. *)
Inductive number : Type :=
  | Int (z : Z)
  | Float (q : Q).

Definition to_Q (x : number) : Q :=
  match x with
  | Int z => inject_Z z
  | Float q => q
  end.

(** [a > b] *)
Definition num_gt (a b : number) : bool := negb (Qle_bool (to_Q a) (to_Q b)).

(** [min(a, b)]: the second argument only when it is strictly smaller. *)
Definition py_min (a b : number) : number := if num_gt a b then b else a.

(** A parameter given either by its registry name or as an instance. *)
Inductive param (A : Type) : Type :=
  | ByName (name : string)
  | Instance (obj : A).
Arguments ByName {A} name.
Arguments Instance {A} obj.

(** The configuration failures of the patch classifier, one per check. *)
Inductive patch_violation : Type :=
  | DataShapeMismatch      (* data_height * data_width != n_features *)
  | MinHeightAboveMax      (* min_patch_height > max_patch_height *)
  | MinWidthAboveMax       (* min_patch_width > max_patch_width *)
  | MaxWidthAboveData      (* max_patch_width > data_width *)
  | MaxHeightAboveData.    (* max_patch_height > data_height *)

Inductive runtime_error : Type :=
  | FeatureCombinationsTooLarge (fc : number) (n_features : nat)
  | PatchConfiguration (v : patch_violation).

Inductive value_error : Type :=
  | SparseNotSupported     (* "Sparse input is not supported for oblique trees. ..." *)
  | Int64SparseIndices     (* "No support for np.int64 index based sparse matrices" *)
  | PoissonNegativeTarget  (* "Some value(s) of y are negative ..." *)
  | PoissonNonPositiveSum. (* "Sum of y is not positive ..." *)

Inductive exn : Type :=
  | RuntimeError (r : runtime_error)
  | ValueError (v : value_error)
  | KeyError (key : string)
  | AttributeError (name : string)
  | TypeError
  | IndexError
  | NotFittedError
  | CollaboratorError (code : Z).   (* raised by code outside this file *)

Inductive outcome (A : Type) : Type :=
  | Ok (a : A)
  | Raise (e : exn).
Arguments Ok {A} a.
Arguments Raise {A} e.

(** Feature matrices: a shape, a storage format and the cell values. *)
Inductive index_dtype : Type := intc | int64.

Inductive storage : Type :=
  | Dense
  | SparseCSC (indices indptr : index_dtype).

Record array2 : Type := {
  shape0 : nat;
  shape1 : nat;
  store : storage;
  cells : list (list Q)
}.

Definition issparse (X : array2) : bool :=
  match store X with
  | Dense => false
  | SparseCSC _ _ => true
  end.

(** [X.indices.dtype != np.intc or X.indptr.dtype != np.intc] *)
Definition index_not_intc (X : array2) : bool :=
  match store X with
  | SparseCSC intc intc => false
  | SparseCSC _ _ => true
  | Dense => false
  end.

(** An integer, an array of integers or a list of such arrays
    ([n_outputs_], [n_classes_], [classes_], ...). *)
Inductive data : Type :=
  | Scalar (z : Z)
  | Array (l : list Z)
  | ArrayList (l : list (list Z)).

(** Criteria *)
Inductive criterion_class : Type :=
  | Gini | Entropy | MSE | FriedmanMSE | MAE | Poisson | TwoMeans | FastBIC.

Record criterion : Type := {
  crit_class : criterion_class;
  crit_args : list data
}.

Definition CRITERIA_CLF : gmap string criterion_class :=
  list_to_map [("gini", Gini); ("log_loss", Entropy); ("entropy", Entropy)].

Definition CRITERIA_REG : gmap string criterion_class :=
  list_to_map [("squared_error", MSE); ("friedman_mse", FriedmanMSE);
               ("absolute_error", MAE); ("poisson", Poisson)].

Definition UNSUPERVISED_CRITERIA : gmap string criterion_class :=
  list_to_map [("twomeans", TwoMeans); ("fastbic", FastBIC)].

(** Splitters *)
Inductive splitter_class : Type :=
  | BestObliqueSplitter
  | BestPatchSplitter
  | BestUnsupervisedSplitter
  | BestObliqueUnsupervisedSplitter.

Inductive splitter_extra : Type :=
  | NoExtra
  | FeatureCombinations (fc : number)
  | PatchGeometry (min_patch_height max_patch_height
                   min_patch_width max_patch_width
                   data_height data_width : Z).

Record splitter : Type := {
  spl_class : splitter_class;
  spl_criterion : criterion;
  spl_max_features : data;
  spl_min_samples_leaf : Z;
  spl_min_weight_leaf : Q;
  spl_random_state : Z;
  spl_extra : splitter_extra
}.

Definition OBLIQUE_DENSE_SPLITTERS : gmap string splitter_class :=
  list_to_map [("best", BestObliqueSplitter)].

Definition PATCH_DENSE_SPLITTERS : gmap string splitter_class :=
  list_to_map [("best", BestPatchSplitter)].

Definition UNSUPERVISED_SPLITTERS : gmap string splitter_class :=
  list_to_map [("best", BestUnsupervisedSplitter)].

Definition UNSUPERVISED_OBLIQUE_SPLITTERS : gmap string splitter_class :=
  list_to_map [("best", BestObliqueUnsupervisedSplitter)].

(** Tree builders *)
Inductive builder_class : Type :=
  | DepthFirstTreeBuilder
  | BestFirstTreeBuilder
  | UnsupervisedDepthFirstTreeBuilder
  | UnsupervisedBestFirstTreeBuilder.

Record builder : Type := {
  bld_class : builder_class;
  bld_splitter : splitter;
  bld_min_samples_split : Z;
  bld_min_samples_leaf : Z;
  bld_min_weight_leaf : Q;
  bld_max_depth : Z;
  bld_max_leaf_nodes : option Z;       (* an argument of the best-first builders only *)
  bld_min_impurity_decrease : number
}.

Definition is_best_first (b : builder) : bool :=
  match bld_class b with
  | BestFirstTreeBuilder | UnsupervisedBestFirstTreeBuilder => true
  | _ => false
  end.

Definition is_depth_first (b : builder) : bool :=
  match bld_class b with
  | DepthFirstTreeBuilder | UnsupervisedDepthFirstTreeBuilder => true
  | _ => false
  end.

(** Trees.  The node arrays are filled by the compiled builders; a grown
    tree is represented by the [build] call that filled it. *)
Inductive tree_class : Type :=
  | UnsupervisedTree
  | UnsupervisedObliqueTree
  | ObliqueTree.

Record growth : Type := {
  grown_by : builder;
  grown_X : array2;
  grown_y : option (list Z);
  grown_sample_weight : option (list Q)
}.

Record tree : Type := {
  tree_class_ : tree_class;
  tree_args : list data;
  tree_growth : option growth
}.

Definition grow (t : tree) (g : growth) : tree :=
  {| tree_class_ := tree_class_ t; tree_args := tree_args t; tree_growth := Some g |}.

(** Clustering routines *)
Inductive cluster_class : Type :=
  | AgglomerativeClustering
  | UserClustering (name : string).

(** The values held by the fitted attributes of an estimator. *)
Inductive value : Type :=
  | VData (d : data)
  | VNum (x : number)
  | VTree (t : tree)
  | VMatrix (m : list (list Z))
  | VCluster (c : cluster_class)
  | VKwargs (k : gmap string Z).

(** Constructions of compiled objects and calls of [build], in the order
    in which they happen (most recent first). *)
Inductive call : Type :=
  | NewCriterion (c : criterion)
  | DeepCopy (c : criterion)
  | NewSplitter (s : splitter)
  | NewTree (t : tree)
  | NewBuilder (b : builder)
  | Build (b : builder) (g : growth).


(** Estimators: the constructor parameters shared by all tree classes,
    the parameters of each class, and the attributes set while fitting
    (those of [vars(self)] whose names end with an underscore). *)
Inductive max_features_t : Type :=
  | MaxFeaturesNone
  | MaxFeaturesNum (x : number)
  | MaxFeaturesName (s : string).

Inductive class_weight_t : Type :=
  | Balanced
  | ClassWeights (w : list (Z * Q)).

Record tree_params : Type := {
  criterion_ : param criterion;
  splitter_ : param splitter;
  max_depth : option Z;
  min_samples_split : number;
  min_samples_leaf : number;
  min_weight_fraction_leaf : number;
  max_features : max_features_t;
  max_leaf_nodes : option Z;
  random_state : option Z;
  min_impurity_decrease : number
}.

Inductive class_params : Type :=
  | UnsupervisedDecisionTree
      (clustering_func : option cluster_class)
      (clustering_func_args : option (gmap string Z))
  | UnsupervisedObliqueDecisionTree
      (feature_combinations : number)
      (clustering_func : option cluster_class)
      (clustering_func_args : option (gmap string Z))
  | ObliqueDecisionTreeClassifier
      (class_weight : option class_weight_t)
      (feature_combinations : option number)
  | PatchObliqueDecisionTreeClassifier
      (class_weight : option class_weight_t)
      (min_patch_height max_patch_height min_patch_width max_patch_width : Z)
      (data_height : Z)
      (data_width : option Z).

Record estimator : Type := {
  base : tree_params;
  own : class_params;
  attrs : gmap string value
}.

(** [sklearn.base.is_classifier]: true of the two classifiers (they
    derive from [DecisionTreeClassifier]), false of the two clusterers. *)
Definition is_classifier (e : estimator) : bool :=
  match own e with
  | ObliqueDecisionTreeClassifier _ _ => true
  | PatchObliqueDecisionTreeClassifier _ _ _ _ _ _ _ => true
  | _ => false
  end.

(** *** The monad of method bodies: an estimator and a call log as state,
    Python exceptions as errors. *)
Record world : Type := {
  self : estimator;
  calls : list call
}.

Definition M (A : Type) : Type := world → outcome A * world.

Definition ret {A} (a : A) : M A := λ w, (Ok a, w).

Definition bind {A B} (m : M A) (k : A → M B) : M B :=
  λ w, match m w with
       | (Ok a, w') => k a w'
       | (Raise e, w') => (Raise e, w')
       end.

Definition raise {A} (e : exn) : M A := λ w, (Raise e, w).

Definition lift {A} (o : outcome A) : M A := λ w, (o, w).

Definition get_self : M estimator := λ w, (Ok (self w), w).

Definition put_attrs (a : gmap string value) : M unit :=
  λ w, (Ok tt, {| self := {| base := base (self w); own := own (self w); attrs := a |};
                  calls := calls w |}).

Definition log (c : call) : M unit :=
  λ w, (Ok tt, {| self := self w; calls := c :: calls w |}).

End Py.

Declare Scope py_scope.
Delimit Scope py_scope with py.
Notation "x <- m ;; k" := (Py.bind m (λ x, k))
  (at level 100, m at next level, right associativity) : py_scope.
Notation "m ;;; k" := (Py.bind m (λ _, k))
  (at level 100, right associativity) : py_scope.

(** ** The methods of [sktree/tree/_classes.py] *)

Module Classes.
Import Numpy Affinity Py.
Local Open Scope py_scope.

(** *** Attribute access *)

Definition getattr (name : string) : M value :=
  e <- get_self;;
  match attrs e !! name with
  | Some v => ret v
  | None => raise (AttributeError name)
  end.

Definition setattr (name : string) (v : value) : M unit :=
  e <- get_self;;
  put_attrs (<[name := v]> (attrs e)).

Definition getattr_data (name : string) : M data :=
  v <- getattr name;;
  match v with
  | VData d => ret d
  | _ => raise TypeError
  end.

Definition getattr_num (name : string) : M number :=
  v <- getattr name;;
  match v with
  | VNum x => ret x
  | _ => raise TypeError
  end.

Definition getattr_tree (name : string) : M tree :=
  v <- getattr name;;
  match v with
  | VTree t => ret t
  | _ => raise TypeError
  end.

Definition getattr_matrix (name : string) : M (list (list Z)) :=
  v <- getattr name;;
  match v with
  | VMatrix m => ret m
  | _ => raise TypeError
  end.

(** [d[key]] on a registry of classes *)
Definition dict_getitem {A} (d : gmap string A) (key : string) : M A :=
  match d !! key with
  | Some a => ret a
  | None => raise (KeyError key)
  end.

(** [a[0]] *)
Definition index0 (a : data) : M data :=
  match a with
  | Array (x :: _) => ret (Scalar x)
  | ArrayList (x :: _) => ret (Array x)
  | Array [] | ArrayList [] => raise IndexError
  | Scalar _ => raise IndexError
  end.

(** *** Constructors of the compiled objects *)

Definition new_criterion (cls : criterion_class) (args : list data) : M criterion :=
  let c := {| crit_class := cls; crit_args := args |} in
  log (NewCriterion c);;; ret c.

Definition deepcopy (c : criterion) : M criterion :=
  log (DeepCopy c);;; ret c.

Definition new_splitter (s : splitter) : M splitter :=
  log (NewSplitter s);;; ret s.

Definition new_tree (cls : tree_class) (args : list data) : M tree :=
  let t := {| tree_class_ := cls; tree_args := args; tree_growth := None |} in
  log (NewTree t);;; ret t.

Definition new_builder (b : builder) : M builder :=
  log (NewBuilder b);;; ret b.

(** [builder.build(self.tree_, X, y, sample_weight)]: the tree object held
    by [self.tree_] is filled in place. *)
Definition build (b : builder) (X : array2) (y : option (list Z))
    (sample_weight : option (list Q)) : M unit :=
  t <- getattr_tree "tree_";;
  let g := {| grown_by := b; grown_X := X; grown_y := y;
              grown_sample_weight := sample_weight |} in
  log (Build b g);;;
  setattr "tree_" (VTree (grow t g)).

(** *** scikit-learn's side of the estimator protocol

    The classes of this file extend scikit-learn's [BaseDecisionTree].
    What scikit-learn computes is left open: input validation, the
    derivation of the integer growth parameters, the traversal of a grown
    tree and the clustering routine are the fields of [collaborators]. *)

Record build_args : Type := {
  ba_X : array2;
  ba_y : option (list Z);
  ba_sample_weight : option (list Q);
  ba_min_samples_leaf : Z;
  ba_min_weight_leaf : Q;
  ba_max_leaf_nodes : Z;
  ba_min_samples_split : Z;
  ba_max_depth : Z;
  ba_random_state : Z
}.

Record collaborators : Type := {
  (* BaseEstimator._validate_data: the validated X and y, and the
     attributes it records on the estimator (n_features_in_, ...) *)
  validate_data :
    estimator → array2 → option (list Z)
    → outcome (array2 * option (list Z) * gmap string value);
  (* the part of BaseDecisionTree.fit that precedes self._build_tree *)
  base_prepare :
    estimator → array2 → option (list Z) → option (list Q) → bool
    → outcome (build_args * gmap string value);
  (* BaseDecisionTree._validate_X_predict *)
  validate_X_predict : estimator → array2 → bool → outcome array2;
  (* Tree.apply: the leaf reached by each row *)
  tree_apply : tree → array2 → list Z;
  (* fit_predict(affinity_matrix) of the clustering class instantiated
     with the keyword arguments *)
  fit_predict : cluster_class → gmap string Z → list (list Z) → outcome (list Z)
}.

(** [sklearn.utils.validation.check_is_fitted]: an estimator is fitted
    when [vars(estimator)] has a name ending with an underscore (and not
    starting with two). *)
Fixpoint endswith_underscore (s : string) : bool :=
  match s with
  | EmptyString => false
  | String c EmptyString => bool_decide (c = "_"%char)
  | String _ s' => endswith_underscore s'
  end.

Definition startswith_dunder (s : string) : bool :=
  match s with
  | String c1 (String c2 _) => bool_decide (c1 = "_"%char) && bool_decide (c2 = "_"%char)
  | _ => false
  end.

Definition fitted_attributes (e : estimator) : list string :=
  List.filter (λ v, endswith_underscore v && negb (startswith_dunder v))
              (fst <$> map_to_list (attrs e)).

Definition check_is_fitted : M unit :=
  e <- get_self;;
  match fitted_attributes e with
  | [] => raise NotFittedError
  | _ :: _ => ret tt
  end.

(** Attributes recorded by a collaborator override the current ones. *)
Definition record_attrs (upd : gmap string value) : M unit :=
  e <- get_self;;
  put_attrs (upd ∪ attrs e).

Section Methods.
Variable K : collaborators.

(** [BaseDecisionTree.apply] *)
Definition apply (X : array2) : M (list Z) :=
  check_is_fitted;;;
  e <- get_self;;
  X <- lift (validate_X_predict K e X true);;
  t <- getattr_tree "tree_";;
  ret (tree_apply K t X).

(** **** UnsupervisedDecisionTree *)

Definition self_clustering_func : M (option cluster_class) :=
  e <- get_self;;
  match own e with
  | UnsupervisedDecisionTree f _ => ret f
  | UnsupervisedObliqueDecisionTree _ f _ => ret f
  | _ => raise (AttributeError "clustering_func")
  end.

Definition self_clustering_func_args : M (option (gmap string Z)) :=
  e <- get_self;;
  match own e with
  | UnsupervisedDecisionTree _ a => ret a
  | UnsupervisedObliqueDecisionTree _ _ a => ret a
  | _ => raise (AttributeError "clustering_func_args")
  end.

Definition _compute_affinity_matrix_m (X_leaves : list Z) : M (list (list Z)) :=
  match _compute_affinity_matrix X_leaves with
  | Some m => ret m
  | None => raise IndexError
  end.

Definition _assign_labels (affinity_matrix : list (list Z)) : M (list Z) :=
  clustering_func <- self_clustering_func;;
  (match clustering_func with
   | None => setattr "clustering_func_" (VCluster AgglomerativeClustering)
   | Some f => setattr "clustering_func_" (VCluster f)
   end);;;
  clustering_func_args <- self_clustering_func_args;;
  (match clustering_func_args with
   | None => setattr "clustering_func_args_" (VKwargs ∅)
   | Some a => setattr "clustering_func_args_" (VKwargs a)
   end);;;
  f <- getattr "clustering_func_";;
  a <- getattr "clustering_func_args_";;
  match f, a with
  | VCluster f, VKwargs a =>
      (* cluster: self.clustering_func_ called with the keyword arguments
         self.clustering_func_args_ *)
      predict_labels <- lift (fit_predict K f a affinity_matrix);;
      ret predict_labels
  | _, _ => raise TypeError
  end.

Definition transform (X : array2) : M (list (list Z)) :=
  check_is_fitted;;;
  X_leaves <- apply X;;
  affinity_matrix <- _compute_affinity_matrix_m X_leaves;;
  ret affinity_matrix.

Definition predict (X : array2) (check_input : bool) : M (list Z) :=
  e <- get_self;;
  X <- lift (validate_X_predict K e X check_input);;
  affinity_matrix <- transform X;;
  _assign_labels affinity_matrix.

Definition UnsupervisedDecisionTree__build_tree
    (X : array2) (y : option (list Z)) (sample_weight : option (list Q))
    (min_samples_leaf : Z) (min_weight_leaf : Q) (max_leaf_nodes : Z)
    (min_samples_split : Z) (max_depth : Z) (random_state : Z) : M unit :=
  e <- get_self;;
  criterion <- (match criterion_ (base e) with
                | ByName name =>
                    cls <- dict_getitem UNSUPERVISED_CRITERIA name;;
                    new_criterion cls []
                | Instance c => deepcopy c
                end);;
  splitter <- (match splitter_ (base e) with
               | ByName name =>
                   cls <- dict_getitem UNSUPERVISED_SPLITTERS name;;
                   max_features_ <- getattr_data "max_features_";;
                   new_splitter
                     {| spl_class := cls;
                        spl_criterion := criterion;
                        spl_max_features := max_features_;
                        spl_min_samples_leaf := min_samples_leaf;
                        spl_min_weight_leaf := min_weight_leaf;
                        spl_random_state := random_state;
                        spl_extra := NoExtra |}
               | Instance s => ret s
               end);;
  n_features_in_ <- getattr_data "n_features_in_";;
  t <- new_tree UnsupervisedTree [n_features_in_];;
  setattr "tree_" (VTree t);;;
  builder <- (if (max_leaf_nodes <? 0)%Z then
                new_builder
                  {| bld_class := UnsupervisedDepthFirstTreeBuilder;
                     bld_splitter := splitter;
                     bld_min_samples_split := min_samples_split;
                     bld_min_samples_leaf := min_samples_leaf;
                     bld_min_weight_leaf := min_weight_leaf;
                     bld_max_depth := max_depth;
                     bld_max_leaf_nodes := None;
                     bld_min_impurity_decrease := min_impurity_decrease (base e) |}
              else
                new_builder
                  {| bld_class := UnsupervisedBestFirstTreeBuilder;
                     bld_splitter := splitter;
                     bld_min_samples_split := min_samples_split;
                     bld_min_samples_leaf := min_samples_leaf;
                     bld_min_weight_leaf := min_weight_leaf;
                     bld_max_depth := max_depth;
                     bld_max_leaf_nodes := Some max_leaf_nodes;
                     bld_min_impurity_decrease := min_impurity_decrease (base e) |});;
  build builder X None sample_weight.

(** **** UnsupervisedObliqueDecisionTree *)

Definition UnsupervisedObliqueDecisionTree__build_tree
    (X : array2) (y : option (list Z)) (sample_weight : option (list Q))
    (min_samples_leaf : Z) (min_weight_leaf : Q) (max_leaf_nodes : Z)
    (min_samples_split : Z) (max_depth : Z) (random_state : Z) : M unit :=
  e <- get_self;;
  match own e with
  | UnsupervisedObliqueDecisionTree feature_combinations _ _ =>
      (* TODO: add feature_combinations fix that was used in
         obliquedecisiontreeclassifier *)
      criterion <- (match criterion_ (base e) with
                    | ByName name =>
                        cls <- dict_getitem UNSUPERVISED_CRITERIA name;;
                        new_criterion cls []
                    | Instance c => deepcopy c
                    end);;
      splitter <- (match splitter_ (base e) with
                   | ByName name =>
                       cls <- dict_getitem UNSUPERVISED_OBLIQUE_SPLITTERS name;;
                       max_features_ <- getattr_data "max_features_";;
                       new_splitter
                         {| spl_class := cls;
                            spl_criterion := criterion;
                            spl_max_features := max_features_;
                            spl_min_samples_leaf := min_samples_leaf;
                            spl_min_weight_leaf := min_weight_leaf;
                            spl_random_state := random_state;
                            spl_extra := FeatureCombinations feature_combinations |}
                   | Instance s => ret s
                   end);;
      n_features_in_ <- getattr_data "n_features_in_";;
      t <- new_tree UnsupervisedObliqueTree [n_features_in_];;
      setattr "tree_" (VTree t);;;
      builder <- (if (max_leaf_nodes <? 0)%Z then
                    new_builder
                      {| bld_class := UnsupervisedDepthFirstTreeBuilder;
                         bld_splitter := splitter;
                         bld_min_samples_split := min_samples_split;
                         bld_min_samples_leaf := min_samples_leaf;
                         bld_min_weight_leaf := min_weight_leaf;
                         bld_max_depth := max_depth;
                         bld_max_leaf_nodes := None;
                         bld_min_impurity_decrease := min_impurity_decrease (base e) |}
                  else
                    new_builder
                      {| bld_class := UnsupervisedBestFirstTreeBuilder;
                         bld_splitter := splitter;
                         bld_min_samples_split := min_samples_split;
                         bld_min_samples_leaf := min_samples_leaf;
                         bld_min_weight_leaf := min_weight_leaf;
                         bld_max_depth := max_depth;
                         bld_max_leaf_nodes := Some max_leaf_nodes;
                         bld_min_impurity_decrease := min_impurity_decrease (base e) |});;
      build builder X None sample_weight
  | _ => raise (AttributeError "feature_combinations")
  end.

(** **** The two classifiers: the blocks their [_build_tree] share *)

(** [criterion = self.criterion; if not isinstance(criterion, BaseCriterion): ...] *)
Definition supervised_criterion (n_samples : nat) : M criterion :=
  e <- get_self;;
  match criterion_ (base e) with
  | ByName name =>
      if is_classifier e then
        cls <- dict_getitem CRITERIA_CLF name;;
        n_outputs_ <- getattr_data "n_outputs_";;
        n_classes_ <- getattr_data "n_classes_";;
        new_criterion cls [n_outputs_; n_classes_]
      else
        cls <- dict_getitem CRITERIA_REG name;;
        n_outputs_ <- getattr_data "n_outputs_";;
        new_criterion cls [n_outputs_; Scalar (Z.of_nat n_samples)]
  | Instance c => deepcopy c
  end.

(** [self.tree_ = ObliqueTree(...)] *)
Definition supervised_tree : M unit :=
  e <- get_self;;
  t <- (if is_classifier e then
          n_features_in_ <- getattr_data "n_features_in_";;
          n_classes_ <- getattr_data "n_classes_";;
          n_outputs_ <- getattr_data "n_outputs_";;
          new_tree ObliqueTree [n_features_in_; n_classes_; n_outputs_]
        else
          n_features_in_ <- getattr_data "n_features_in_";;
          n_outputs_ <- getattr_data "n_outputs_";;
          match n_outputs_ with
          | Scalar k =>
              new_tree ObliqueTree
                [n_features_in_; Array (replicate (Z.to_nat k) 1%Z); n_outputs_]
          | _ => raise TypeError
          end);;
  setattr "tree_" (VTree t).

(** The choice of builder and the call of [build]. *)
Definition supervised_builder (splitter : splitter)
    (min_samples_split min_samples_leaf : Z) (min_weight_leaf : Q)
    (max_depth max_leaf_nodes : Z) : M builder :=
  e <- get_self;;
  if (max_leaf_nodes <? 0)%Z then
    new_builder
      {| bld_class := DepthFirstTreeBuilder;
         bld_splitter := splitter;
         bld_min_samples_split := min_samples_split;
         bld_min_samples_leaf := min_samples_leaf;
         bld_min_weight_leaf := min_weight_leaf;
         bld_max_depth := max_depth;
         bld_max_leaf_nodes := None;
         bld_min_impurity_decrease := min_impurity_decrease (base e) |}
  else
    new_builder
      {| bld_class := BestFirstTreeBuilder;
         bld_splitter := splitter;
         bld_min_samples_split := min_samples_split;
         bld_min_samples_leaf := min_samples_leaf;
         bld_min_weight_leaf := min_weight_leaf;
         bld_max_depth := max_depth;
         bld_max_leaf_nodes := Some max_leaf_nodes;
         bld_min_impurity_decrease := min_impurity_decrease (base e) |}.

(** [if self.n_outputs_ == 1 and is_classifier(self): ...] *)
Definition unwrap_single_output : M unit :=
  e <- get_self;;
  n_outputs_ <- getattr_data "n_outputs_";;
  match n_outputs_ with
  | Scalar 1 =>
      if is_classifier e then
        n_classes_ <- getattr_data "n_classes_";;
        n_classes_0 <- index0 n_classes_;;
        setattr "n_classes_" (VData n_classes_0);;;
        classes_ <- getattr_data "classes_";;
        classes_0 <- index0 classes_;;
        setattr "classes_" (VData classes_0)
      else ret tt
  | _ => ret tt
  end.

(** **** ObliqueDecisionTreeClassifier *)

Definition ObliqueDecisionTreeClassifier__build_tree
    (X : array2) (y : option (list Z)) (sample_weight : option (list Q))
    (min_samples_leaf : Z) (min_weight_leaf : Q) (max_leaf_nodes : Z)
    (min_samples_split : Z) (max_depth : Z) (random_state : Z) : M unit :=
  e <- get_self;;
  match own e with
  | ObliqueDecisionTreeClassifier _ feature_combinations =>
      let n_samples := shape0 X in
      let n_features := shape1 X in
      (match feature_combinations with
       | None =>
           setattr "feature_combinations_"
             (VNum (py_min (Int (Z.of_nat n_features)) (Float (3 # 2))))
       | Some fc =>
           if num_gt fc (Int (Z.of_nat n_features)) then
             raise (RuntimeError (FeatureCombinationsTooLarge fc n_features))
           else
             setattr "feature_combinations_" (VNum fc)
       end);;;
      (* Build tree *)
      criterion <- supervised_criterion n_samples;;
      if issparse X then
        raise (ValueError SparseNotSupported)
      else
        let OBLIQUE_SPLITTERS := OBLIQUE_DENSE_SPLITTERS in
        splitter <- (match splitter_ (base e) with
                     | ByName name =>
                         cls <- dict_getitem OBLIQUE_SPLITTERS name;;
                         max_features_ <- getattr_data "max_features_";;
                         feature_combinations_ <- getattr_num "feature_combinations_";;
                         new_splitter
                           {| spl_class := cls;
                              spl_criterion := criterion;
                              spl_max_features := max_features_;
                              spl_min_samples_leaf := min_samples_leaf;
                              spl_min_weight_leaf := min_weight_leaf;
                              spl_random_state := random_state;
                              spl_extra := FeatureCombinations feature_combinations_ |}
                     | Instance s => ret s
                     end);;
        supervised_tree;;;
        (* Use BestFirst if max_leaf_nodes given; use DepthFirst otherwise *)
        builder <- supervised_builder splitter min_samples_split min_samples_leaf
                     min_weight_leaf max_depth max_leaf_nodes;;
        build builder X y sample_weight;;;
        unwrap_single_output
  | _ => raise (AttributeError "feature_combinations")
  end.

(** **** PatchObliqueDecisionTreeClassifier *)

Definition PatchObliqueDecisionTreeClassifier__build_tree
    (X : array2) (y : option (list Z)) (sample_weight : option (list Q))
    (min_samples_leaf : Z) (min_weight_leaf : Q) (max_leaf_nodes : Z)
    (min_samples_split : Z) (max_depth : Z) (random_state : Z) : M unit :=
  e <- get_self;;
  match own e with
  | PatchObliqueDecisionTreeClassifier _ min_patch_height max_patch_height
      min_patch_width max_patch_width _ _ =>
      let n_samples := shape0 X in
      (* Build tree *)
      criterion <- supervised_criterion n_samples;;
      if issparse X then
        raise (ValueError SparseNotSupported)
      else
        let PATCH_SPLITTERS := PATCH_DENSE_SPLITTERS in
        splitter <- (match splitter_ (base e) with
                     | ByName name =>
                         cls <- dict_getitem PATCH_SPLITTERS name;;
                         max_features_ <- getattr_data "max_features_";;
                         data_height_ <- getattr_data "data_height_";;
                         data_width_ <- getattr_data "data_width_";;
                         match data_height_, data_width_ with
                         | Scalar h, Scalar w =>
                             new_splitter
                               {| spl_class := cls;
                                  spl_criterion := criterion;
                                  spl_max_features := max_features_;
                                  spl_min_samples_leaf := min_samples_leaf;
                                  spl_min_weight_leaf := min_weight_leaf;
                                  spl_random_state := random_state;
                                  spl_extra :=
                                    PatchGeometry min_patch_height max_patch_height
                                      min_patch_width max_patch_width h w |}
                         | _, _ => raise TypeError
                         end
                     | Instance s => ret s
                     end);;
        supervised_tree;;;
        (* Use BestFirst if max_leaf_nodes given; use DepthFirst otherwise *)
        builder <- supervised_builder splitter min_samples_split min_samples_leaf
                     min_weight_leaf max_depth max_leaf_nodes;;
        build builder X y sample_weight;;;
        unwrap_single_output
  | _ => raise (AttributeError "min_patch_height")
  end.

(** **** Method resolution and [BaseDecisionTree.fit]

    [self._build_tree] resolves to the method of the estimator's class.
    scikit-learn's [BaseDecisionTree.fit] prepares the arguments, records
    its own attributes and then calls [self._build_tree]; it returns
    [self]. *)
Definition _build_tree
    (X : array2) (y : option (list Z)) (sample_weight : option (list Q))
    (min_samples_leaf : Z) (min_weight_leaf : Q) (max_leaf_nodes : Z)
    (min_samples_split : Z) (max_depth : Z) (random_state : Z) : M unit :=
  e <- get_self;;
  match own e with
  | UnsupervisedDecisionTree _ _ =>
      UnsupervisedDecisionTree__build_tree X y sample_weight min_samples_leaf
        min_weight_leaf max_leaf_nodes min_samples_split max_depth random_state
  | UnsupervisedObliqueDecisionTree _ _ _ =>
      UnsupervisedObliqueDecisionTree__build_tree X y sample_weight min_samples_leaf
        min_weight_leaf max_leaf_nodes min_samples_split max_depth random_state
  | ObliqueDecisionTreeClassifier _ _ =>
      ObliqueDecisionTreeClassifier__build_tree X y sample_weight min_samples_leaf
        min_weight_leaf max_leaf_nodes min_samples_split max_depth random_state
  | PatchObliqueDecisionTreeClassifier _ _ _ _ _ _ _ =>
      PatchObliqueDecisionTreeClassifier__build_tree X y sample_weight min_samples_leaf
        min_weight_leaf max_leaf_nodes min_samples_split max_depth random_state
  end.

Definition BaseDecisionTree_fit (X : array2) (y : option (list Z))
    (sample_weight : option (list Q)) (check_input : bool) : M estimator :=
  e <- get_self;;
  p <- lift (base_prepare K e X y sample_weight check_input);;
  let '(a, recorded) := p in
  record_attrs recorded;;;
  _build_tree (ba_X a) (ba_y a) (ba_sample_weight a) (ba_min_samples_leaf a)
    (ba_min_weight_leaf a) (ba_max_leaf_nodes a) (ba_min_samples_split a)
    (ba_max_depth a) (ba_random_state a);;;
  get_self.

(** **** UnsupervisedDecisionTree.fit (inherited by the oblique variant) *)

(** The [if check_input:] block. *)
Definition unsupervised_check_input (X : array2) : M array2 :=
  (* TODO: allow X to be sparse *)
  e <- get_self;;
  v <- lift (validate_data K e X None);;
  let '(X, _, recorded) := v in
  record_attrs recorded;;;
  if issparse X then
    (* X.sort_indices() *)
    if index_not_intc X then raise (ValueError Int64SparseIndices)
    else ret X
  else ret X.

Definition UnsupervisedDecisionTree_fit (X : array2) (y : option (list Z))
    (sample_weight : option (list Q)) (check_input : bool) : M estimator :=
  X <- (if check_input then unsupervised_check_input X else ret X);;
  BaseDecisionTree_fit X None sample_weight check_input;;;
  (* apply to the leaves *)
  let n_samples := shape0 X in
  X_leaves <- apply X;;
  (* now compute the affinity matrix and set it *)
  affinity_matrix <- _compute_affinity_matrix_m X_leaves;;
  setattr "affinity_matrix_" (VMatrix affinity_matrix);;;
  (* compute the labels and set it *)
  (if 2 <=? n_samples then
     affinity_matrix_ <- getattr_matrix "affinity_matrix_";;
     labels <- _assign_labels affinity_matrix_;;
     setattr "labels_" (VData (Array labels))
   else ret tt);;;
  get_self.

(** **** PatchObliqueDecisionTreeClassifier.fit *)

Definition is_poisson (c : param criterion) : bool :=
  match c with
  | ByName name => String.eqb name "poisson"
  | Instance _ => false
  end.

(** The [if check_input:] block. *)
Definition patch_check_input (X : array2) (y : option (list Z))
  : M (array2 * option (list Z)) :=
  e <- get_self;;
  v <- lift (validate_data K e X y);;
  let '(X, y, recorded) := v in
  record_attrs recorded;;;
  (if issparse X then
     (* X.sort_indices() *)
     if index_not_intc X then raise (ValueError Int64SparseIndices) else ret tt
   else ret tt);;;
  (match y with
   | Some yv =>
       if is_poisson (criterion_ (base e)) then
         if existsb (λ v, (v <? 0)%Z) yv then raise (ValueError PoissonNegativeTarget)
         else if (foldr Z.add 0%Z yv <=? 0)%Z then raise (ValueError PoissonNonPositiveSum)
         else ret tt
       else ret tt
   | None => ret tt
   end);;;
  ret (X, y).

Definition PatchObliqueDecisionTreeClassifier_fit (X : array2) (y : option (list Z))
    (sample_weight : option (list Q)) (check_input : bool) : M estimator :=
  e <- get_self;;
  match own e with
  | PatchObliqueDecisionTreeClassifier _ min_patch_height max_patch_height
      min_patch_width max_patch_width data_height data_width =>
      Xy <- (if check_input then patch_check_input X y else ret (X, y));;
      let '(X, y) := Xy in
      (* validate data height/width *)
      let data_width_ :=
        match data_width with
        | None => Z.of_nat (shape1 X)
        | Some w => w
        end in
      setattr "data_width_" (VData (Scalar data_width_));;;
      let data_height_ := data_height in
      setattr "data_height_" (VData (Scalar data_height_));;;
      if negb (data_height_ * data_width_ =? Z.of_nat (shape1 X))%Z then
        raise (RuntimeError (PatchConfiguration DataShapeMismatch))
      (* validate patch parameters *)
      else if (min_patch_height >? max_patch_height)%Z then
        raise (RuntimeError (PatchConfiguration MinHeightAboveMax))
      else if (min_patch_width >? max_patch_width)%Z then
        raise (RuntimeError (PatchConfiguration MinWidthAboveMax))
      else if (max_patch_width >? data_width_)%Z then
        raise (RuntimeError (PatchConfiguration MaxWidthAboveData))
      else if (max_patch_height >? data_height_)%Z then
        raise (RuntimeError (PatchConfiguration MaxHeightAboveData))
      else
        BaseDecisionTree_fit X y sample_weight false
  | _ => raise (AttributeError "data_width")
  end.

End Methods.

(** *** Constructors

    The keyword arguments of a call; [None] stands for a keyword that is
    not given, so that the default of the signature applies. *)

Record tree_kwargs : Type := {
  kw_criterion : option (param criterion);
  kw_splitter : option (param splitter);
  kw_max_depth : option (option Z);
  kw_min_samples_split : option number;
  kw_min_samples_leaf : option number;
  kw_min_weight_fraction_leaf : option number;
  kw_max_features : option max_features_t;
  kw_max_leaf_nodes : option (option Z);
  kw_random_state : option (option Z);
  kw_min_impurity_decrease : option number
}.

Definition no_kwargs : tree_kwargs :=
  {| kw_criterion := None; kw_splitter := None; kw_max_depth := None;
     kw_min_samples_split := None; kw_min_samples_leaf := None;
     kw_min_weight_fraction_leaf := None; kw_max_features := None;
     kw_max_leaf_nodes := None; kw_random_state := None;
     kw_min_impurity_decrease := None |}.

Definition UnsupervisedDecisionTree__init__ (kw : tree_kwargs)
    (kw_clustering_func : option (option cluster_class))
    (kw_clustering_func_args : option (option (gmap string Z))) : estimator :=
  {| base :=
       {| criterion_ := default (ByName "twomeans") (kw_criterion kw);
          splitter_ := default (ByName "best") (kw_splitter kw);
          max_depth := default None (kw_max_depth kw);
          min_samples_split := default (Int 5) (kw_min_samples_split kw);
          min_samples_leaf := default (Int 1) (kw_min_samples_leaf kw);
          min_weight_fraction_leaf := default (Float 0) (kw_min_weight_fraction_leaf kw);
          max_features := default MaxFeaturesNone (kw_max_features kw);
          max_leaf_nodes := default None (kw_max_leaf_nodes kw);
          random_state := default None (kw_random_state kw);
          min_impurity_decrease := default (Float 0) (kw_min_impurity_decrease kw) |};
     own := UnsupervisedDecisionTree
              (default None kw_clustering_func)
              (default None kw_clustering_func_args);
     attrs := ∅ |}.

Definition UnsupervisedObliqueDecisionTree__init__ (kw : tree_kwargs)
    (kw_feature_combinations : option number)
    (kw_clustering_func : option (option cluster_class))
    (kw_clustering_func_args : option (option (gmap string Z))) : estimator :=
  {| base :=
       {| criterion_ := default (ByName "twomeans") (kw_criterion kw);
          splitter_ := default (ByName "best") (kw_splitter kw);
          max_depth := default None (kw_max_depth kw);
          min_samples_split := default (Int 5) (kw_min_samples_split kw);
          min_samples_leaf := default (Int 1) (kw_min_samples_leaf kw);
          min_weight_fraction_leaf := default (Int 0) (kw_min_weight_fraction_leaf kw);
          max_features := default MaxFeaturesNone (kw_max_features kw);
          max_leaf_nodes := default None (kw_max_leaf_nodes kw);
          random_state := default None (kw_random_state kw);
          min_impurity_decrease := default (Int 0) (kw_min_impurity_decrease kw) |};
     own := UnsupervisedObliqueDecisionTree
              (default (Float (3 # 2)) kw_feature_combinations)
              (default None kw_clustering_func)
              (default None kw_clustering_func_args);
     attrs := ∅ |}.

Definition ObliqueDecisionTreeClassifier__init__ (kw : tree_kwargs)
    (kw_class_weight : option (option class_weight_t))
    (kw_feature_combinations : option (option number)) : estimator :=
  {| base :=
       {| criterion_ := default (ByName "gini") (kw_criterion kw);
          splitter_ := default (ByName "best") (kw_splitter kw);
          max_depth := default None (kw_max_depth kw);
          min_samples_split := default (Int 2) (kw_min_samples_split kw);
          min_samples_leaf := default (Int 1) (kw_min_samples_leaf kw);
          min_weight_fraction_leaf := default (Float 0) (kw_min_weight_fraction_leaf kw);
          max_features := default MaxFeaturesNone (kw_max_features kw);
          max_leaf_nodes := default None (kw_max_leaf_nodes kw);
          random_state := default None (kw_random_state kw);
          min_impurity_decrease := default (Float 0) (kw_min_impurity_decrease kw) |};
     own := ObliqueDecisionTreeClassifier
              (default None kw_class_weight)
              (default None kw_feature_combinations);
     attrs := ∅ |}.

Record patch_kwargs : Type := {
  kw_min_patch_height : option Z;
  kw_max_patch_height : option Z;
  kw_min_patch_width : option Z;
  kw_max_patch_width : option Z;
  kw_data_height : option Z;
  kw_data_width : option (option Z)
}.

Definition no_patch_kwargs : patch_kwargs :=
  {| kw_min_patch_height := None; kw_max_patch_height := None;
     kw_min_patch_width := None; kw_max_patch_width := None;
     kw_data_height := None; kw_data_width := None |}.

Definition PatchObliqueDecisionTreeClassifier__init__ (kw : tree_kwargs)
    (kw_class_weight : option (option class_weight_t))
    (pkw : patch_kwargs) : estimator :=
  {| base :=
       {| criterion_ := default (ByName "gini") (kw_criterion kw);
          splitter_ := default (ByName "best") (kw_splitter kw);
          max_depth := default None (kw_max_depth kw);
          min_samples_split := default (Int 2) (kw_min_samples_split kw);
          min_samples_leaf := default (Int 1) (kw_min_samples_leaf kw);
          min_weight_fraction_leaf := default (Float 0) (kw_min_weight_fraction_leaf kw);
          max_features := default MaxFeaturesNone (kw_max_features kw);
          max_leaf_nodes := default None (kw_max_leaf_nodes kw);
          random_state := default None (kw_random_state kw);
          min_impurity_decrease := default (Float 0) (kw_min_impurity_decrease kw) |};
     own := PatchObliqueDecisionTreeClassifier
              (default None kw_class_weight)
              (default 1%Z (kw_min_patch_height pkw))
              (default 1%Z (kw_max_patch_height pkw))
              (default 1%Z (kw_min_patch_width pkw))
              (default 1%Z (kw_max_patch_width pkw))
              (default 1%Z (kw_data_height pkw))
              (default None (kw_data_width pkw));
     attrs := ∅ |}.

(** *** Reading the call log *)

(** The builders whose [build] has been called. *)
Definition builders_run (cs : list call) : list builder :=
  omap (λ c, match c with Build b _ => Some b | _ => None end) cs.

(** The log [after] extends the log [before] by calls that all satisfy [R]. *)
Definition extends_with (R : call → Prop) (before after : list call) : Prop :=
  ∃ added, after = added ++ before ∧ Forall R added.


(** The builder that the value of [max_leaf_nodes] calls for. *)
Definition right_builder (max_leaf_nodes : Z) (b : builder) : Prop :=
  (is_best_first b = true ↔ (0 ≤ max_leaf_nodes)%Z)
  ∧ (is_depth_first b = true ↔ (max_leaf_nodes < 0)%Z).

Definition builders_chosen_by (max_leaf_nodes : Z) (c : call) : Prop :=
  match c with
  | NewBuilder b | Build b _ => right_builder max_leaf_nodes b
  | _ => True
  end.

(** What every [_build_tree] guarantees about the builder: the builders
    constructed and run are the ones [max_leaf_nodes] calls for, and a
    run that returns leaves in [tree_] a tree grown by such a builder. *)
Definition grown_tree (max_leaf_nodes : Z) (w : world) : Prop :=
  ∃ t g, attrs (self w) !! "tree_" = Some (VTree (grow t g))
         ∧ Build (grown_by g) g ∈ calls w
         ∧ right_builder max_leaf_nodes (grown_by g).

Definition builder_chosen (max_leaf_nodes : Z) (w : world)
    (r : outcome unit * world) : Prop :=
  extends_with (builders_chosen_by max_leaf_nodes) (calls w) (calls (snd r))
  ∧ (fst r = Ok tt → grown_tree max_leaf_nodes (snd r)).

(** *** Invariants of method bodies

    [stable R I]: the invariant [I] survives every attribute write and
    the logging of every call that satisfies [R].  [spec I m Q]: the
    computation [m] keeps [I], and a value it returns satisfies [Q]. *)
Record stable (R : call → Prop) (I : world → Prop) : Prop := {
  stable_attrs :
    ∀ w a, I w →
      I {| self := {| base := base (self w); own := own (self w); attrs := a |};
           calls := calls w |};
  stable_log :
    ∀ w c, R c → I w → I {| self := self w; calls := c :: calls w |}
}.

Definition spec {A} (I : world → Prop) (m : M A) (Q : A → Prop) : Prop :=
  ∀ w, I w → I (snd (m w)) ∧ ∀ a, fst (m w) = Ok a → Q a.

(** The clustering routine in use: [clustering_func], or the default. *)
Definition routine_of (f : option cluster_class) : cluster_class :=
  match f with
  | None => AgglomerativeClustering
  | Some c => c
  end.

(** The world once [_assign_labels] has recorded the routine it uses. *)
Definition with_clustering (w : world) (f : option cluster_class)
    (a : option (gmap string Z)) : world :=
  {| self :=
       {| base := base (self w);
          own := own (self w);
          attrs := <["clustering_func_args_" := VKwargs (default ∅ a)]>
                     (<["clustering_func_" := VCluster (routine_of f)]>
                        (attrs (self w))) |};
     calls := calls w |}.

(** *** Conditions on the configuration *)

(** The check of [feature_combinations] of the oblique classifier passes. *)
Definition feature_combinations_valid (e : estimator) (X : array2) : Prop :=
  match own e with
  | ObliqueDecisionTreeClassifier _ (Some fc) =>
      num_gt fc (Int (Z.of_nat (shape1 X))) = false
  | _ => True
  end.



(** The five configuration checks of the patch classifier, on the data
    width and height that [fit] derives. *)
Definition patch_violated (min_patch_height max_patch_height
    min_patch_width max_patch_width data_height data_width : Z)
    (n_features : nat) (v : patch_violation) : Prop :=
  match v with
  | DataShapeMismatch => (data_height * data_width)%Z ≠ Z.of_nat n_features
  | MinHeightAboveMax => (min_patch_height > max_patch_height)%Z
  | MinWidthAboveMax => (min_patch_width > max_patch_width)%Z
  | MaxWidthAboveData => (max_patch_width > data_width)%Z
  | MaxHeightAboveData => (max_patch_height > data_height)%Z
  end.

(** The world once [fit] has recorded [data_width_] and [data_height_]. *)
Definition with_patch_shape (w : world) (data_width_ data_height_ : Z) : world :=
  {| self :=
       {| base := base (self w);
          own := own (self w);
          attrs := <["data_height_" := VData (Scalar data_height_)]>
                     (<["data_width_" := VData (Scalar data_width_)]> (attrs (self w))) |};
     calls := calls w |}.


End Classes.

(** ** The stopping policy of the compiled tree builders *)

Module Builder.
Import Py Classes.






(** Modelled from the spec: [min_samples_split] is an integer count or a
    fraction of n; the parameter documentation of the classes gives the
    count of a fraction as [ceil(min_samples_split * n_samples)]. *)
Definition resolve_min_samples_split (p : number) (n_samples : nat) : Z :=
  match p with
  | Int k => k
  | Float q => Qceiling (q * inject_Z (Z.of_nat n_samples))
  end.


End Builder.

(** ** Sample data and a stand-in for scikit-learn

    Concrete inputs on which the methods are run: a small stand-in for
    the collaborators (validation accepts its input and records
    [n_features_in_]; the tree sends a row to leaf 1 or 2 by comparing
    its first feature with 5; clustering labels a sample by the first
    sample it shares a leaf with) and a few feature matrices. *)

Module Fixtures.
Import Py Classes.

Fixpoint first_nonzero (row : list Z) : Z :=
  match row with
  | [] => 0
  | v :: row' => if (v =? 0)%Z then (1 + first_nonzero row')%Z else 0%Z
  end.

Definition leaf_of_row (row : list Q) : Z :=
  match row with
  | x :: _ => if Qle_bool x 5 then 1%Z else 2%Z
  | [] => 1%Z
  end.

Definition toy : collaborators :=
  {| validate_data := λ e X y,
       Ok (X, y, {["n_features_in_" := VData (Scalar (Z.of_nat (shape1 X)))]});
     base_prepare := λ e X y sw check_input,
       Ok ({| ba_X := X;
              ba_y := y;
              ba_sample_weight := sw;
              ba_min_samples_leaf := 1;
              ba_min_weight_leaf := 0;
              ba_max_leaf_nodes := default (-1)%Z (max_leaf_nodes (base e));
              ba_min_samples_split :=
                Builder.resolve_min_samples_split (min_samples_split (base e)) (shape0 X);
              ba_max_depth := default (2 ^ 31 - 1)%Z (max_depth (base e));
              ba_random_state := 0 |},
           list_to_map
             [("n_features_in_", VData (Scalar (Z.of_nat (shape1 X))));
              ("max_features_", VData (Scalar (Z.of_nat (shape1 X))));
              ("n_outputs_", VData (Scalar 1));
              ("n_classes_", VData (Array [2%Z]));
              ("classes_", VData (ArrayList [[0; 1]%Z]))]);
     validate_X_predict := λ e X check_input, Ok X;
     tree_apply := λ t X, leaf_of_row <$> cells X;
     fit_predict := λ f a m, Ok (first_nonzero <$> m) |}.

Definition dense (n_features : nat) (rows : list (list Q)) : array2 :=
  {| shape0 := length rows; shape1 := n_features; store := Dense; cells := rows |}.

(** Two well-separated pairs of samples, two features. *)
Definition X_two_pairs : array2 :=
  dense 2 [[0; 0]; [1 # 10; 0]; [10; 0]; [101 # 10; 0]]%Q.

(** The same samples with a single feature. *)
Definition X_one_feature : array2 :=
  dense 1 [[0]; [1 # 10]; [10]; [101 # 10]]%Q.

(** A sparse (CSC) matrix of three samples and two features. *)
Definition X_sparse : array2 :=
  {| shape0 := 3; shape1 := 2; store := SparseCSC intc intc;
     cells := [[0; 1]; [0; 0]; [2; 0]]%Q |}.

(** A sparse matrix whose index arrays are 64-bit. *)
Definition X_sparse_int64 : array2 :=
  {| shape0 := 3; shape1 := 2; store := SparseCSC int64 int64;
     cells := [[0; 1]; [0; 0]; [2; 0]]%Q |}.

Definition fresh (e : estimator) : world := {| self := e; calls := [] |}.

(** An estimator as scikit-learn's [fit] hands it to [_build_tree]. *)
Definition prepared (e : estimator) (X : array2) : world :=
  match base_prepare toy e X None None false with
  | Ok (_, recorded) =>
      {| self := {| base := base e; own := own e; attrs := recorded ∪ attrs e |};
         calls := [] |}
  | Raise _ => fresh e
  end.

Definition with_min_samples_split (k : Z) : tree_kwargs :=
  {| kw_criterion := None; kw_splitter := None; kw_max_depth := None;
     kw_min_samples_split := Some (Int k); kw_min_samples_leaf := None;
     kw_min_weight_fraction_leaf := None; kw_max_features := None;
     kw_max_leaf_nodes := None; kw_random_state := None;
     kw_min_impurity_decrease := None |}.

Definition leaves_aab : list Z := [4; 4; 9]%Z.
Definition leaves_aba : list Z := [7; 3; 7]%Z.

(** An unsupervised tree with [min_samples_split=2], before and after
    [fit] on the two pairs. *)
Definition w_unsupervised : world :=
  fresh (UnsupervisedDecisionTree__init__ (with_min_samples_split 2) None None).

Definition w_checked : world :=
  snd (unsupervised_check_input toy X_two_pairs w_unsupervised).

Definition w_built : world :=
  snd (BaseDecisionTree_fit toy X_two_pairs None None true w_checked).

Definition w_fitted : world :=
  snd (UnsupervisedDecisionTree_fit toy X_two_pairs None None true w_unsupervised).

(** An unsupervised oblique tree with all-default parameters. *)
Definition w_unsupervised_oblique : world :=
  fresh (UnsupervisedObliqueDecisionTree__init__ no_kwargs None None None).

(** Oblique classifiers about to build a tree on the sparse matrix:
    with [feature_combinations=3.0], and with the default. *)
Definition w_oblique_fc3 : world :=
  prepared (ObliqueDecisionTreeClassifier__init__ no_kwargs None (Some (Some (Float 3))))
    X_sparse.



Definition y_three : option (list Z) := Some [0; 1; 0]%Z.
Definition y_four : option (list Z) := Some [0; 0; 1; 1]%Z.

(** A patch classifier with [min_patch_height=2] above the default
    [max_patch_height=1]. *)
Definition w_patch_min_height_2 : world :=
  fresh (PatchObliqueDecisionTreeClassifier__init__ no_kwargs None
           {| kw_min_patch_height := Some 2%Z; kw_max_patch_height := None;
              kw_min_patch_width := None; kw_max_patch_width := None;
              kw_data_height := None; kw_data_width := None |}).



End Fixtures.

(** ** What the methods write, and what a tree was grown with *)

Module Effects.
Import Py Classes.
Local Open Scope py_scope.

(** [same_except names w w']: from [w] to [w'] the constructor
    parameters are the same, and so is every attribute whose name is not
    in [names]. *)
Definition same_except (names : list string) (w w' : world) : Prop :=
  base (self w') = base (self w)
  ∧ own (self w') = own (self w)
  ∧ ∀ name, name ∉ names → attrs (self w') !! name = attrs (self w) !! name.

(** [writes names m]: whatever the computation [m] does, it sets no
    attribute other than those of [names]. *)
Definition writes {A} (names : list string) (m : M A) : Prop :=
  ∀ w, same_except names w (snd (m w)).

(** The attributes that a [_build_tree] method may set. *)
Definition build_tree_attributes : list string :=
  ["tree_"; "feature_combinations_"; "n_classes_"; "classes_"].

(** The attributes that [_assign_labels] sets. *)
Definition clustering_attributes : list string :=
  ["clustering_func_"; "clustering_func_args_"].

(** The tree class that each estimator class instantiates. *)
Definition tree_class_of (o : class_params) : tree_class :=
  match o with
  | UnsupervisedDecisionTree _ _ => UnsupervisedTree
  | UnsupervisedObliqueDecisionTree _ _ _ => UnsupervisedObliqueTree
  | ObliqueDecisionTreeClassifier _ _ => ObliqueTree
  | PatchObliqueDecisionTreeClassifier _ _ _ _ _ _ _ => ObliqueTree
  end.

(** The builder [b] carries the growth parameters that [_build_tree] was
    called with ([max_leaf_nodes] is an argument of the best-first
    builders only). *)
Definition carries (b : builder) (min_samples_split min_samples_leaf : Z)
    (min_weight_leaf : Q) (max_depth max_leaf_nodes : Z) : Prop :=
  bld_min_samples_split b = min_samples_split
  ∧ bld_min_samples_leaf b = min_samples_leaf
  ∧ bld_min_weight_leaf b = min_weight_leaf
  ∧ bld_max_depth b = max_depth
  ∧ bld_max_leaf_nodes b
    = (if (max_leaf_nodes <? 0)%Z then None else Some max_leaf_nodes).

(** The calls that construct a criterion or a splitter. *)
Definition is_preparation_call (c : call) : bool :=
  match c with
  | NewCriterion _ | DeepCopy _ | NewSplitter _ => true
  | NewTree _ | NewBuilder _ | Build _ _ => false
  end.

(** The splitter [s] that a [_build_tree] method uses for the parameter
    [p]: the instance itself, or a splitter constructed in this call
    (then the only one) from the criterion and the arguments. *)
Definition splitter_from (p : param splitter) (criterion : criterion)
    (min_samples_leaf : Z) (min_weight_leaf : Q) (random_state : Z)
    (s : splitter) (constructed : list call) : Prop :=
  match p with
  | Instance s0 => s = s0 ∧ constructed = []
  | ByName _ =>
      constructed = [NewSplitter s]
      ∧ spl_criterion s = criterion
      ∧ spl_min_samples_leaf s = min_samples_leaf
      ∧ spl_min_weight_leaf s = min_weight_leaf
      ∧ spl_random_state s = random_state
  end.

(** [a[0]], when there is one. *)
Definition first_entry (a : data) : option data :=
  match a with
  | Array (x :: _) => Some (Scalar x)
  | ArrayList (x :: _) => Some (Array x)
  | _ => None
  end.

(** What a returning [_build_tree] has done, as read from the final
    world [w']: after the criterion and possibly a splitter, one tree
    [t], one builder [b] and one call [g] of [build], in this order. *)
Record tree_built (X : array2) (y : option (list Z)) (sw : option (list Q))
    (msl : Z) (mwl : Q) (mln mss md rs : Z) (w w' : world)
    (preparation : list call) (t : tree) (b : builder) (g : growth) : Prop := {
  built_calls :
    calls w' = Build b g :: NewBuilder b :: NewTree t :: preparation ++ calls w;
  built_preparation :
    Forall (λ c, is_preparation_call c = true) preparation;
  built_splitter :
    ∃ criterion constructed,
      splitter_from (splitter_ (base (self w))) criterion msl mwl rs
        (bld_splitter b) constructed
      ∧ ∃ before, preparation = constructed ++ before
                  ∧ Forall (λ c, c = NewCriterion criterion ∨ c = DeepCopy criterion)
                      before
                  ∧ length before = 1;
  built_tree_attr :
    attrs (self w') !! "tree_" = Some (VTree (grow t g));
  built_tree_class : tree_class_ t = tree_class_of (own (self w));
  built_tree_fresh : tree_growth t = None;
  built_carries : carries b mss msl mwl md mln;
  built_impurity :
    bld_min_impurity_decrease b = min_impurity_decrease (base (self w));
  built_by : grown_by g = b;
  built_X : grown_X g = X;
  built_sample_weight : grown_sample_weight g = sw;
  built_y : grown_y g = (if is_classifier (self w) then y else None)
}.

(** The order in which [PatchObliqueDecisionTreeClassifier.fit] makes
    its configuration checks. *)
Definition check_rank (v : patch_violation) : nat :=
  match v with
  | DataShapeMismatch => 0
  | MinHeightAboveMax => 1
  | MinWidthAboveMax => 2
  | MaxWidthAboveData => 3
  | MaxHeightAboveData => 4
  end.

(** The attribute [name] holds an integer or an array of integers. *)
Definition has_data (e : estimator) (name : string) : Prop :=
  ∃ d, attrs e !! name = Some (VData d).

(** The criterion is an instance or a name of the registry. *)
Definition criterion_ready (registry : gmap string criterion_class)
    (e : estimator) : Prop :=
  match criterion_ (base e) with
  | Instance _ => True
  | ByName name => is_Some (registry !! name)
  end.

(** The splitter is an instance, or a name of the registry with
    [max_features_] recorded. *)
Definition splitter_ready (registry : gmap string splitter_class)
    (e : estimator) : Prop :=
  match splitter_ (base e) with
  | Instance _ => True
  | ByName name => is_Some (registry !! name) ∧ has_data e "max_features_"
  end.

(** [n_outputs_] is recorded and, for a single output, [n_classes_] and
    [classes_] are arrays with a first entry. *)
Definition single_output_ready (e : estimator) : Prop :=
  ∃ n, attrs e !! "n_outputs_" = Some (VData n)
       ∧ (n = Scalar 1 →
          ∃ nc cs,
            attrs e !! "n_classes_" = Some (VData nc)
            ∧ is_Some (first_entry nc)
            ∧ attrs e !! "classes_" = Some (VData cs)
            ∧ is_Some (first_entry cs)).

(** What [_build_tree] needs in order to return: the registered names,
    the attributes that the [fit] of the base class records before it
    calls [_build_tree] and, for the two classifiers, a dense matrix and
    a valid [feature_combinations]. *)
Definition build_ready (X : array2) (e : estimator) : Prop :=
  has_data e "n_features_in_"
  ∧ match own e with
    | UnsupervisedDecisionTree _ _ =>
        criterion_ready UNSUPERVISED_CRITERIA e
        ∧ splitter_ready UNSUPERVISED_SPLITTERS e
    | UnsupervisedObliqueDecisionTree _ _ _ =>
        criterion_ready UNSUPERVISED_CRITERIA e
        ∧ splitter_ready UNSUPERVISED_OBLIQUE_SPLITTERS e
    | ObliqueDecisionTreeClassifier _ _ =>
        feature_combinations_valid e X
        ∧ issparse X = false
        ∧ criterion_ready CRITERIA_CLF e
        ∧ has_data e "n_classes_"
        ∧ splitter_ready OBLIQUE_DENSE_SPLITTERS e
        ∧ single_output_ready e
    | PatchObliqueDecisionTreeClassifier _ _ _ _ _ _ _ =>
        issparse X = false
        ∧ criterion_ready CRITERIA_CLF e
        ∧ has_data e "n_classes_"
        ∧ splitter_ready PATCH_DENSE_SPLITTERS e
        ∧ (∀ name, splitter_ (base e) = ByName name →
             ∃ h w, attrs e !! "data_height_" = Some (VData (Scalar h))
                    ∧ attrs e !! "data_width_" = Some (VData (Scalar w)))
        ∧ single_output_ready e
    end.

(** The attributes that the [fit] of the unsupervised trees sets once
    the tree is built. *)
Definition post_build_attributes : list string :=
  ["affinity_matrix_"; "labels_"; "clustering_func_"; "clustering_func_args_"].

End Effects.

(** ** Further sample data *)

Module Samples.
Import Py Classes Fixtures Effects.

(** Four samples, three of them in leaf 5, and their affinity matrix. *)
Definition leaves_abaa : list Z := [5; 8; 5; 5]%Z.

Definition aff_abaa : list (list Z) :=
  [[1; 0; 1; 1]; [0; 1; 0; 0]; [1; 0; 1; 1]; [1; 0; 1; 1]]%Z.

(** All samples in one leaf, and every sample in a leaf of its own. *)
Definition leaves_aaa : list Z := [6; 6; 6]%Z.
Definition leaves_abc : list Z := [2; 9; 4]%Z.

(** An unsupervised tree handed to [_build_tree] by the base class, and
    the world once the tree has been built. *)
Definition w_prepared : world := prepared (self w_unsupervised) X_two_pairs.

Definition w_grown : world :=
  snd (_build_tree X_two_pairs None None 1 0 (-1) 2 (2 ^ 31 - 1) 0 w_prepared).

(** The same for an oblique classifier with all-default parameters. *)
Definition w_classifier : world :=
  prepared (ObliqueDecisionTreeClassifier__init__ no_kwargs None None) X_two_pairs.

Definition w_classifier_grown : world :=
  snd (_build_tree X_two_pairs y_four None 1 0 (-1) 2 (2 ^ 31 - 1) 0 w_classifier).

Definition with_criterion (name : string) : tree_kwargs :=
  {| kw_criterion := Some (ByName name); kw_splitter := None; kw_max_depth := None;
     kw_min_samples_split := None; kw_min_samples_leaf := None;
     kw_min_weight_fraction_leaf := None; kw_max_features := None;
     kw_max_leaf_nodes := None; kw_random_state := None;
     kw_min_impurity_decrease := None |}.

(** An unsupervised tree with the criterion of a classifier, and a patch
    classifier with the criterion of a regressor. *)
Definition w_unsupervised_gini : world :=
  prepared (UnsupervisedDecisionTree__init__ (with_criterion "gini") None None)
    X_two_pairs.

Definition w_patch_poisson : world :=
  fresh (PatchObliqueDecisionTreeClassifier__init__ (with_criterion "poisson") None
           no_patch_kwargs).

(** A patch classifier with all-default parameters, before and after
    [fit] on the two pairs. *)
Definition w_patch : world :=
  fresh (PatchObliqueDecisionTreeClassifier__init__ no_kwargs None no_patch_kwargs).

Definition w_patch_fitted : world :=
  snd (PatchObliqueDecisionTreeClassifier_fit toy X_two_pairs y_four None true w_patch).

(** The affinity matrix of the two pairs. *)
Definition aff_two_pairs : list (list Z) :=
  [[1; 1; 0; 0]; [1; 1; 0; 0]; [0; 0; 1; 1]; [0; 0; 1; 1]]%Z.

(** A feature matrix without columns. *)
Definition X_no_feature : array2 := dense 0 [[]; []].

(** The stand-in for scikit-learn with a clustering routine that fails. *)
Definition toy_failing_clustering : collaborators :=
  {| validate_data := validate_data toy;
     base_prepare := base_prepare toy;
     validate_X_predict := validate_X_predict toy;
     tree_apply := tree_apply toy;
     fit_predict := λ f a m, Raise (CollaboratorError 1) |}.






(** An unsupervised oblique tree with all-default parameters, handed the
    sparse matrix by the base class. *)
Definition w_unsupervised_oblique_sparse : world :=
  prepared (self w_unsupervised_oblique) X_sparse.

(** A patch classifier with all-default parameters handed the two pairs
    by the base class, once its [fit] has recorded the shape of the data. *)
Definition w_patch_prepared : world :=
  prepared
    {| base := base (self w_patch);
       own := own (self w_patch);
       attrs := <["data_height_" := VData (Scalar 1)]>
                  (<["data_width_" := VData (Scalar 2)]> ∅) |}
    X_two_pairs.

(** The stand-in for scikit-learn with a validation for prediction that,
    like scikit-learn's, compares the number of columns with
    [n_features_in_]. *)
Definition toy_checking_features : collaborators :=
  {| validate_data := validate_data toy;
     base_prepare := base_prepare toy;
     validate_X_predict := λ e X check_input,
       match attrs e !! "n_features_in_" with
       | Some (VData (Scalar n)) =>
           if (n =? Z.of_nat (shape1 X))%Z then Ok X
           else Raise (CollaboratorError 2)
       | _ => Raise (AttributeError "n_features_in_")
       end;
     tree_apply := tree_apply toy;
     fit_predict := fit_predict toy |}.

End Samples.

(** * Properties *)

(** ** Facts about the NumPy operations *)

Module NumpyFacts.
Import Numpy.

Lemma int32_small z : (- 2 ^ 31 ≤ z < 2 ^ 31)%Z → int32 z = z.
Proof.
  intros Hz. unfold int32.
  rewrite Z.mod_small; lia.
Qed.

(** *** [unique] *)

Lemma elem_of_insert_unique x y l : y ∈ insert_unique x l ↔ y = x ∨ y ∈ l.
Proof.
  induction l as [|z l IH]; simpl.
  - rewrite list_elem_of_singleton, elem_of_nil. tauto.
  - destruct (Z.ltb_spec x z).
    + apply elem_of_cons.
    + destruct (Z.eqb_spec x z) as [->|Hne].
      * rewrite elem_of_cons. tauto.
      * rewrite !elem_of_cons, IH. tauto.
Qed.

Lemma elem_of_unique x xs : x ∈ unique xs ↔ x ∈ xs.
Proof.
  unfold unique. induction xs as [|y xs IH]; simpl.
  - reflexivity.
  - rewrite elem_of_insert_unique, elem_of_cons, IH. reflexivity.
Qed.

Lemma insert_unique_sorted x l :
  StronglySorted Z.lt l → StronglySorted Z.lt (insert_unique x l).
Proof.
  induction 1 as [|z l Hs IH Hall]; simpl.
  - repeat constructor.
  - destruct (Z.ltb_spec x z).
    + constructor; [by constructor|].
      constructor; [done|].
      eapply Forall_impl; [exact Hall|]. simpl. intros; lia.
    + destruct (Z.eqb_spec x z) as [->|Hne].
      * by constructor.
      * constructor; [done|].
        apply Forall_forall. intros y Hy.
        apply elem_of_insert_unique in Hy as [->|Hy]; [lia|].
        by eapply Forall_forall in Hall.
Qed.

Lemma unique_sorted xs : StronglySorted Z.lt (unique xs).
Proof.
  unfold unique. induction xs; simpl.
  - constructor.
  - by apply insert_unique_sorted.
Qed.

Lemma sorted_NoDup (l : list Z) : StronglySorted Z.lt l → NoDup l.
Proof.
  induction 1 as [|z l Hs IH Hall]; constructor; [|done].
  intros Hin. eapply Forall_forall in Hall; [|exact Hin]. lia.
Qed.

Lemma unique_NoDup xs : NoDup (unique xs).
Proof. apply sorted_NoDup, unique_sorted. Qed.

(** *** [argwhere], [squeeze] and [atleast_1d] *)

Lemma argwhere_eq_from_singletons k xs leaf :
  Forall (λ r, length r = 1) (argwhere_eq_from k xs leaf).
Proof.
  revert k. induction xs as [|x xs IH]; intros k; simpl.
  - constructor.
  - destruct (x =? leaf)%Z; [constructor|]; auto.
Qed.

Lemma atleast_1d_squeeze (a : list (list nat)) :
  Forall (λ r, length r = 1) a → atleast_1d (squeeze a) = concat a.
Proof.
  intros Ha. destruct a as [|r a]; [done|].
  destruct r as [|x [|y r]].
  - by inversion Ha.
  - destruct a; done.
  - inversion Ha; simplify_eq/=.
Qed.

Lemma elem_of_argwhere_eq_from k xs leaf i :
  i ∈ concat (argwhere_eq_from k xs leaf)
  ↔ ∃ p, i = k + p ∧ xs !! p = Some leaf.
Proof.
  revert k. induction xs as [|x xs IH]; intros k; simpl.
  - split; [by intros ?%elem_of_nil|]. by intros (p & _ & ?).
  - destruct (Z.eqb_spec x leaf) as [->|Hne]; simpl.
    + rewrite elem_of_cons, IH. split.
      * intros [->|(p & -> & Hp)].
        -- exists 0. split; [lia|done].
        -- exists (S p). split; [lia|done].
      * intros ([|p] & -> & Hp).
        -- left. lia.
        -- right. exists p. split; [lia|done].
    + rewrite IH. split.
      * intros (p & -> & Hp). exists (S p). split; [lia|done].
      * intros ([|p] & -> & Hp); simplify_eq/=.
        exists p. split; [lia|done].
Qed.

(** *** Reading and writing through an open mesh *)

Lemma getitem_row_spec (row : list Z) cs :
  Forall (λ j, j < length row) cs →
  getitem_row row cs = Some ((λ j, row !!! j) <$> cs).
Proof.
  induction 1 as [|j cs Hj _ IH]; csimpl; [done|].
  rewrite (list_lookup_lookup_total_lt row j Hj). simpl.
  rewrite IH. done.
Qed.

Lemma setitem_row_spec (f : nat → Z) cs (row : list Z) :
  Forall (λ j, j < length row) cs →
  ∃ row', setitem_row row cs (f <$> cs) = Some row'
          ∧ length row' = length row
          ∧ ∀ k, row' !!! k = if decide (k ∈ cs) then f k else row !!! k.
Proof.
  revert row. induction cs as [|j cs IH]; intros row Hcs; csimpl.
  - exists row. by split_and!.
  - apply Forall_cons in Hcs as [Hj Hcs].
    rewrite decide_True by done.
    destruct (IH (<[j := f j]> row)) as (row' & Hset & Hlen & Hget).
    { by rewrite length_insert. }
    exists row'. split_and!; [done| by rewrite Hlen, length_insert |].
    intros k. rewrite Hget.
    destruct (decide (k ∈ cs)) as [Hk|Hk].
    + rewrite decide_True; [done|]. by right.
    + destruct (decide (k = j)) as [->|Hne].
      * rewrite decide_True by (by left).
        by rewrite list_lookup_total_insert_eq.
      * rewrite decide_False by (rewrite elem_of_cons; tauto).
        by rewrite list_lookup_total_insert_ne.
Qed.

Lemma rows_of_length_lookup n m i :
  rows_of_length n m → i < length m → length (m !!! i) = n.
Proof.
  intros Hm Hi. eapply Forall_forall in Hm; [exact Hm|].
  apply list_elem_of_lookup_total_2. done.
Qed.

Lemma ix_get_spec n (m : list (list Z)) rs cs :
  rows_of_length n m →
  Forall (λ i, i < length m) rs →
  Forall (λ j, j < n) cs →
  ix_get m rs cs = Some ((λ i, (λ j, cell m i j) <$> cs) <$> rs).
Proof.
  intros Hm Hrs Hcs. induction Hrs as [|i rs Hi _ IH]; csimpl; [done|].
  rewrite (list_lookup_lookup_total_lt m i Hi). simpl.
  rewrite getitem_row_spec.
  - simpl. rewrite IH. done.
  - by rewrite (rows_of_length_lookup n).
Qed.

Lemma ix_set_spec (g : nat → nat → Z) n rs cs (m : list (list Z)) :
  rows_of_length n m →
  Forall (λ i, i < length m) rs →
  Forall (λ j, j < n) cs →
  ∃ m', ix_set m rs cs ((λ i, g i <$> cs) <$> rs) = Some m'
        ∧ length m' = length m
        ∧ rows_of_length n m'
        ∧ ∀ i j, i < length m →
            cell m' i j
            = if decide (i ∈ rs ∧ j ∈ cs) then g i j else cell m i j.
Proof.
  intros Hm Hrs Hcs. revert m Hm Hrs.
  induction rs as [|r rs IH]; intros m Hm Hrs; csimpl.
  - exists m. by split_and!.
  - apply Forall_cons in Hrs as [Hr Hrs].
    rewrite (list_lookup_lookup_total_lt m r Hr). simpl.
    destruct (setitem_row_spec (g r) cs (m !!! r)) as (row' & Hset & Hlen & Hrow).
    { by rewrite (rows_of_length_lookup n). }
    rewrite Hset. simpl.
    destruct (IH (<[r := row']> m)) as (m' & Hix & Hlen' & Hrows' & Hget).
    { unfold rows_of_length. apply Forall_insert; [done|].
      rewrite Hlen. by apply rows_of_length_lookup. }
    { by rewrite length_insert. }
    exists m'. split_and!; [done| by rewrite Hlen', length_insert | done |].
    intros i j Hi. rewrite Hget by (by rewrite length_insert).
    unfold cell.
    destruct (decide (i = r)) as [->|Hne].
    + rewrite list_lookup_total_insert_eq by done. rewrite Hrow.
      repeat case_decide; try done; exfalso;
        rewrite ?elem_of_cons in *; tauto.
    + rewrite list_lookup_total_insert_ne by done.
      repeat case_decide; try done; exfalso;
        rewrite ?elem_of_cons in *; tauto.
Qed.

Lemma ix_iadd_spec n (m : list (list Z)) rs cs k :
  rows_of_length n m →
  Forall (λ i, i < length m) rs →
  Forall (λ j, j < n) cs →
  ∃ m', ix_iadd m rs cs k = Some m'
        ∧ length m' = length m
        ∧ rows_of_length n m'
        ∧ ∀ i j, i < length m →
            cell m' i j
            = if decide (i ∈ rs ∧ j ∈ cs) then int32 (cell m i j + k)
              else cell m i j.
Proof.
  intros Hm Hrs Hcs. unfold ix_iadd.
  rewrite (ix_get_spec n) by done. simpl.
  unfold add_scalar.
  rewrite map_map.
  erewrite map_ext; [|intros i; apply map_map].
  apply (ix_set_spec (λ i j, int32 (cell m i j + k)) n); done.
Qed.

End NumpyFacts.

(** ** The affinity matrix (claims C1 and C2) *)

Module AffinityFacts.
Import Numpy Affinity Fixtures NumpyFacts.

Lemma elem_of_samples_in_leaf X_leaves leaf i :
  i ∈ samples_in_leaf X_leaves leaf ↔ X_leaves !! i = Some leaf.
Proof.
  unfold samples_in_leaf, argwhere_eq.
  rewrite atleast_1d_squeeze by apply argwhere_eq_from_singletons.
  rewrite elem_of_argwhere_eq_from. split.
  - by intros (p & -> & Hp).
  - intros Hi. by exists i.
Qed.

Lemma samples_in_leaf_in_range X_leaves leaf :
  Forall (λ i, i < length X_leaves) (samples_in_leaf X_leaves leaf).
Proof.
  apply Forall_forall. intros i Hi%elem_of_samples_in_leaf.
  by eapply lookup_lt_Some.
Qed.

Lemma elem_of_samples_in_leaf_total (X_leaves : list Z) leaf i :
  i < length X_leaves →
  i ∈ samples_in_leaf X_leaves leaf ↔ X_leaves !!! i = leaf.
Proof.
  intros Hi. rewrite elem_of_samples_in_leaf.
  rewrite (list_lookup_lookup_total_lt X_leaves i Hi). split; congruence.
Qed.

(** *** The initial matrix *)

Lemma zeros_square n : square n (zeros n n).
Proof.
  split; unfold zeros.
  - apply length_replicate.
  - apply Forall_replicate, length_replicate.
Qed.

Lemma cell_zeros n i j : i < n → j < n → cell (zeros n n) i j = 0%Z.
Proof.
  intros Hi Hj. unfold cell, zeros.
  by rewrite !lookup_total_replicate_2.
Qed.

(** *** The loop *)

Lemma counted_step X_leaves seen leaf m m' :
  leaf ∉ seen →
  length m = length X_leaves →
  counted X_leaves seen m →
  (∀ i j, i < length m →
     cell m' i j
     = if decide (i ∈ samples_in_leaf X_leaves leaf
                  ∧ j ∈ samples_in_leaf X_leaves leaf)
       then int32 (cell m i j + 1) else cell m i j) →
  counted X_leaves (seen ++ [leaf]) m'.
Proof.
  intros Hfresh Hlen Hm Hm' i j Hi Hj.
  rewrite Hm' by lia. rewrite (Hm i j Hi Hj).
  assert (Hs : i ∈ samples_in_leaf X_leaves leaf ∧ j ∈ samples_in_leaf X_leaves leaf
               ↔ X_leaves !!! i = leaf ∧ X_leaves !!! j = leaf).
  { by rewrite !elem_of_samples_in_leaf_total by done. }
  remember (X_leaves !!! i) as a eqn:Ea.
  remember (X_leaves !!! j) as b eqn:Eb.
  clear Ea Eb.
  destruct (decide (a = leaf ∧ b = leaf)) as [[-> ->]|Hne].
  - rewrite decide_True by (by apply Hs).
    rewrite decide_False by (by intros [_ ?]).
    rewrite decide_True; [reflexivity|].
    split; [done|]. apply elem_of_app. right. by apply list_elem_of_singleton.
  - rewrite decide_False by (by rewrite Hs).
    destruct (decide (a = b ∧ a ∈ seen)) as [[Hab Ha]|Hn].
    + rewrite decide_True; [done|]. split; [done|]. apply elem_of_app. by left.
    + rewrite decide_False; [done|].
      intros [Hab [Ha|Ha%list_elem_of_singleton]%elem_of_app].
      * by apply Hn.
      * apply Hne. split; congruence.
Qed.

Lemma for_each_leaf_spec X_leaves leaves :
  ∀ seen m,
    NoDup leaves →
    (∀ leaf, leaf ∈ leaves → leaf ∉ seen) →
    square (length X_leaves) m →
    counted X_leaves seen m →
    ∃ m', for_each_leaf leaves X_leaves m = Some m'
          ∧ square (length X_leaves) m'
          ∧ counted X_leaves (seen ++ leaves) m'.
Proof.
  induction leaves as [|leaf leaves IH]; intros seen m Hnd Hfresh [Hlen Hrows] Hm; simpl.
  - exists m. rewrite app_nil_r. by repeat split.
  - apply NoDup_cons in Hnd as [Hleaf Hnd].
    destruct (ix_iadd_spec (length X_leaves) m
                (samples_in_leaf X_leaves leaf) (samples_in_leaf X_leaves leaf) 1)
      as (m1 & Hadd & Hlen1 & Hrows1 & Hcells).
    { done. }
    { rewrite Hlen. apply samples_in_leaf_in_range. }
    { apply samples_in_leaf_in_range. }
    rewrite Hadd. simpl.
    destruct (IH (seen ++ [leaf]) m1) as (m' & Hloop & Hsq & Hcount).
    { done. }
    { intros l Hl. rewrite elem_of_app, list_elem_of_singleton.
      intros [Hs| ->]; [|done].
      eapply Hfresh; [|exact Hs]. by right. }
    { split; [congruence|done]. }
    { eapply counted_step; [|done|done|done].
      apply Hfresh. by left. }
    exists m'. split_and!; [done..|].
    by rewrite <- app_assoc in Hcount.
Qed.

(** *** The co-membership matrix *)

Lemma co_membership_square X_leaves :
  square (length X_leaves) (co_membership X_leaves).
Proof.
  split; unfold co_membership.
  - apply length_fmap.
  - apply Forall_fmap, Forall_forall. intros a _. simpl. apply length_fmap.
Qed.

Lemma entry_co_membership X_leaves i j :
  entry (co_membership X_leaves) i j
  = a ← X_leaves !! i; b ← X_leaves !! j; Some (same_leaf a b).
Proof.
  unfold entry, co_membership. rewrite list_lookup_fmap.
  destruct (X_leaves !! i) as [a|]; simpl; [|done].
  rewrite list_lookup_fmap. by destruct (X_leaves !! j).
Qed.

Lemma cell_co_membership (X_leaves : list Z) i j :
  i < length X_leaves → j < length X_leaves →
  cell (co_membership X_leaves) i j
  = same_leaf (X_leaves !!! i) (X_leaves !!! j).
Proof.
  intros Hi Hj. unfold cell, co_membership.
  rewrite (list_lookup_total_fmap _ X_leaves i) by done.
  by rewrite (list_lookup_total_fmap _ X_leaves j) by done.
Qed.

Lemma square_ext n m1 m2 :
  square n m1 → square n m2 →
  (∀ i j, i < n → j < n → cell m1 i j = cell m2 i j) →
  m1 = m2.
Proof.
  intros [Hl1 Hr1] [Hl2 Hr2] Hcells.
  apply (list_eq_same_length _ _ n); [done..|].
  intros i r1 r2 Hi H1 H2.
  apply (list_eq_same_length _ _ n).
  - eapply Forall_lookup in Hr2; [exact Hr2|exact H2].
  - eapply Forall_lookup in Hr1; [exact Hr1|exact H1].
  - intros j x y Hj Hx Hy.
    specialize (Hcells i j Hi Hj). unfold cell in Hcells.
    rewrite (list_lookup_total_correct _ _ _ H1) in Hcells.
    rewrite (list_lookup_total_correct _ _ _ H2) in Hcells.
    rewrite (list_lookup_total_correct _ _ _ Hx) in Hcells.
    by rewrite (list_lookup_total_correct _ _ _ Hy) in Hcells.
Qed.

(** The function is total, and its result is the co-membership matrix. *)
Lemma compute_affinity_matrix_eq X_leaves :
  _compute_affinity_matrix X_leaves = Some (co_membership X_leaves).
Proof.
  unfold _compute_affinity_matrix.
  destruct (for_each_leaf_spec X_leaves (unique X_leaves) []
              (zeros (length X_leaves) (length X_leaves)))
    as (m & Hloop & Hsq & Hcount).
  { apply unique_NoDup. }
  { intros leaf _. apply not_elem_of_nil. }
  { apply zeros_square. }
  { intros i j Hi Hj. rewrite cell_zeros by done.
    rewrite decide_False; [done|]. intros [_ []%elem_of_nil]. }
  rewrite Hloop. f_equal.
  apply (square_ext (length X_leaves)); [done|apply co_membership_square|].
  intros i j Hi Hj.
  rewrite (Hcount i j Hi Hj), cell_co_membership by done.
  unfold same_leaf. simpl.
  repeat case_decide; try reflexivity; exfalso.
  - tauto.
  - apply H. split; [done|].
    apply elem_of_unique, list_elem_of_lookup_total_2. done.
Qed.

(** C1. For every leaf-assignment vector [X_leaves] of length n,
    [_compute_affinity_matrix] returns an n-by-n integer matrix whose
    entry (i, j) is 1 if [X_leaves[i] == X_leaves[j]] and 0 otherwise:
    the result is the co-membership matrix, so every pair of samples
    sharing a leaf (self-pairs included) has been incremented exactly
    once. *)
Theorem compute_affinity_matrix_entries (X_leaves : list Z) :
  ∃ aff_matrix,
    _compute_affinity_matrix X_leaves = Some aff_matrix
    ∧ square (length X_leaves) aff_matrix
    ∧ aff_matrix = co_membership X_leaves
    ∧ ∀ i j a b,
        X_leaves !! i = Some a → X_leaves !! j = Some b →
        entry aff_matrix i j = Some (if decide (a = b) then 1%Z else 0%Z).
Proof.
  exists (co_membership X_leaves). split_and!.
  - apply compute_affinity_matrix_eq.
  - apply co_membership_square.
  - reflexivity.
  - intros i j a b Hi Hj. rewrite entry_co_membership, Hi, Hj. reflexivity.
Qed.

Lemma compute_affinity_matrix_entries_witness :
  (leaves_aab !! 0 = Some 4%Z ∧ leaves_aab !! 1 = Some 4%Z
   ∧ leaves_aab !! 2 = Some 9%Z)
  ∧ ∃ aff_matrix,
      _compute_affinity_matrix leaves_aab = Some aff_matrix
      ∧ entry aff_matrix 0 1 = Some 1%Z
      ∧ entry aff_matrix 0 2 = Some 0%Z.
Proof.
  split; [by repeat split|].
  destruct (compute_affinity_matrix_entries leaves_aab) as (aff & Hrun & _ & _ & Hentry).
  exists aff. split; [exact Hrun|]. split.
  - apply (Hentry 0 1 4%Z 4%Z); reflexivity.
  - apply (Hentry 0 2 4%Z 9%Z); reflexivity.
Defined.

Lemma co_membership_invariants X_leaves :
  affinity_invariants (length X_leaves) (co_membership X_leaves).
Proof.
  split_and!.
  - apply co_membership_square.
  - intros i j. rewrite !entry_co_membership.
    destruct (X_leaves !! i) as [a|], (X_leaves !! j) as [b|]; simpl; try done.
    unfold same_leaf. repeat case_decide; congruence.
  - intros i j v. rewrite entry_co_membership.
    destruct (X_leaves !! i) as [a|], (X_leaves !! j) as [b|]; simpl; try done.
    intros [= <-]. unfold same_leaf. case_decide; lia.
  - intros i Hi. rewrite entry_co_membership.
    rewrite (list_lookup_lookup_total_lt X_leaves i Hi). simpl.
    unfold same_leaf. by rewrite decide_True.
Qed.

Example affinity_two_pairs :
  _compute_affinity_matrix [1; 1; 2; 2]%Z
  = Some [[1; 1; 0; 0]; [1; 1; 0; 0]; [0; 0; 1; 1]; [0; 0; 1; 1]]%Z.
Proof. reflexivity. Qed.

Example affinity_interleaved :
  _compute_affinity_matrix [7; 3; 7]%Z = Some [[1; 0; 1]; [0; 1; 0]; [1; 0; 1]]%Z.
Proof. reflexivity. Qed.

Example affinity_empty : _compute_affinity_matrix [] = Some [].
Proof. reflexivity. Qed.

End AffinityFacts.

(** ** The estimator methods *)

Module ClassesFacts.
Import Numpy Affinity Py Classes Fixtures AffinityFacts.

(** Unfolding of the monad and of the attribute primitives. *)
Ltac unfold_monad :=
  unfold getattr_data, getattr_num, getattr_tree, getattr_matrix, getattr,
    setattr, record_attrs, dict_getitem, new_criterion, deepcopy, new_splitter,
    new_tree, new_builder, check_is_fitted, _compute_affinity_matrix_m,
    bind, ret, raise, lift, get_self, put_attrs, log in *.

(** Case analysis on the next value a computation inspects. *)
Ltac case_scrutinee :=
  match goal with
  | |- context [match ?x with _ => _ end] =>
      lazymatch x with
      | context [match _ with _ => _ end] => fail
      | _ => destruct x eqn:?
      end
  end.

Ltac run_cases := repeat (simpl; case_scrutinee); simpl.

(** Attribute reads after attribute writes. *)
Ltac simpl_attrs :=
  repeat (simpl; first [rewrite lookup_insert_eq | rewrite lookup_insert_ne by done]);
  simpl.

Ltac unfold_blocks :=
  unfold supervised_criterion, supervised_tree, supervised_builder,
    unwrap_single_output, build, index0, is_classifier in *.

Ltac run_step :=
  simpl;
  first [ rewrite lookup_insert_eq
        | rewrite lookup_insert_ne by done
        | case_scrutinee ].

Ltac run_all := repeat run_step; simpl.

(** After the case analysis: the affinity kernel is total, and the
    equations collected on the way are put to use. *)
Ltac finish_cases :=
  repeat match goal with
         | H : _compute_affinity_matrix _ = _ |- _ =>
             rewrite compute_affinity_matrix_eq in H
         end;
  simplify_eq; try done.

(** *** [transform] (claim C5) *)

Lemma apply_frame K X w : snd (apply K X w) = w.
Proof. unfold apply. unfold_monad. by run_cases. Qed.

Lemma transform_frame K X w : snd (transform K X w) = w.
Proof. unfold transform, apply. unfold_monad. by run_cases. Qed.

Lemma transform_fitted K X w Xv t :
  fitted_attributes (self w) ≠ [] →
  validate_X_predict K (self w) X true = Ok Xv →
  attrs (self w) !! "tree_" = Some (VTree t) →
  transform K X w = (Ok (co_membership (tree_apply K t Xv)), w).
Proof.
  intros Hfit Hval Htree. unfold transform, apply. unfold_monad.
  run_cases; finish_cases.
Qed.

Lemma transform_not_fitted K X w :
  fitted_attributes (self w) = [] →
  transform K X w = (Raise NotFittedError, w).
Proof.
  intros Hfit. unfold transform, apply. unfold_monad. by rewrite Hfit.
Qed.

(** C5. For a fitted estimator, [transform(X)] recomputes the leaf
    assignment of X against the tree already held by [tree_] and returns
    the affinity matrix of that assignment; it never changes the
    estimator (so [tree_], [affinity_matrix_] and [labels_] are as
    before) and never constructs or runs a builder; on an estimator that
    has not been fitted it raises [NotFittedError]. *)
Theorem transform_recomputes_without_refitting K X w :
  (∀ Xv t,
     fitted_attributes (self w) ≠ [] →
     validate_X_predict K (self w) X true = Ok Xv →
     attrs (self w) !! "tree_" = Some (VTree t) →
     fst (transform K X w) = Ok (co_membership (tree_apply K t Xv))
     ∧ _compute_affinity_matrix (tree_apply K t Xv)
       = Some (co_membership (tree_apply K t Xv)))
  ∧ snd (transform K X w) = w
  ∧ (let w' := snd (transform K X w) in
     attrs (self w') !! "tree_" = attrs (self w) !! "tree_"
     ∧ attrs (self w') !! "affinity_matrix_" = attrs (self w) !! "affinity_matrix_"
     ∧ attrs (self w') !! "labels_" = attrs (self w) !! "labels_"
     ∧ calls w' = calls w)
  ∧ (fitted_attributes (self w) = [] →
     fst (transform K X w) = Raise NotFittedError)
  ∧ (∀ kw f a,
       self w = UnsupervisedDecisionTree__init__ kw f a →
       fst (transform K X w) = Raise NotFittedError)
  ∧ (∀ kw fc f a,
       self w = UnsupervisedObliqueDecisionTree__init__ kw fc f a →
       fst (transform K X w) = Raise NotFittedError).
Proof.
  split_and!.
  - intros Xv t Hfit Hval Htree.
    rewrite (transform_fitted K X w Xv t) by done.
    split; [done|apply compute_affinity_matrix_eq].
  - apply transform_frame.
  - simpl. by rewrite transform_frame.
  - intros Hfit. by rewrite transform_not_fitted.
  - intros kw f a He. rewrite transform_not_fitted; [done|].
    by rewrite He.
  - intros kw fc f a He. rewrite transform_not_fitted; [done|].
    by rewrite He.
Qed.

(** *** [predict] (claim C4) *)

Lemma assign_labels_run K aff w f a :
  (own (self w) = UnsupervisedDecisionTree f a
   ∨ ∃ fc, own (self w) = UnsupervisedObliqueDecisionTree fc f a) →
  fst (_assign_labels K aff w) = fit_predict K (routine_of f) (default ∅ a) aff.
Proof.
  intros Hown. unfold _assign_labels, self_clustering_func, self_clustering_func_args.
  unfold_monad. simpl.
  destruct Hown as [Hown|[fc Hown]]; rewrite Hown;
    destruct f, a; simpl; rewrite ?Hown; simpl_attrs;
    by destruct (fit_predict K _ _ aff).
Qed.

(** C4. For a fitted unsupervised tree, [predict(X)] returns exactly what
    [fit_predict] of the clustering routine returns on the affinity
    matrix that [transform] computes for the (validated) X; the routine
    is [clustering_func], and [AgglomerativeClustering] when no
    [clustering_func] was configured. *)
Theorem predict_clusters_transform K X check_input w :
  ∀ f a Xv affinity_matrix,
    (own (self w) = UnsupervisedDecisionTree f a
     ∨ ∃ fc, own (self w) = UnsupervisedObliqueDecisionTree fc f a) →
    validate_X_predict K (self w) X check_input = Ok Xv →
    fst (transform K Xv w) = Ok affinity_matrix →
    fst (predict K X check_input w)
    = fit_predict K (routine_of f) (default ∅ a) affinity_matrix
    ∧ (f = None → routine_of f = AgglomerativeClustering).
Proof.
  intros f a Xv aff Hown Hval Htr. split; [|by intros ->].
  unfold predict. unfold bind at 1 2 3, get_self, lift. simpl.
  rewrite Hval.
  pose proof (transform_frame K Xv w) as Hfr.
  destruct (transform K Xv w) as [r w']. simpl in *. subst r w'.
  by apply assign_labels_run.
Qed.

(** *** The call log *)

Lemma extends_with_refl R l : extends_with R l l.
Proof. exists []. by split. Qed.

Lemma extends_with_cons R c l l' :
  R c → extends_with R l l' → extends_with R l (c :: l').
Proof.
  intros Hc (added & -> & Hall). exists (c :: added). split; [done|].
  by constructor.
Qed.

Lemma extends_with_impl (R R' : call → Prop) l l' :
  (∀ c, R c → R' c) → extends_with R l l' → extends_with R' l l'.
Proof.
  intros HR (added & -> & Hall). exists added. split; [done|].
  eapply Forall_impl; eauto.
Qed.

Lemma right_builder_depth_first mln b :
  (mln <? 0)%Z = true → is_best_first b = false → is_depth_first b = true →
  right_builder mln b.
Proof.
  intros ?%Z.ltb_lt Hb Hd. unfold right_builder. rewrite Hb, Hd.
  split; split; (done || lia).
Qed.

Lemma right_builder_best_first mln b :
  (mln <? 0)%Z = false → is_best_first b = true → is_depth_first b = false →
  right_builder mln b.
Proof.
  intros ?%Z.ltb_ge Hb Hd. unfold right_builder. rewrite Hb, Hd.
  split; split; (done || lia).
Qed.

(** *** Invariants and their rules *)

Lemma stable_extends_with R w0 :
  stable R (λ w, extends_with R (calls w0) (calls w)).
Proof.
  split; simpl; [done|]. intros w c Hc Hw. by apply extends_with_cons.
Qed.

Lemma stable_params b o :
  stable (λ _, True) (λ w, base (self w) = b ∧ own (self w) = o).
Proof. by split. Qed.

Lemma stable_weaken (R R' : call → Prop) I :
  (∀ c, R' c → R c) → stable R I → stable R' I.
Proof. intros HR [Ha Hl]. split; [done|]. intros w c Hc. apply Hl. auto. Qed.

Section SpecRules.
Context {R : call → Prop} {I : world → Prop}.

Lemma spec_ret {A} (a : A) (Q : A → Prop) : Q a → spec I (ret a) Q.
Proof. intros Ha w Hw. split; [done|]. by intros ? [= <-]. Qed.

Lemma spec_raise {A} e (Q : A → Prop) : spec I (raise e) Q.
Proof. intros w Hw. by split. Qed.

Lemma spec_lift {A} (o : outcome A) (Q : A → Prop) :
  (∀ a, o = Ok a → Q a) → spec I (lift o) Q.
Proof. intros Ho w Hw. by split. Qed.

Lemma spec_get_self : spec I get_self (λ _, True).
Proof. intros w Hw. by split. Qed.

Lemma spec_bind {A B} (m : M A) (k : A → M B) (Q1 : A → Prop) (Q : B → Prop) :
  spec I m Q1 → (∀ a, Q1 a → spec I (k a) Q) → spec I (bind m k) Q.
Proof.
  intros Hm Hk w Hw. unfold bind.
  destruct (Hm w Hw) as [Hw1 Hq]. destruct (m w) as [[a|e] w1]; simpl in *.
  - apply (Hk a); auto.
  - by split.
Qed.

Lemma spec_weaken {A} (m : M A) (Q Q' : A → Prop) :
  (∀ a, Q a → Q' a) → spec I m Q → spec I m Q'.
Proof. intros HQ Hm w Hw. destruct (Hm w Hw). split; auto. Qed.

Lemma spec_put_attrs a : stable R I → spec I (put_attrs a) (λ _, True).
Proof. intros HI w Hw. split; [|done]. by apply (stable_attrs R I HI). Qed.

Lemma spec_log c : stable R I → R c → spec I (log c) (λ _, True).
Proof. intros HI Hc w Hw. split; [|done]. by apply (stable_log R I HI). Qed.

End SpecRules.

(** Syntax-directed proof of [spec I m (λ _, True)]: [tac] justifies the
    calls that are logged. *)
Ltac spec_step HI tac :=
  lazymatch goal with
  | |- spec _ (bind _ _) _ =>
      eapply (spec_bind _ _ (λ _, True)); [|intros ? _]
  | |- spec _ (ret _) _ => by apply spec_ret
  | |- spec _ (raise _) _ => apply spec_raise
  | |- spec _ (lift _) _ => by apply spec_lift
  | |- spec _ get_self _ => apply spec_get_self
  | |- spec _ (put_attrs _) _ => apply (spec_put_attrs _ HI)
  | |- spec _ (log _) _ => apply (spec_log _ HI); tac
  | |- spec _ (match ?x with _ => _ end) _ => destruct x eqn:?
  end.

Ltac unfold_attr_ops :=
  unfold getattr_data, getattr_num, getattr_tree, getattr_matrix, getattr,
    setattr, record_attrs, dict_getitem, check_is_fitted,
    _compute_affinity_matrix_m, index0.

Ltac unfold_constructors :=
  unfold new_criterion, deepcopy, new_splitter, new_tree, new_builder.

Ltac spec_auto HI tac :=
  repeat first [ spec_step HI tac | progress (unfold_attr_ops; unfold_constructors) ].

Section Blocks.
Context {R : call → Prop} {I : world → Prop} (HI : stable R I).

Lemma spec_getattr name : spec I (getattr name) (λ _, True).
Proof. unfold getattr. spec_auto HI idtac. Qed.

Lemma spec_setattr name v : spec I (setattr name v) (λ _, True).
Proof. unfold setattr. spec_auto HI idtac. Qed.

Lemma spec_supervised_criterion n :
  (∀ c, R (NewCriterion c)) → (∀ c, R (DeepCopy c)) →
  spec I (supervised_criterion n) (λ _, True).
Proof. intros H1 H2. unfold supervised_criterion. spec_auto HI ltac:(auto). Qed.

Lemma spec_supervised_tree :
  (∀ t, R (NewTree t)) → spec I supervised_tree (λ _, True).
Proof. intros H1. unfold supervised_tree. spec_auto HI ltac:(auto). Qed.

Lemma spec_unwrap_single_output : spec I unwrap_single_output (λ _, True).
Proof. unfold unwrap_single_output. spec_auto HI idtac. Qed.

Lemma spec_build b X y sw :
  (∀ g, R (Build b g)) → spec I (build b X y sw) (λ _, True).
Proof. intros H1. unfold build. spec_auto HI ltac:(auto). Qed.

Lemma spec_new_builder b (Q : builder → Prop) :
  R (NewBuilder b) → Q b → spec I (new_builder b) Q.
Proof.
  intros Hb HQ. unfold new_builder.
  eapply (spec_bind _ _ (λ _, True)); [by apply (spec_log _ HI)|intros _ _].
  by apply spec_ret.
Qed.

Lemma spec_supervised_builder s mss msl mwl md mln :
  (∀ b, right_builder mln b → R (NewBuilder b)) →
  spec I (supervised_builder s mss msl mwl md mln) (right_builder mln).
Proof.
  intros HR. unfold supervised_builder.
  eapply (spec_bind _ _ (λ _, True)); [apply spec_get_self|intros e _].
  destruct (mln <? 0)%Z eqn:Hmln;
    (apply spec_new_builder; [apply HR|]);
    first [ by apply right_builder_depth_first
          | by apply right_builder_best_first ].
Qed.

End Blocks.

(** *** The choice of builder (claim C6) *)

Section BuilderChoice.
Context {R : call → Prop} {I : world → Prop} (HI : stable R I).
Context (mln : Z) (HR : ∀ c, builders_chosen_by mln c → R c).

Ltac chosen := apply HR; simpl;
  first [ done | assumption
        | by apply right_builder_depth_first
        | by apply right_builder_best_first ].

Ltac builder_step :=
  lazymatch goal with
  | |- spec _ (bind (supervised_builder _ _ _ _ _ _) _) _ =>
      eapply (spec_bind _ _ (right_builder mln));
      [ apply (spec_supervised_builder HI); intros; chosen | intros ? ? ]
  | |- spec _ (bind (if (_ <? 0)%Z then _ else _) _) _ =>
      eapply (spec_bind _ _ (right_builder mln));
      [ destruct (mln <? 0)%Z eqn:?;
        (apply (spec_new_builder HI); [chosen|]);
        first [ by apply right_builder_depth_first
              | by apply right_builder_best_first ]
      | intros ? ? ]
  | |- spec _ (build _ _ _ _) _ => apply (spec_build HI); intros; chosen
  | |- spec _ (supervised_criterion _) _ =>
      apply (spec_supervised_criterion HI); intros; chosen
  | |- spec _ supervised_tree _ => apply (spec_supervised_tree HI); intros; chosen
  | |- spec _ unwrap_single_output _ => apply (spec_unwrap_single_output HI)
  | |- _ => spec_step HI chosen
  end.

Ltac builder_auto :=
  repeat first [ builder_step | progress (unfold_attr_ops; unfold_constructors) ].

Lemma spec_unsupervised_build_tree X y sw msl mwl mss md rs :
  spec I (UnsupervisedDecisionTree__build_tree X y sw msl mwl mln mss md rs) (λ _, True).
Proof. unfold UnsupervisedDecisionTree__build_tree. builder_auto. Qed.

Lemma spec_unsupervised_oblique_build_tree X y sw msl mwl mss md rs :
  spec I (UnsupervisedObliqueDecisionTree__build_tree X y sw msl mwl mln mss md rs)
    (λ _, True).
Proof. unfold UnsupervisedObliqueDecisionTree__build_tree. builder_auto. Qed.

Lemma spec_oblique_build_tree X y sw msl mwl mss md rs :
  spec I (ObliqueDecisionTreeClassifier__build_tree X y sw msl mwl mln mss md rs)
    (λ _, True).
Proof. unfold ObliqueDecisionTreeClassifier__build_tree. builder_auto. Qed.

Lemma spec_patch_build_tree X y sw msl mwl mss md rs :
  spec I (PatchObliqueDecisionTreeClassifier__build_tree X y sw msl mwl mln mss md rs)
    (λ _, True).
Proof. unfold PatchObliqueDecisionTreeClassifier__build_tree. builder_auto. Qed.

Lemma spec_build_tree X y sw msl mwl mss md rs :
  spec I (_build_tree X y sw msl mwl mln mss md rs) (λ _, True).
Proof.
  unfold _build_tree.
  eapply (spec_bind _ _ (λ _, True)); [apply spec_get_self|intros e _].
  destruct (own e).
  - apply spec_unsupervised_build_tree.
  - apply spec_unsupervised_oblique_build_tree.
  - apply spec_oblique_build_tree.
  - apply spec_patch_build_tree.
Qed.

End BuilderChoice.

(** Runs that return: inversion through [bind]. *)
Lemma bind_Ok {A B} (m : M A) (k : A → M B) w b w' :
  bind m k w = (Ok b, w') →
  ∃ a w1, m w = (Ok a, w1) ∧ k a w1 = (Ok b, w').
Proof.
  unfold bind. destruct (m w) as [[a|e] w1]; [|done].
  intros Hk. by exists a, w1.
Qed.

Lemma build_Ok mln b X y sw w w' :
  right_builder mln b →
  build b X y sw w = (Ok tt, w') → grown_tree mln w'.
Proof.
  intros Hb. unfold build. unfold_monad.
  run_all; intros; simplify_eq.
  eexists _, _. simpl. rewrite lookup_insert_eq.
  split_and!; [reflexivity|apply list_elem_of_here|done].
Qed.

Lemma unwrap_single_output_Ok mln w w' :
  grown_tree mln w →
  unwrap_single_output w = (Ok tt, w') → grown_tree mln w'.
Proof.
  intros (t & g & Ht & Hg & Hb). unfold unwrap_single_output. unfold_blocks.
  unfold_monad.
  run_all; intros; simplify_eq; exists t, g; simpl;
    rewrite ?lookup_insert_ne by done; done.
Qed.

Lemma supervised_builder_Ok s mss msl mwl md mln w b w' :
  supervised_builder s mss msl mwl md mln w = (Ok b, w') → right_builder mln b.
Proof.
  unfold supervised_builder. unfold_monad. simpl.
  destruct (mln <? 0)%Z eqn:Hmln; simpl; intros [= <- <-];
    first [ by apply right_builder_depth_first
          | by apply right_builder_best_first ].
Qed.

Lemma supervised_tail_Ok s mss msl mwl md mln X y sw w w' :
  bind (supervised_builder s mss msl mwl md mln)
       (λ builder, bind (build builder X y sw) (λ _, unwrap_single_output)) w
  = (Ok tt, w') →
  grown_tree mln w'.
Proof.
  intros (b & w1 & Hb & H)%bind_Ok.
  apply bind_Ok in H as ([] & w2 & Hbuild & H).
  eapply unwrap_single_output_Ok; [|exact H].
  eapply build_Ok; [|exact Hbuild].
  by eapply supervised_builder_Ok.
Qed.

Lemma unsupervised_tail_Ok (b1 b2 : builder) mln X y sw w w' :
  is_best_first b1 = false → is_depth_first b1 = true →
  is_best_first b2 = true → is_depth_first b2 = false →
  bind (if (mln <? 0)%Z then new_builder b1 else new_builder b2)
       (λ builder, build builder X y sw) w
  = (Ok tt, w') →
  grown_tree mln w'.
Proof.
  intros H1 H1' H2 H2' (b & w1 & Hb & H)%bind_Ok.
  eapply build_Ok; [|exact H].
  revert Hb. unfold new_builder. unfold_monad.
  destruct (mln <? 0)%Z eqn:Hmln; simpl; intros [= <- <-];
    first [ by apply right_builder_depth_first
          | by apply right_builder_best_first ].
Qed.

(** Inversion of a returning run up to the choice of the builder. *)
Ltac at_tail H :=
  lazymatch type of H with
  | bind (supervised_builder _ _ _ _ _ _) _ _ = _ => idtac
  | bind (if (_ <? 0)%Z then _ else _) _ _ = _ => idtac
  end.

Ltac inv_prefix H :=
  repeat (tryif at_tail H then fail else
    first [ apply bind_Ok in H as (? & ? & _ & H)
          | match type of H with
            | (match ?x with _ => _ end) _ = _ => destruct x; try (by unfold raise in H)
            end ]).

Lemma build_tree_Ok X y sw msl mwl mln mss md rs w w' :
  _build_tree X y sw msl mwl mln mss md rs w = (Ok tt, w') → grown_tree mln w'.
Proof.
  unfold _build_tree. intros (e & w1 & _ & H)%bind_Ok.
  destruct (own e).
  - unfold UnsupervisedDecisionTree__build_tree in H. inv_prefix H.
    by eapply unsupervised_tail_Ok in H.
  - unfold UnsupervisedObliqueDecisionTree__build_tree in H. inv_prefix H.
    by eapply unsupervised_tail_Ok in H.
  - unfold ObliqueDecisionTreeClassifier__build_tree in H. inv_prefix H.
    by eapply supervised_tail_Ok in H.
  - unfold PatchObliqueDecisionTreeClassifier__build_tree in H. inv_prefix H.
    by eapply supervised_tail_Ok in H.
Qed.

(** Every builder constructed or run by [_build_tree] is the one
    [max_leaf_nodes] calls for, and a run that returns has grown [tree_]
    with such a builder. *)
Lemma build_tree_builders_chosen X y sw msl mwl mln mss md rs w :
  builder_chosen mln w (_build_tree X y sw msl mwl mln mss md rs w).
Proof.
  split.
  - refine (proj1 (spec_build_tree (stable_extends_with _ w) mln _
                     X y sw msl mwl mss md rs w _)).
    + auto.
    + apply extends_with_refl.
  - intros Hok.
    destruct (_build_tree X y sw msl mwl mln mss md rs w) as [r w'] eqn:Hrun.
    simpl in *. subst r. by eapply build_tree_Ok.
Qed.

Lemma bind_get_self {A} (k : estimator → M A) w :
  bind get_self k w = k (self w) w.
Proof. reflexivity. Qed.

Lemma bind_run {A B} (m : M A) (k : A → M B) w :
  bind m k w
  = match m w with
    | (Ok a, w') => k a w'
    | (Raise e, w') => (Raise e, w')
    end.
Proof. reflexivity. Qed.

(** *** The check of [feature_combinations] (claim C7) *)

Lemma oblique_feature_combinations_checked X y sw msl mwl mln mss md rs w cw fc :
  own (self w) = ObliqueDecisionTreeClassifier cw (Some fc) →
  num_gt fc (Int (Z.of_nat (shape1 X))) = true →
  ObliqueDecisionTreeClassifier__build_tree X y sw msl mwl mln mss md rs w
  = (Raise (RuntimeError (FeatureCombinationsTooLarge fc (shape1 X))), w).
Proof.
  intros Hown Hfc. unfold ObliqueDecisionTreeClassifier__build_tree.
  unfold bind at 1, get_self. simpl. rewrite Hown.
  unfold bind at 1. by rewrite Hfc.
Qed.

(** *** Sparse input (claim C9) *)









(** *** The configuration checks of the patch classifier (claim C8) *)

Lemma patch_check_input_calls K X y w :
  calls (snd (patch_check_input K X y w)) = calls w.
Proof. unfold patch_check_input. unfold_monad. by run_all. Qed.

(** C8, as amended. In [PatchObliqueDecisionTreeClassifier.fit], once the
    input checks of the [check_input] block have passed (they run first,
    and when one of them fails [fit] fails with its error, whatever the
    patch configuration), each of the
    violations [data_height * data_width != n_features],
    [min_patch_height > max_patch_height],
    [min_patch_width > max_patch_width], [max_patch_width > data_width]
    and [max_patch_height > data_height] makes [fit] raise the
    [RuntimeError] of a violated check, before anything is constructed
    or grown (the call log is as before [fit]); with a valid
    configuration none of these errors is raised and [fit] goes on with
    the tree building of the base class. *)
Theorem patch_fit_configuration_checks K X y sw (check_input : bool) w
    cw min_patch_height max_patch_height min_patch_width max_patch_width
    data_height data_width :
  own (self w)
  = PatchObliqueDecisionTreeClassifier cw min_patch_height max_patch_height
      min_patch_width max_patch_width data_height data_width →
  let pre := (if check_input then patch_check_input K X y else ret (X, y)) w in
  let run := PatchObliqueDecisionTreeClassifier_fit K X y sw check_input w in
  calls (snd pre) = calls w
  ∧ match fst pre with
    | Raise err => run = (Raise err, snd pre)
    | Ok (Xv, yv) =>
        let data_width_ := default (Z.of_nat (shape1 Xv)) data_width in
        let w' := with_patch_shape (snd pre) data_width_ data_height in
        let violated :=
          patch_violated min_patch_height max_patch_height min_patch_width
            max_patch_width data_height data_width_ (shape1 Xv) in
        (∀ v, violated v →
           ∃ v', violated v'
                 ∧ run = (Raise (RuntimeError (PatchConfiguration v')), w'))
        ∧ ((∀ v, ¬ violated v) →
           run = BaseDecisionTree_fit K Xv yv sw false w')
        ∧ calls w' = calls w
    end.
Proof.
  intros Hown pre run.
  assert (Hcalls : calls (snd pre) = calls w).
  { subst pre. destruct check_input; [apply patch_check_input_calls|done]. }
  split; [done|].
  subst run. unfold PatchObliqueDecisionTreeClassifier_fit.
  rewrite bind_get_self, Hown.
  rewrite (bind_run (if check_input then _ else _)).
  change ((if check_input then patch_check_input K X y else ret (X, y)) w) with pre.
  clearbody pre.
  destruct pre as [[[Xv yv]|err] w1]; simpl in *; [|done].
  set (dw := default (Z.of_nat (shape1 Xv)) data_width).
  replace (match data_width with Some w0 => w0 | None => Z.of_nat (shape1 Xv) end)
    with dw by (by destruct data_width).
  unfold setattr, bind, get_self, put_attrs, raise. simpl.
  fold (with_patch_shape w1 dw data_height).
  split_and!; [| |done].
  - intros v Hv.
    destruct (Z.eqb_spec (data_height * dw) (Z.of_nat (shape1 Xv))); simpl;
      [|by exists DataShapeMismatch].
    destruct (Z.gtb_spec min_patch_height max_patch_height);
      [by exists MinHeightAboveMax; split; [simpl; lia|]|].
    destruct (Z.gtb_spec min_patch_width max_patch_width);
      [by exists MinWidthAboveMax; split; [simpl; lia|]|].
    destruct (Z.gtb_spec max_patch_width dw);
      [by exists MaxWidthAboveData; split; [simpl; lia|]|].
    destruct (Z.gtb_spec max_patch_height data_height);
      [by exists MaxHeightAboveData; split; [simpl; lia|]|].
    exfalso. destruct v; simpl in Hv; lia.
  - intros Hvalid.
    pose proof (Hvalid DataShapeMismatch) as H1.
    pose proof (Hvalid MinHeightAboveMax) as H2.
    pose proof (Hvalid MinWidthAboveMax) as H3.
    pose proof (Hvalid MaxWidthAboveData) as H4.
    pose proof (Hvalid MaxHeightAboveData) as H5.
    simpl in *.
    destruct (Z.eqb_spec (data_height * dw) (Z.of_nat (shape1 Xv))); simpl;
      [|done].
    destruct (Z.gtb_spec min_patch_height max_patch_height); [lia|].
    destruct (Z.gtb_spec min_patch_width max_patch_width); [lia|].
    destruct (Z.gtb_spec max_patch_width dw); [lia|].
    destruct (Z.gtb_spec max_patch_height data_height); [lia|].
    reflexivity.
Qed.

(** *** [fit] of the unsupervised trees (claim C3) *)

Lemma spec_base_fit {I : world → Prop} (HI : stable (λ _, True) I) K X y sw ci :
  spec I (BaseDecisionTree_fit K X y sw ci) (λ _, True).
Proof.
  unfold BaseDecisionTree_fit.
  eapply (spec_bind _ _ (λ _, True)); [apply spec_get_self|intros e _].
  eapply (spec_bind _ _ (λ _, True)); [by apply spec_lift|intros [a rec] _].
  eapply (spec_bind _ _ (λ _, True)).
  { unfold record_attrs. spec_auto HI idtac. }
  intros _ _.
  eapply (spec_bind _ _ (λ _, True)); [|intros _ _; apply spec_get_self].
  by apply (spec_build_tree HI).
Qed.

Lemma spec_unsupervised_check_input {I : world → Prop}
    (HI : stable (λ _, True) I) K X :
  spec I (unsupervised_check_input K X) (λ _, True).
Proof. unfold unsupervised_check_input. spec_auto HI idtac. Qed.

Lemma base_fit_Ok K X y sw ci w e' w' :
  BaseDecisionTree_fit K X y sw ci w = (Ok e', w') →
  e' = self w' ∧ ∃ mln, grown_tree mln w'.
Proof.
  unfold BaseDecisionTree_fit.
  intros (e & w1 & _ & H)%bind_Ok.
  apply bind_Ok in H as ([a rec] & w2 & _ & H).
  apply bind_Ok in H as ([] & w3 & _ & H).
  apply bind_Ok in H as ([] & w4 & Hbuild & H).
  injection H as <- <-. split; [done|].
  eexists. by eapply build_tree_Ok.
Qed.

Lemma apply_Ok K X w X_leaves :
  fst (apply K X w) = Ok X_leaves →
  ∃ t Xp, attrs (self w) !! "tree_" = Some (VTree t)
          ∧ validate_X_predict K (self w) X true = Ok Xp
          ∧ X_leaves = tree_apply K t Xp.
Proof.
  unfold apply. unfold_monad.
  run_cases; intros; simplify_eq. eauto.
Qed.

Lemma assign_labels_full K aff w f a :
  (own (self w) = UnsupervisedDecisionTree f a
   ∨ ∃ fc, own (self w) = UnsupervisedObliqueDecisionTree fc f a) →
  _assign_labels K aff w
  = (fit_predict K (routine_of f) (default ∅ a) aff, with_clustering w f a).
Proof.
  intros Hown. unfold _assign_labels, self_clustering_func, self_clustering_func_args.
  unfold_monad. simpl.
  destruct Hown as [Hown|[fc Hown]]; rewrite Hown;
    destruct f, a; simpl; rewrite ?Hown; simpl_attrs;
    unfold with_clustering; simpl; rewrite ?Hown;
    by destruct (fit_predict K _ _ aff).
Qed.

Lemma assign_labels_Ok K aff w labels w' :
  _assign_labels K aff w = (Ok labels, w') →
  ∃ f a,
    (own (self w) = UnsupervisedDecisionTree f a
     ∨ ∃ fc, own (self w) = UnsupervisedObliqueDecisionTree fc f a)
    ∧ fit_predict K (routine_of f) (default ∅ a) aff = Ok labels
    ∧ w' = with_clustering w f a.
Proof.
  destruct (own (self w)) as [f a|fc f a| |] eqn:Hown.
  - rewrite (assign_labels_full K aff w f a) by (by left).
    intros [= Hfp <-]. exists f, a. split_and!; [by left|done..].
  - rewrite (assign_labels_full K aff w f a) by (right; by exists fc).
    intros [= Hfp <-]. exists f, a. split_and!; [right; by exists fc|done..].
  - unfold _assign_labels, self_clustering_func. unfold_monad. simpl.
    by rewrite Hown.
  - unfold _assign_labels, self_clustering_func. unfold_monad. simpl.
    by rewrite Hown.
Qed.

(** What a returning [fit] has done. *)
Lemma fit_Ok K X y sw (check_input : bool) w e w' :
  UnsupervisedDecisionTree_fit K X y sw check_input w = (Ok e, w') →
  e = self w'
  ∧ ∃ Xv w1 w2 X_leaves,
      (if check_input then unsupervised_check_input K X else ret X) w = (Ok Xv, w1)
      ∧ BaseDecisionTree_fit K Xv None sw check_input w1 = (Ok (self w2), w2)
      ∧ (∃ mln, grown_tree mln w2)
      ∧ apply K Xv w2 = (Ok X_leaves, w2)
      ∧ attrs (self w') !! "tree_" = attrs (self w2) !! "tree_"
      ∧ attrs (self w') !! "affinity_matrix_"
        = Some (VMatrix (co_membership X_leaves))
      ∧ (2 ≤ shape0 Xv →
         ∃ f a labels,
           (own (self w2) = UnsupervisedDecisionTree f a
            ∨ ∃ fc, own (self w2) = UnsupervisedObliqueDecisionTree fc f a)
           ∧ fit_predict K (routine_of f) (default ∅ a) (co_membership X_leaves)
             = Ok labels
           ∧ attrs (self w') !! "labels_" = Some (VData (Array labels)))
      ∧ (shape0 Xv < 2 →
         attrs (self w') !! "labels_" = attrs (self w2) !! "labels_").
Proof.
  unfold UnsupervisedDecisionTree_fit.
  intros (Xv & w1 & Hcheck & H)%bind_Ok.
  apply bind_Ok in H as (e2 & w2 & Hbase & H).
  destruct (base_fit_Ok _ _ _ _ _ _ _ _ Hbase) as [-> Hgrown].
  apply bind_Ok in H as (X_leaves & w2' & Happly & H).
  pose proof (apply_frame K Xv w2) as Hframe. rewrite Happly in Hframe.
  simpl in Hframe. subst w2'.
  apply bind_Ok in H as (aff & w3 & Haff & H).
  unfold _compute_affinity_matrix_m in Haff.
  rewrite compute_affinity_matrix_eq in Haff. injection Haff as <- <-.
  apply bind_Ok in H as ([] & w4 & Hset & H).
  unfold setattr, bind, get_self, put_attrs in Hset. simpl in Hset.
  injection Hset as <-.
  apply bind_Ok in H as ([] & w5 & Hlabels & H).
  injection H as <- <-. split; [done|].
  exists Xv, w1, w2, X_leaves. split_and!; try done.
  - destruct (2 <=? shape0 Xv).
    + apply bind_Ok in Hlabels as (m & w6 & Hget & Hlabels).
      unfold getattr_matrix, getattr, bind, get_self in Hget. simpl in Hget.
      rewrite lookup_insert_eq in Hget. injection Hget as <- <-.
      apply bind_Ok in Hlabels as (labels & w7 & Hassign & Hlabels).
      apply assign_labels_Ok in Hassign as (f & a & _ & _ & ->).
      unfold setattr, bind, get_self, put_attrs in Hlabels. simpl in Hlabels.
      injection Hlabels as <-. simpl. by rewrite !lookup_insert_ne.
    + injection Hlabels as <-. simpl. by rewrite lookup_insert_ne.
  - destruct (2 <=? shape0 Xv).
    + apply bind_Ok in Hlabels as (m & w6 & Hget & Hlabels).
      unfold getattr_matrix, getattr, bind, get_self in Hget. simpl in Hget.
      rewrite lookup_insert_eq in Hget. injection Hget as <- <-.
      apply bind_Ok in Hlabels as (labels & w7 & Hassign & Hlabels).
      apply assign_labels_Ok in Hassign as (f & a & _ & _ & ->).
      unfold setattr, bind, get_self, put_attrs in Hlabels. simpl in Hlabels.
      injection Hlabels as <-. simpl.
      rewrite !lookup_insert_ne by done. by rewrite lookup_insert_eq.
    + injection Hlabels as <-. simpl. by rewrite lookup_insert_eq.
  - intros Hn. apply Nat.leb_le in Hn. rewrite Hn in Hlabels.
    apply bind_Ok in Hlabels as (m & w6 & Hget & Hlabels).
    unfold getattr_matrix, getattr, bind, get_self in Hget. simpl in Hget.
    rewrite lookup_insert_eq in Hget. injection Hget as <- <-.
    apply bind_Ok in Hlabels as (labels & w7 & Hassign & Hlabels).
    apply assign_labels_Ok in Hassign as (f & a & Hown & Hfp & ->).
    unfold setattr, bind, get_self, put_attrs in Hlabels. simpl in Hlabels.
    injection Hlabels as <-. simpl.
    exists f, a, labels. split_and!; [done|done|].
    by rewrite lookup_insert_eq.
  - intros Hn. apply Nat.leb_gt in Hn. rewrite Hn in Hlabels.
    injection Hlabels as <-. simpl. by rewrite lookup_insert_ne.
Qed.

(** C2. For every leaf-assignment vector, the matrix returned by
    [_compute_affinity_matrix] is square, symmetric and has only
    non-negative integer entries, and every diagonal entry is 1 (each
    sample has exactly one leaf id); in particular so is the matrix that
    a returning [fit] of a single tree leaves in [affinity_matrix_]. *)
Theorem compute_affinity_matrix_invariants :
  (∀ X_leaves,
     ∃ aff_matrix,
       _compute_affinity_matrix X_leaves = Some aff_matrix
       ∧ affinity_invariants (length X_leaves) aff_matrix)
  ∧ (∀ K X y sw (check_input : bool) w e w',
       UnsupervisedDecisionTree_fit K X y sw check_input w = (Ok e, w') →
       ∃ aff_matrix n,
         attrs (self w') !! "affinity_matrix_" = Some (VMatrix aff_matrix)
         ∧ affinity_invariants n aff_matrix).
Proof.
  split.
  - intros X_leaves. exists (co_membership X_leaves).
    split; [apply compute_affinity_matrix_eq|apply co_membership_invariants].
  - intros K X y sw check_input w e w' Hfit.
    destruct (fit_Ok _ _ _ _ _ _ _ _ Hfit)
      as (_ & Xv & w1 & w2 & X_leaves & _ & _ & _ & _ & _ & Haff & _).
    exists (co_membership X_leaves), (length X_leaves).
    split; [exact Haff|apply co_membership_invariants].
Qed.

Lemma compute_affinity_matrix_invariants_witness :
  (2 < length leaves_aba
   ∧ UnsupervisedDecisionTree_fit toy X_two_pairs None None true w_unsupervised
     = (Ok (self w_fitted), w_fitted))
  ∧ (∃ aff_matrix,
       _compute_affinity_matrix leaves_aba = Some aff_matrix
       ∧ entry aff_matrix 2 2 = Some 1%Z
       ∧ (0 ≤ 1)%Z)
  ∧ (∃ aff_matrix n,
       attrs (self w_fitted) !! "affinity_matrix_" = Some (VMatrix aff_matrix)
       ∧ affinity_invariants n aff_matrix).
Proof.
  assert (Hfit : UnsupervisedDecisionTree_fit toy X_two_pairs None None true
                   w_unsupervised = (Ok (self w_fitted), w_fitted))
    by (vm_compute; reflexivity).
  split; [split; [simpl; lia|exact Hfit]|].
  destruct compute_affinity_matrix_invariants as [Hkernel Hfitted].
  split.
  - destruct (Hkernel leaves_aba) as (aff & Hrun & _ & _ & Hpos & Hdiag).
    exists aff. split; [exact Hrun|].
    assert (Hd : entry aff 2 2 = Some 1%Z) by (apply Hdiag; simpl; lia).
    split; [exact Hd|]. exact (Hpos 2 2 1%Z Hd).
  - exact (Hfitted toy X_two_pairs None None true w_unsupervised _ _ Hfit).
Defined.

Lemma fit_run K X y sw (check_input : bool) w :
  ∀ f a Xv w1 e2 w2 X_leaves labels,
    (own (self w) = UnsupervisedDecisionTree f a
     ∨ ∃ fc, own (self w) = UnsupervisedObliqueDecisionTree fc f a) →
    (if check_input then unsupervised_check_input K X else ret X) w = (Ok Xv, w1) →
    BaseDecisionTree_fit K Xv None sw check_input w1 = (Ok e2, w2) →
    2 ≤ shape0 Xv →
    fst (apply K Xv w2) = Ok X_leaves →
    fit_predict K (routine_of f) (default ∅ a) (co_membership X_leaves) = Ok labels →
    ∃ w3,
      UnsupervisedDecisionTree_fit K X y sw check_input w = (Ok (self w3), w3)
      ∧ (∃ mln, grown_tree mln w2)
      ∧ attrs (self w3) !! "tree_" = attrs (self w2) !! "tree_"
      ∧ (∃ t Xp, attrs (self w2) !! "tree_" = Some (VTree t)
                 ∧ validate_X_predict K (self w2) Xv true = Ok Xp
                 ∧ X_leaves = tree_apply K t Xp)
      ∧ _compute_affinity_matrix X_leaves = Some (co_membership X_leaves)
      ∧ attrs (self w3) !! "affinity_matrix_" = Some (VMatrix (co_membership X_leaves))
      ∧ attrs (self w3) !! "labels_" = Some (VData (Array labels)).
Proof.
  intros f a Xv w1 e2 w2 X_leaves labels Hown Hcheck Hbase Hn Happly Hcluster.
  assert (Hown2 : own (self w2) = own (self w)).
  { pose proof (stable_params (base (self w)) (own (self w))) as HI.
    assert (H1 : base (self w1) = base (self w) ∧ own (self w1) = own (self w)).
    { destruct check_input.
      - pose proof (spec_unsupervised_check_input HI K X w (conj eq_refl eq_refl)) as [H _].
        by rewrite Hcheck in H.
      - by injection Hcheck as <- <-. }
    pose proof (spec_base_fit HI K Xv None sw check_input w1 H1) as [[_ H] _].
    by rewrite Hbase in H. }
  destruct (base_fit_Ok _ _ _ _ _ _ _ _ Hbase) as [-> Hgrown].
  pose proof (apply_frame K Xv w2) as Hframe.
  destruct (apply_Ok K Xv w2 X_leaves Happly) as (t & Xp & Htree & Hval & Hleaves).
  destruct (apply K Xv w2) as [r w2'] eqn:Hap. simpl in *. subst r w2'.
  eexists. split.
  - unfold UnsupervisedDecisionTree_fit.
    rewrite bind_run, Hcheck. rewrite bind_run, Hbase. rewrite bind_run, Hap.
    unfold _compute_affinity_matrix_m. rewrite compute_affinity_matrix_eq.
    apply Nat.leb_le in Hn. rewrite Hn.
    unfold getattr_matrix, getattr, setattr, bind, ret, get_self, put_attrs.
    simpl. rewrite lookup_insert_eq.
    rewrite assign_labels_full with (f := f) (a := a)
      by (simpl; rewrite Hown2; exact Hown).
    rewrite Hcluster.
    reflexivity.
  - simpl. rewrite !lookup_insert_ne by done. rewrite lookup_insert_eq.
    split_and!; try done.
    + eauto.
    + apply compute_affinity_matrix_eq.
    + by rewrite lookup_insert_eq.
Qed.

(** C3. A call of [fit] of an unsupervised tree on n >= 2 samples, all
    of whose collaborators succeed (input validation, the tree building
    of the base class, the traversal of the tree, the clustering), builds
    the tree, computes the leaf of every training sample with [apply],
    stores the affinity matrix of these leaves in [affinity_matrix_],
    stores the labels that the clustering routine returns for that
    matrix in [labels_], and returns the estimator itself.  Conversely,
    every call of [fit] that returns has done exactly this (and has left
    [labels_] alone when there are fewer than 2 samples). *)
Theorem fit_stores_affinity_and_labels K X y sw (check_input : bool) w :
  (∀ f a Xv w1 e2 w2 X_leaves labels,
     (own (self w) = UnsupervisedDecisionTree f a
      ∨ ∃ fc, own (self w) = UnsupervisedObliqueDecisionTree fc f a) →
     (if check_input then unsupervised_check_input K X else ret X) w = (Ok Xv, w1) →
     BaseDecisionTree_fit K Xv None sw check_input w1 = (Ok e2, w2) →
     2 ≤ shape0 Xv →
     fst (apply K Xv w2) = Ok X_leaves →
     fit_predict K (routine_of f) (default ∅ a) (co_membership X_leaves) = Ok labels →
     ∃ w3,
       UnsupervisedDecisionTree_fit K X y sw check_input w = (Ok (self w3), w3)
       ∧ (∃ mln, grown_tree mln w2)
       ∧ attrs (self w3) !! "tree_" = attrs (self w2) !! "tree_"
       ∧ (∃ t Xp, attrs (self w2) !! "tree_" = Some (VTree t)
                  ∧ validate_X_predict K (self w2) Xv true = Ok Xp
                  ∧ X_leaves = tree_apply K t Xp)
       ∧ _compute_affinity_matrix X_leaves = Some (co_membership X_leaves)
       ∧ attrs (self w3) !! "affinity_matrix_"
         = Some (VMatrix (co_membership X_leaves))
       ∧ attrs (self w3) !! "labels_" = Some (VData (Array labels)))
  ∧ (∀ e w',
       UnsupervisedDecisionTree_fit K X y sw check_input w = (Ok e, w') →
       e = self w'
       ∧ ∃ Xv w1 w2 X_leaves,
           (if check_input then unsupervised_check_input K X else ret X) w
           = (Ok Xv, w1)
           ∧ BaseDecisionTree_fit K Xv None sw check_input w1 = (Ok (self w2), w2)
           ∧ (∃ mln, grown_tree mln w2)
           ∧ apply K Xv w2 = (Ok X_leaves, w2)
           ∧ attrs (self w') !! "tree_" = attrs (self w2) !! "tree_"
           ∧ attrs (self w') !! "affinity_matrix_"
             = Some (VMatrix (co_membership X_leaves))
           ∧ (2 ≤ shape0 Xv →
              ∃ f a labels,
                (own (self w2) = UnsupervisedDecisionTree f a
                 ∨ ∃ fc, own (self w2) = UnsupervisedObliqueDecisionTree fc f a)
                ∧ fit_predict K (routine_of f) (default ∅ a)
                    (co_membership X_leaves) = Ok labels
                ∧ attrs (self w') !! "labels_" = Some (VData (Array labels)))
           ∧ (shape0 Xv < 2 →
              attrs (self w') !! "labels_" = attrs (self w2) !! "labels_")).
Proof.
  split.
  - apply fit_run.
  - intros e w'. apply fit_Ok.
Qed.

Lemma fit_stores_affinity_and_labels_witness :
  (own (self w_unsupervised) = UnsupervisedDecisionTree None None
   ∧ 2 ≤ shape0 X_two_pairs)
  ∧ ∃ w3,
      UnsupervisedDecisionTree_fit toy X_two_pairs None None true w_unsupervised
      = (Ok (self w3), w3)
      ∧ attrs (self w3) !! "affinity_matrix_"
        = Some (VMatrix (co_membership [1; 1; 2; 2]%Z))
      ∧ attrs (self w3) !! "labels_" = Some (VData (Array [0; 0; 2; 2]%Z)).
Proof.
  split; [split; [reflexivity|vm_compute; lia]|].
  destruct (fit_stores_affinity_and_labels toy X_two_pairs None None true
              w_unsupervised) as [Hforward _].
  destruct (Hforward None None X_two_pairs w_checked (self w_built) w_built
              [1; 1; 2; 2]%Z [0; 0; 2; 2]%Z)
    as (w3 & Hfit & _ & _ & _ & _ & Haff & Hlab).
  - left. reflexivity.
  - vm_compute. reflexivity.
  - vm_compute. reflexivity.
  - vm_compute. lia.
  - vm_compute. reflexivity.
  - vm_compute. reflexivity.
  - exists w3. split_and!; assumption.
Defined.

(** *** The claims at concrete inputs *)

Lemma transform_recomputes_without_refitting_witness :
  (fitted_attributes (self w_fitted) ≠ []
   ∧ validate_X_predict toy (self w_fitted) X_two_pairs true = Ok X_two_pairs
   ∧ fitted_attributes (self w_unsupervised) = [])
  ∧ fst (transform toy X_two_pairs w_fitted)
    = Ok [[1; 1; 0; 0]; [1; 1; 0; 0]; [0; 0; 1; 1]; [0; 0; 1; 1]]%Z
  ∧ snd (transform toy X_two_pairs w_fitted) = w_fitted
  ∧ fst (transform toy X_two_pairs w_unsupervised) = Raise NotFittedError.
Proof.
  split; [split_and!; [by vm_compute|reflexivity|reflexivity]|].
  destruct (transform_recomputes_without_refitting toy X_two_pairs w_fitted)
    as (Hfit & Hframe & _).
  destruct (transform_recomputes_without_refitting toy X_two_pairs w_unsupervised)
    as (_ & _ & _ & Hnot & _).
  split_and!.
  - destruct (attrs (self w_fitted) !! "tree_") as [[| |t| | |]|] eqn:Ht;
      try (vm_compute in Ht; discriminate Ht).
    destruct (Hfit X_two_pairs t) as [-> _].
    + by vm_compute.
    + reflexivity.
    + reflexivity.
    + reflexivity.
  - exact Hframe.
  - apply Hnot. reflexivity.
Defined.

Lemma predict_clusters_transform_witness :
  (own (self w_fitted) = UnsupervisedDecisionTree None None
   ∧ validate_X_predict toy (self w_fitted) X_two_pairs true = Ok X_two_pairs
   ∧ fst (transform toy X_two_pairs w_fitted) = Ok (co_membership [1; 1; 2; 2]%Z))
  ∧ fst (predict toy X_two_pairs true w_fitted)
    = fit_predict toy AgglomerativeClustering ∅ (co_membership [1; 1; 2; 2]%Z).
Proof.
  assert (H1 : own (self w_fitted) = UnsupervisedDecisionTree None None)
    by (vm_compute; reflexivity).
  assert (H2 : fst (transform toy X_two_pairs w_fitted)
               = Ok (co_membership [1; 1; 2; 2]%Z))
    by (vm_compute; reflexivity).
  split; [by split_and!|].
  apply (predict_clusters_transform toy X_two_pairs true w_fitted None None
           X_two_pairs (co_membership [1; 1; 2; 2]%Z)).
  - by left.
  - reflexivity.
  - exact H2.
Defined.

(** C7.  The oblique classifier checks [feature_combinations]: when it
    exceeds the number of features, [_build_tree] raises the
    [RuntimeError] first thing and leaves the estimator and the call log
    untouched.  The unsupervised oblique tree does not (its [_build_tree]
    only carries a note that the check is to be added): with all-default
    parameters ([feature_combinations = 1.5]) and a single feature, [fit]
    returns, having run a builder whose splitter was constructed with
    1.5 > 1 feature combinations. *)
Theorem unsupervised_oblique_feature_combinations_unchecked :
  (∀ X y sw msl mwl mln mss md rs w cw fc,
     own (self w) = ObliqueDecisionTreeClassifier cw (Some fc) →
     num_gt fc (Int (Z.of_nat (shape1 X))) = true →
     _build_tree X y sw msl mwl mln mss md rs w
     = (Raise (RuntimeError (FeatureCombinationsTooLarge fc (shape1 X))), w))
  ∧ own (self w_unsupervised_oblique)
    = UnsupervisedObliqueDecisionTree (Float (3 # 2)) None None
  ∧ num_gt (Float (3 # 2)) (Int (Z.of_nat (shape1 X_one_feature))) = true
  ∧ ∃ w' b g,
      UnsupervisedDecisionTree_fit toy X_one_feature None None true
        w_unsupervised_oblique = (Ok (self w'), w')
      ∧ head (calls w') = Some (Build b g)
      ∧ spl_extra (bld_splitter b) = FeatureCombinations (Float (3 # 2))
      ∧ grown_X g = X_one_feature.
Proof.
  split_and!.
  - intros X y sw msl mwl mln mss md rs w cw fc Hown Hfc.
    unfold _build_tree. rewrite bind_get_self, Hown.
    by apply oblique_feature_combinations_checked with (cw := cw).
  - reflexivity.
  - reflexivity.
  - eexists
      (snd (UnsupervisedDecisionTree_fit toy X_one_feature None None true
              w_unsupervised_oblique)), _, _.
    split_and!; [by vm_compute|by vm_compute|reflexivity|reflexivity].
Qed.

Lemma unsupervised_oblique_feature_combinations_unchecked_witness :
  (own (self w_oblique_fc3) = ObliqueDecisionTreeClassifier None (Some (Float 3))
   ∧ num_gt (Float 3) (Int (Z.of_nat (shape1 X_two_pairs))) = true)
  ∧ _build_tree X_two_pairs y_four None 1 0 (-1) 2 (2 ^ 31 - 1) 0 w_oblique_fc3
    = (Raise (RuntimeError (FeatureCombinationsTooLarge (Float 3) (shape1 X_two_pairs))),
       w_oblique_fc3).
Proof.
  split; [by split|].
  apply (proj1 unsupervised_oblique_feature_combinations_unchecked) with (cw := None);
    reflexivity.
Defined.

(** The claim C8 as it is stated fails: with [min_patch_height=2] above
    [max_patch_height=1], [fit] on a sparse matrix with 64-bit indices
    fails in the [check_input] block, with the [ValueError] of the index
    check and not with a configuration error. *)
Lemma patch_configuration_error_kind_counterexample :
  own (self w_patch_min_height_2)
  = PatchObliqueDecisionTreeClassifier None 2 1 1 1 1 None
  ∧ patch_violated 2 1 1 1 1 2 (shape1 X_sparse_int64) MinHeightAboveMax
  ∧ fst (PatchObliqueDecisionTreeClassifier_fit toy X_sparse_int64 y_three None true
           w_patch_min_height_2)
    = Raise (ValueError Int64SparseIndices)
  ∧ ∀ v, fst (PatchObliqueDecisionTreeClassifier_fit toy X_sparse_int64 y_three None
                true w_patch_min_height_2)
         ≠ Raise (RuntimeError (PatchConfiguration v)).
Proof.
  assert (H : fst (PatchObliqueDecisionTreeClassifier_fit toy X_sparse_int64 y_three
                     None true w_patch_min_height_2)
              = Raise (ValueError Int64SparseIndices))
    by (vm_compute; reflexivity).
  split_and!; [reflexivity|simpl; lia|exact H|].
  intros v. by rewrite H.
Qed.

Lemma patch_fit_configuration_checks_witness :
  own (self w_patch_min_height_2)
  = PatchObliqueDecisionTreeClassifier None 2 1 1 1 1 None
  ∧ patch_violated 2 1 1 1 1 2 2 MinHeightAboveMax
  ∧ ∃ v' w',
      PatchObliqueDecisionTreeClassifier_fit toy X_two_pairs y_four None true
        w_patch_min_height_2
      = (Raise (RuntimeError (PatchConfiguration v')), w')
      ∧ calls w' = calls w_patch_min_height_2.
Proof.
  split; [reflexivity|]. split; [simpl; lia|].
  destruct (patch_fit_configuration_checks toy X_two_pairs y_four None true
              w_patch_min_height_2 None 2 1 1 1 1 None eq_refl) as [_ H].
  simpl in H. destruct H as (Hviol & _ & Hcalls).
  destruct (Hviol MinHeightAboveMax) as (v' & _ & Hrun); [simpl; lia|].
  eexists v', _. split; [exact Hrun|exact Hcalls].
Defined.


End ClassesFacts.

(** ** The structure of the affinity matrix *)

Module AffinityStructure.
Import Numpy Affinity Fixtures Samples NumpyFacts AffinityFacts.

(** *** The samples of a leaf *)

Lemma filter_ext_in {A} (P Q : A → Prop) `{!∀ x, Decision (P x)}
    `{!∀ x, Decision (Q x)} (l : list A) :
  Forall (λ x, P x ↔ Q x) l → filter P l = filter Q l.
Proof.
  induction 1 as [|x l Hx _ IH]; [done|].
  rewrite !filter_cons, IH.
  destruct (decide (P x)), (decide (Q x)); tauto.
Qed.

Lemma argwhere_eq_from_positions k xs leaf :
  concat (argwhere_eq_from k xs leaf)
  = filter (λ i, xs !! (i - k) = Some leaf) (seq k (length xs)).
Proof.
  revert k. induction xs as [|x xs IH]; intros k; [done|].
  cbn [argwhere_eq_from length seq]. rewrite filter_cons.
  rewrite Nat.sub_diag. cbn [lookup list_lookup].
  assert (Hrest : filter (λ i, (x :: xs) !! (i - k) = Some leaf) (seq (S k) (length xs))
                  = filter (λ i, xs !! (i - S k) = Some leaf) (seq (S k) (length xs))).
  { apply filter_ext_in, Forall_forall. intros i Hi%elem_of_seq.
    replace (i - k) with (S (i - S k)) by lia. done. }
  rewrite Hrest, <- IH.
  destruct (Z.eqb_spec x leaf) as [->|Hne].
  - by rewrite decide_True.
  - rewrite decide_False; [done|]. by intros [= ?].
Qed.

Lemma StronglySorted_filter_lt (P : nat → Prop) `{!∀ x, Decision (P x)} l :
  StronglySorted lt l → StronglySorted lt (filter P l).
Proof.
  induction 1 as [|x l Hs IH Hall]; [constructor|].
  rewrite filter_cons. destruct (decide (P x)); [|done].
  constructor; [done|].
  apply Forall_forall. intros y [_ Hy]%list_elem_of_filter.
  by eapply Forall_forall in Hall.
Qed.

Lemma StronglySorted_seq_lt k n : StronglySorted lt (seq k n).
Proof.
  revert k. induction n as [|n IH]; intros k; simpl; constructor; [apply IH|].
  apply Forall_forall. intros i Hi%elem_of_seq. lia.
Qed.

Lemma samples_in_leaf_filter (X_leaves : list Z) (leaf : Z) :
  samples_in_leaf X_leaves leaf
  = filter (λ i, X_leaves !! i = Some leaf) (seq 0 (length X_leaves)).
Proof.
  unfold samples_in_leaf, argwhere_eq.
  rewrite atleast_1d_squeeze by apply argwhere_eq_from_singletons.
  rewrite argwhere_eq_from_positions.
  apply filter_ext_in, Forall_forall. intros i _. by rewrite Nat.sub_0_r.
Qed.

(** X1. The index array that the loop body builds for a leaf holds, in
    increasing order and without repetition, exactly the positions of
    the samples of that leaf, also when the leaf has a single sample
    (where [squeeze] returns a zero-dimensional array that [atleast_1d]
    turns back into a vector) and when it has none. *)
Theorem samples_in_leaf_positions (X_leaves : list Z) (leaf : Z) :
  samples_in_leaf X_leaves leaf
  = filter (λ i, X_leaves !! i = Some leaf) (seq 0 (length X_leaves))
  ∧ StronglySorted lt (samples_in_leaf X_leaves leaf)
  ∧ (∀ i, i ∈ samples_in_leaf X_leaves leaf ↔ X_leaves !! i = Some leaf).
Proof.
  split_and!.
  - apply samples_in_leaf_filter.
  - rewrite samples_in_leaf_filter. apply StronglySorted_filter_lt, StronglySorted_seq_lt.
  - apply elem_of_samples_in_leaf.
Qed.

(** *** Leaf ids do not matter *)

Lemma co_membership_fmap (f : Z → Z) X_leaves :
  (∀ a b, f a = f b → a = b) →
  co_membership (f <$> X_leaves) = co_membership X_leaves.
Proof.
  intros Hinj. unfold co_membership.
  rewrite <- list_fmap_compose. apply list_fmap_ext. intros _ a _. simpl.
  rewrite <- list_fmap_compose. apply list_fmap_ext. intros _ b _. simpl.
  unfold same_leaf. repeat case_decide; try done.
  - exfalso. auto.
  - exfalso. congruence.
Qed.

(** X2. The affinity matrix depends on the partition of the samples into
    leaves only, not on the ids of the leaves: renaming the leaves by an
    injective map gives the same matrix. *)
Theorem affinity_relabelling_invariant (f : Z → Z) (X_leaves : list Z) :
  (∀ a b, f a = f b → a = b) →
  _compute_affinity_matrix (f <$> X_leaves) = _compute_affinity_matrix X_leaves.
Proof.
  intros Hinj. rewrite !compute_affinity_matrix_eq.
  by rewrite co_membership_fmap.
Qed.

Lemma affinity_relabelling_invariant_witness :
  (∀ a b : Z, (2 * a + 1 = 2 * b + 1)%Z → a = b)
  ∧ _compute_affinity_matrix ((λ a, 2 * a + 1)%Z <$> leaves_aba)
    = _compute_affinity_matrix leaves_aba.
Proof.
  assert (Hinj : ∀ a b : Z, (2 * a + 1 = 2 * b + 1)%Z → a = b) by (intros; lia).
  split; [exact Hinj|].
  exact (affinity_relabelling_invariant (λ a, 2 * a + 1)%Z leaves_aba Hinj).
Defined.

(** *** The matrix is that of an equivalence relation *)

Lemma entry_co_membership_one X_leaves i j :
  entry (co_membership X_leaves) i j = Some 1%Z
  ↔ ∃ a, X_leaves !! i = Some a ∧ X_leaves !! j = Some a.
Proof.
  rewrite entry_co_membership.
  destruct (X_leaves !! i) as [a|], (X_leaves !! j) as [b|]; simpl.
  - unfold same_leaf. case_decide as Hab.
    + subst b. split; [eauto|done].
    + split; [done|]. intros (c & [= ->] & [= ->]). done.
  - split; [done|]. by intros (c & _ & ?).
  - split; [done|]. by intros (c & ? & _).
  - split; [done|]. by intros (c & ? & _).
Qed.

(** X3. Sharing a leaf is transitive: if samples i and j have affinity 1 and
    so have j and k, then so have i and k.  With the symmetry and the
    unit diagonal, the matrix is made of all-ones blocks, one per leaf. *)
Theorem affinity_transitive (X_leaves : list Z) aff_matrix i j k :
  _compute_affinity_matrix X_leaves = Some aff_matrix →
  entry aff_matrix i j = Some 1%Z →
  entry aff_matrix j k = Some 1%Z →
  entry aff_matrix i k = Some 1%Z.
Proof.
  rewrite compute_affinity_matrix_eq. intros [= <-].
  rewrite !entry_co_membership_one.
  intros (a & Hi & Hj) (b & Hj' & Hk). exists a. split; [done|]. congruence.
Qed.

Lemma affinity_transitive_witness :
  (_compute_affinity_matrix leaves_abaa = Some aff_abaa
   ∧ entry aff_abaa 0 2 = Some 1%Z
   ∧ entry aff_abaa 2 3 = Some 1%Z)
  ∧ entry aff_abaa 0 3 = Some 1%Z.
Proof.
  split; [by split_and!|].
  apply (affinity_transitive leaves_abaa aff_abaa 0 2 3); reflexivity.
Defined.

(** *** Row sums *)

Lemma sum_same_leaf k leaf xs :
  foldr Z.add 0%Z (same_leaf leaf <$> xs)
  = Z.of_nat (length (concat (argwhere_eq_from k xs leaf))).
Proof.
  revert k. induction xs as [|x xs IH]; intros k; [done|].
  csimpl. rewrite (IH (S k)). unfold same_leaf.
  destruct (Z.eqb_spec x leaf) as [->|Hne].
  - rewrite decide_True by done. simpl. lia.
  - rewrite decide_False by congruence. lia.
Qed.

(** X4. The row of a sample sums to the number of samples of its leaf (the
    length of the index array the loop built for that leaf): between 1
    and the number of samples. *)
Theorem affinity_row_sum (X_leaves : list Z) aff_matrix i leaf row :
  _compute_affinity_matrix X_leaves = Some aff_matrix →
  X_leaves !! i = Some leaf →
  aff_matrix !! i = Some row →
  foldr Z.add 0%Z row = Z.of_nat (length (samples_in_leaf X_leaves leaf))
  ∧ 1 ≤ length (samples_in_leaf X_leaves leaf) ≤ length X_leaves.
Proof.
  rewrite compute_affinity_matrix_eq. intros [= <-] Hi.
  unfold co_membership. rewrite list_lookup_fmap, Hi. intros [= <-].
  split.
  - unfold samples_in_leaf, argwhere_eq.
    rewrite atleast_1d_squeeze by apply argwhere_eq_from_singletons.
    apply sum_same_leaf.
  - rewrite samples_in_leaf_filter. split.
    + assert (Hin : i ∈ filter (λ i, X_leaves !! i = Some leaf)
                          (seq 0 (length X_leaves))).
      { apply list_elem_of_filter. split; [done|].
        apply elem_of_seq. apply lookup_lt_Some in Hi. lia. }
      destruct (filter _ _); [by apply elem_of_nil in Hin|simpl; lia].
    + etrans; [apply length_filter|]. by rewrite length_seq.
Qed.

Lemma affinity_row_sum_witness :
  (_compute_affinity_matrix leaves_abaa = Some aff_abaa
   ∧ leaves_abaa !! 2 = Some 5%Z
   ∧ aff_abaa !! 2 = Some [1; 0; 1; 1]%Z)
  ∧ foldr Z.add 0%Z [1; 0; 1; 1]%Z
    = Z.of_nat (length (samples_in_leaf leaves_abaa 5)).
Proof.
  split; [by split_and!|].
  apply (affinity_row_sum leaves_abaa aff_abaa 2 5%Z [1; 0; 1; 1]%Z);
    reflexivity.
Defined.

(** *** Selections of samples *)

Lemma getitem_row_Some (row : list Z) cs vals :
  getitem_row row cs = Some vals →
  Forall (λ j, j < length row) cs ∧ vals = (λ j, row !!! j) <$> cs.
Proof.
  revert vals. induction cs as [|j cs IH]; intros vals; csimpl.
  - by intros [= <-].
  - destruct (row !! j) as [v|] eqn:Hj; simpl; [|done].
    destruct (getitem_row row cs) as [rest|]; simpl; [|done].
    intros [= <-]. destruct (IH rest eq_refl) as [Hcs ->].
    split.
    + constructor; [by eapply lookup_lt_Some|done].
    + by rewrite (list_lookup_total_correct _ _ _ Hj).
Qed.

(** X5. Indexing commutes with the computation: the affinity matrix of a
    selection [X_leaves[idx]] of the samples (a sub-batch, a permutation,
    with or without repetitions) is the selection
    [aff_matrix[np.ix_(idx, idx)]] of the affinity matrix of all of
    them. *)
Theorem affinity_of_selection (X_leaves : list Z) aff_matrix idx selected :
  _compute_affinity_matrix X_leaves = Some aff_matrix →
  getitem_row X_leaves idx = Some selected →
  ix_get aff_matrix idx idx = _compute_affinity_matrix selected.
Proof.
  rewrite !compute_affinity_matrix_eq. intros [= <-].
  intros [Hidx ->]%getitem_row_Some.
  destruct (co_membership_square X_leaves) as [Hlen Hrows].
  rewrite (ix_get_spec (length X_leaves)); [|done|by rewrite Hlen|done].
  f_equal. unfold co_membership at 2.
  rewrite <- list_fmap_compose. apply list_fmap_ext. intros p i Hp. simpl.
  rewrite <- list_fmap_compose. apply list_fmap_ext. intros q j Hq. simpl.
  apply cell_co_membership.
  - eapply Forall_lookup in Hidx; [exact Hidx|exact Hp].
  - eapply Forall_lookup in Hidx; [exact Hidx|exact Hq].
Qed.

Lemma affinity_of_selection_witness :
  (_compute_affinity_matrix leaves_abaa = Some aff_abaa
   ∧ getitem_row leaves_abaa [3; 1; 1] = Some [5; 8; 8]%Z)
  ∧ ix_get aff_abaa [3; 1; 1] [3; 1; 1] = _compute_affinity_matrix [5; 8; 8]%Z.
Proof.
  split; [by split|].
  apply (affinity_of_selection leaves_abaa); reflexivity.
Defined.

(** *** The two extremes *)

(** X6. When all samples fall in one leaf (a tree that is a single node) the
    matrix is all ones; when no two samples share a leaf it is the
    identity matrix. *)
Theorem affinity_extremes (X_leaves : list Z) :
  ((∀ i j a b, X_leaves !! i = Some a → X_leaves !! j = Some b → a = b) →
   _compute_affinity_matrix X_leaves
   = Some (replicate (length X_leaves) (replicate (length X_leaves) 1%Z)))
  ∧ (NoDup X_leaves →
     _compute_affinity_matrix X_leaves
     = Some ((λ i, (λ j, if decide (i = j) then 1%Z else 0%Z)
                     <$> seq 0 (length X_leaves))
               <$> seq 0 (length X_leaves))).
Proof.
  split; intros H; rewrite compute_affinity_matrix_eq; f_equal;
    apply (square_ext (length X_leaves)); try apply co_membership_square.
  - split; [apply length_replicate|].
    apply Forall_replicate, length_replicate.
  - intros i j Hi Hj. rewrite cell_co_membership by done.
    unfold cell. rewrite !lookup_total_replicate_2 by done.
    unfold same_leaf. rewrite decide_True; [done|].
    eapply H; by apply list_lookup_lookup_total_lt.
  - split; [by rewrite length_fmap, length_seq|].
    apply Forall_fmap, Forall_forall. intros i _. simpl.
    by rewrite length_fmap, length_seq.
  - intros i j Hi Hj. rewrite cell_co_membership by done.
    unfold cell.
    rewrite (list_lookup_total_fmap _ (seq 0 (length X_leaves)) i)
      by (by rewrite length_seq).
    rewrite (list_lookup_total_fmap _ (seq 0 (length X_leaves)) j)
      by (by rewrite length_seq).
    rewrite !lookup_total_seq_lt by done. simpl.
    unfold same_leaf. repeat case_decide; try done; exfalso.
    + apply H1. eapply NoDup_lookup; [exact H| |].
      * by apply list_lookup_lookup_total_lt.
      * rewrite H0. by apply list_lookup_lookup_total_lt.
    + subst j. done.
Qed.

Lemma affinity_extremes_witness :
  ((∀ i j a b, leaves_aaa !! i = Some a → leaves_aaa !! j = Some b → a = b)
   ∧ NoDup leaves_abc)
  ∧ _compute_affinity_matrix leaves_aaa
    = Some [[1; 1; 1]; [1; 1; 1]; [1; 1; 1]]%Z
  ∧ _compute_affinity_matrix leaves_abc
    = Some [[1; 0; 0]; [0; 1; 0]; [0; 0; 1]]%Z.
Proof.
  assert (H1 : ∀ i j a b,
             leaves_aaa !! i = Some a → leaves_aaa !! j = Some b → a = b).
  { intros [|[|[|i]]] [|[|[|j]]] a b Hi Hj; by simplify_eq/=. }
  assert (H2 : NoDup leaves_abc) by exact (bool_decide_unpack (NoDup leaves_abc) I).
  split; [by split|]. split.
  - exact (proj1 (affinity_extremes leaves_aaa) H1).
  - exact (proj2 (affinity_extremes leaves_abc) H2).
Defined.

End AffinityStructure.

(** ** What the methods set, construct and reject *)

Module EffectsFacts.
Import Numpy Affinity Py Classes Fixtures Samples AffinityFacts ClassesFacts Effects.

Lemma same_except_refl names w : same_except names w w.
Proof. by split_and!. Qed.

Lemma same_except_trans names w1 w2 w3 :
  same_except names w1 w2 → same_except names w2 w3 → same_except names w1 w3.
Proof.
  intros (Hb1 & Ho1 & Ha1) (Hb2 & Ho2 & Ha2). split_and!; [congruence..|].
  intros name Hn. rewrite Ha2, Ha1; done.
Qed.

Section WritesRules.
Context (names : list string).

Lemma writes_ret {A} (a : A) : writes names (ret a).
Proof. intros w. apply same_except_refl. Qed.

Lemma writes_raise {A} e : writes names (@raise A e).
Proof. intros w. apply same_except_refl. Qed.

Lemma writes_lift {A} (o : outcome A) : writes names (lift o).
Proof. intros w. apply same_except_refl. Qed.

Lemma writes_get_self : writes names get_self.
Proof. intros w. apply same_except_refl. Qed.

Lemma writes_log c : writes names (log c).
Proof. intros w. by split_and!. Qed.

Lemma writes_bind {A B} (m : M A) (k : A → M B) :
  writes names m → (∀ a, writes names (k a)) → writes names (bind m k).
Proof.
  intros Hm Hk w. unfold bind. specialize (Hm w).
  destruct (m w) as [[a|e] w1]; simpl in *; [|done].
  eapply same_except_trans; [exact Hm|apply Hk].
Qed.

Lemma writes_getattr name : writes names (getattr name).
Proof.
  intros w. unfold getattr, bind, get_self, ret, raise. simpl.
  destruct (attrs (self w) !! name); apply same_except_refl.
Qed.

Lemma writes_setattr name v : name ∈ names → writes names (setattr name v).
Proof.
  intros Hin w. unfold setattr, bind, get_self, put_attrs. simpl.
  split_and!; [done..|]. intros n Hn. simpl.
  apply lookup_insert_ne. intros ->. done.
Qed.

End WritesRules.

Ltac writes_step :=
  lazymatch goal with
  | |- writes _ (bind _ _) => apply writes_bind; [|intros ?]
  | |- writes _ (ret _) => apply writes_ret
  | |- writes _ (raise _) => apply writes_raise
  | |- writes _ (lift _) => apply writes_lift
  | |- writes _ get_self => apply writes_get_self
  | |- writes _ (log _) => apply writes_log
  | |- writes _ (getattr _) => apply writes_getattr
  | |- writes _ (setattr _ _) =>
      apply writes_setattr; rewrite !elem_of_cons; auto 10
  | |- writes _ (match ?x with _ => _ end) => destruct x
  end.

Ltac unfold_methods :=
  unfold getattr_data, getattr_num, getattr_tree, getattr_matrix,
    dict_getitem, check_is_fitted, _compute_affinity_matrix_m, index0,
    new_criterion, deepcopy, new_splitter, new_tree, new_builder,
    supervised_criterion, supervised_tree, supervised_builder,
    unwrap_single_output, build, self_clustering_func, self_clustering_func_args.

Ltac writes_auto := repeat first [ writes_step | progress unfold_methods ].

Lemma build_tree_writes X y sw msl mwl mln mss md rs :
  writes build_tree_attributes (_build_tree X y sw msl mwl mln mss md rs).
Proof.
  unfold _build_tree, UnsupervisedDecisionTree__build_tree,
    UnsupervisedObliqueDecisionTree__build_tree,
    ObliqueDecisionTreeClassifier__build_tree,
    PatchObliqueDecisionTreeClassifier__build_tree, build_tree_attributes.
  writes_auto.
Qed.

Lemma apply_writes K X : writes [] (apply K X).
Proof. unfold apply. writes_auto. Qed.

Lemma transform_writes K X : writes [] (transform K X).
Proof.
  unfold transform. apply writes_bind; [writes_auto|intros _].
  apply writes_bind; [apply apply_writes|intros ?]. writes_auto.
Qed.

Lemma assign_labels_writes K aff : writes clustering_attributes (_assign_labels K aff).
Proof. unfold _assign_labels, clustering_attributes. writes_auto. Qed.

Lemma writes_mono {A} names names' (m : M A) :
  (∀ n, n ∈ names → n ∈ names') → writes names m → writes names' m.
Proof.
  intros Hsub Hm w. destruct (Hm w) as (Hb & Ho & Ha).
  split_and!; [done..|]. intros n Hn. apply Ha. auto.
Qed.

Lemma predict_writes K X check_input :
  writes clustering_attributes (predict K X check_input).
Proof.
  unfold predict.
  apply writes_bind; [apply writes_get_self|intros e].
  apply writes_bind; [apply writes_lift|intros Xv].
  apply writes_bind; [|intros aff; apply assign_labels_writes].
  eapply writes_mono; [|apply transform_writes].
  intros n []%elem_of_nil.
Qed.

(** *** Runs of [_build_tree] that return *)

Lemma unsupervised_criterion_Ok (p : param criterion) w c w1 :
  (match p with
   | ByName name =>
       bind (dict_getitem UNSUPERVISED_CRITERIA name) (λ cls, new_criterion cls [])
   | Instance c => deepcopy c
   end) w = (Ok c, w1) →
  self w1 = self w
  ∧ ∃ call, calls w1 = call :: calls w
            ∧ (call = NewCriterion c ∨ call = DeepCopy c).
Proof.
  destruct p as [name|c0]; unfold_monad; simpl.
  - destruct (UNSUPERVISED_CRITERIA !! name); simpl; [|done].
    intros [= <- <-]. split; [done|]. eexists. split; [reflexivity|by left].
  - intros [= <- <-]. split; [done|]. eexists. split; [reflexivity|by right].
Qed.

Lemma supervised_criterion_Ok n w c w1 :
  supervised_criterion n w = (Ok c, w1) →
  self w1 = self w
  ∧ ∃ call, calls w1 = call :: calls w
            ∧ (call = NewCriterion c ∨ call = DeepCopy c).
Proof.
  unfold supervised_criterion. unfold_monad.
  run_all; intros; simplify_eq; (split; [done|]); eexists;
    (split; [reflexivity|]); auto.
Qed.

Lemma build_inv b X y sw w w' :
  build b X y sw w = (Ok tt, w') →
  ∃ t, attrs (self w) !! "tree_" = Some (VTree t)
       ∧ let g := {| grown_by := b; grown_X := X; grown_y := y;
                     grown_sample_weight := sw |} in
         w' = {| self := {| base := base (self w); own := own (self w);
                            attrs := <["tree_" := VTree (grow t g)]> (attrs (self w)) |};
                 calls := Build b g :: calls w |}.
Proof.
  unfold build. unfold_monad.
  run_all; intros; simplify_eq. by eexists.
Qed.

Lemma unsupervised_tail_inv cls (b1 b2 : builder) X sw mln w w' :
  bind (getattr_data "n_features_in_") (λ n,
    bind (new_tree cls [n]) (λ t,
      bind (setattr "tree_" (VTree t)) (λ _,
        bind (if (mln <? 0)%Z then new_builder b1 else new_builder b2) (λ builder,
          build builder X None sw)))) w = (Ok tt, w') →
  ∃ t b g,
    b = (if (mln <? 0)%Z then b1 else b2)
    ∧ calls w' = Build b g :: NewBuilder b :: NewTree t :: calls w
    ∧ attrs (self w') !! "tree_" = Some (VTree (grow t g))
    ∧ tree_class_ t = cls
    ∧ tree_growth t = None
    ∧ g = {| grown_by := b; grown_X := X; grown_y := None; grown_sample_weight := sw |}
    ∧ same_except ["tree_"] w w'.
Proof.
  unfold build. unfold_monad.
  destruct (mln <? 0)%Z; run_all; intros; simplify_eq;
    eexists _, _, _; simpl; rewrite ?lookup_insert_eq;
    (split_and!; [reflexivity..|]);
    (split_and!; [done..|]); intros name Hn; simpl;
    rewrite !lookup_insert_ne; try done; intros <-; apply Hn, list_elem_of_here.
Qed.

Lemma supervised_tree_inv w w1 :
  supervised_tree w = (Ok tt, w1) →
  ∃ t, tree_class_ t = ObliqueTree
       ∧ tree_growth t = None
       ∧ w1 = {| self := {| base := base (self w); own := own (self w);
                            attrs := <["tree_" := VTree t]> (attrs (self w)) |};
                 calls := NewTree t :: calls w |}.
Proof.
  unfold supervised_tree. unfold_monad.
  run_all; intros; simplify_eq;
    refine (ex_intro _ _ (conj _ (conj _ eq_refl))); reflexivity.
Qed.

Lemma supervised_builder_run s mss msl mwl md mln w :
  ∃ b, supervised_builder s mss msl mwl md mln w
       = (Ok b, {| self := self w; calls := NewBuilder b :: calls w |})
       ∧ bld_splitter b = s
       ∧ carries b mss msl mwl md mln
       ∧ bld_min_impurity_decrease b = min_impurity_decrease (base (self w)).
Proof.
  unfold supervised_builder, carries. unfold_monad. simpl.
  destruct (mln <? 0)%Z; eexists; by split_and!.
Qed.

Lemma unwrap_single_output_calls w : calls (snd (unwrap_single_output w)) = calls w.
Proof. unfold unwrap_single_output, index0. unfold_monad. by run_all. Qed.

Lemma unwrap_single_output_writes : writes ["n_classes_"; "classes_"] unwrap_single_output.
Proof. writes_auto. Qed.

Lemma supervised_tail_inv s mss msl mwl md mln X y sw w w' :
  bind supervised_tree
    (λ _, bind (supervised_builder s mss msl mwl md mln)
            (λ builder, bind (build builder X y sw) (λ _, unwrap_single_output))) w
  = (Ok tt, w') →
  ∃ t b g,
    calls w' = Build b g :: NewBuilder b :: NewTree t :: calls w
    ∧ attrs (self w') !! "tree_" = Some (VTree (grow t g))
    ∧ tree_class_ t = ObliqueTree
    ∧ tree_growth t = None
    ∧ bld_splitter b = s
    ∧ carries b mss msl mwl md mln
    ∧ bld_min_impurity_decrease b = min_impurity_decrease (base (self w))
    ∧ g = {| grown_by := b; grown_X := X; grown_y := y; grown_sample_weight := sw |}
    ∧ same_except ["tree_"; "n_classes_"; "classes_"] w w'
    ∧ ∃ w3, unwrap_single_output w3 = (Ok tt, w') ∧ same_except ["tree_"] w w3.
Proof.
  intros ([] & w1 & Htree & H)%bind_Ok.
  apply supervised_tree_inv in Htree as (t & Hcls & Hfresh & ->).
  apply bind_Ok in H as (b & w2 & Hb & H).
  match type of Hb with
  | supervised_builder _ _ _ _ _ _ ?w0 = _ =>
      destruct (supervised_builder_run s mss msl mwl md mln w0)
        as (b' & Hrun & Hs & Hcar & Himp)
  end.
  rewrite Hrun in Hb. injection Hb as <- <-.
  apply bind_Ok in H as ([] & w3 & Hbuild & H).
  apply build_inv in Hbuild as (t' & Ht' & Hw3). simpl in Ht', Hw3.
  rewrite lookup_insert_eq in Ht'. injection Ht' as <-.
  pose proof (unwrap_single_output_calls w3) as Hcalls.
  pose proof (unwrap_single_output_writes w3) as (Hb1 & Ho1 & Ha1).
  rewrite H in Hcalls, Hb1, Ho1, Ha1. simpl in Hcalls, Hb1, Ho1, Ha1.
  assert (Hsame3 : same_except ["tree_"] w w3).
  { subst w3. split_and!; [done..|]. intros name Hn. simpl.
    rewrite !lookup_insert_ne; [done|..]; intros <-; apply Hn, list_elem_of_here. }
  exists t, b', {| grown_by := b'; grown_X := X; grown_y := y; grown_sample_weight := sw |}.
  split_and!; try done.
  - rewrite Hcalls. by subst w3.
  - rewrite Ha1; [subst w3; simpl; by rewrite lookup_insert_eq|].
    rewrite !elem_of_cons, elem_of_nil. intros [|[|]]; done.
  - destruct Hsame3 as (Hb3 & Ho3 & Ha3).
    split_and!; [congruence..|]. intros name Hn.
    rewrite Ha1, Ha3; [done|..].
    + intros Hin%list_elem_of_singleton. apply Hn. subst name. apply list_elem_of_here.
    + intros Hin. apply Hn. by right.
  - by exists w3.
Qed.

(** Inversion of the block that chooses the splitter. *)
Ltac splitter_inv Hs p :=
  destruct p as [?name|?s0];
  [ revert Hs; unfold_monad; run_all; intros; simplify_eq;
    eexists [_]; simpl; split_and!; reflexivity
  | unfold ret in Hs; injection Hs as <- <-; by exists [] ].

Lemma tree_built_intro X y sw msl mwl mln mss md rs w w' c call constructed t b g :
  (call = NewCriterion c ∨ call = DeepCopy c) →
  splitter_from (splitter_ (base (self w))) c msl mwl rs (bld_splitter b) constructed →
  calls w' = Build b g :: NewBuilder b :: NewTree t :: constructed ++ call :: calls w →
  attrs (self w') !! "tree_" = Some (VTree (grow t g)) →
  tree_class_ t = tree_class_of (own (self w)) →
  tree_growth t = None →
  carries b mss msl mwl md mln →
  bld_min_impurity_decrease b = min_impurity_decrease (base (self w)) →
  g = {| grown_by := b; grown_X := X;
         grown_y := if is_classifier (self w) then y else None;
         grown_sample_weight := sw |} →
  tree_built X y sw msl mwl mln mss md rs w w' (constructed ++ [call]) t b g.
Proof.
  intros Hcall Hsf Hcalls Htree Hcls Hfresh Hcar Himp ->.
  split; try done.
  - by rewrite <- app_assoc.
  - apply Forall_app. split.
    + unfold splitter_from in Hsf.
      destruct (splitter_ (base (self w))); destruct Hsf as [? ?];
        subst constructed; by repeat constructor.
    + repeat constructor. by destruct Hcall as [-> | ->].
  - exists c, constructed. split; [done|]. exists [call].
    split_and!; [done| |done]. constructor; [exact Hcall|constructor].
Qed.

Lemma unsupervised_build_tree_inv X y sw msl mwl mln mss md rs w w' f a :
  own (self w) = UnsupervisedDecisionTree f a →
  UnsupervisedDecisionTree__build_tree X y sw msl mwl mln mss md rs w = (Ok tt, w') →
  ∃ preparation t b g,
    tree_built X y sw msl mwl mln mss md rs w w' preparation t b g
    ∧ same_except ["tree_"] w w'.
Proof.
  intros Hown H. unfold UnsupervisedDecisionTree__build_tree in H.
  rewrite bind_get_self in H.
  apply bind_Ok in H as (c & w1 & Hc & H).
  apply unsupervised_criterion_Ok in Hc as (Hself1 & call & Hcalls1 & Hcall).
  apply bind_Ok in H as (s & w2 & Hs & H).
  assert (Hsf : ∃ constructed,
             splitter_from (splitter_ (base (self w))) c msl mwl rs s constructed
             ∧ calls w2 = constructed ++ calls w1
             ∧ self w2 = self w1).
  { splitter_inv Hs (splitter_ (base (self w))). }
  destruct Hsf as (constructed & Hsf & Hcalls2 & Hself2).
  apply unsupervised_tail_inv in H
    as (t & b & g & Hb & Hcalls & Htree & Hcls & Hfresh & Hg & Hsame).
  assert (Hcar : carries b mss msl mwl md mln
                 ∧ bld_min_impurity_decrease b = min_impurity_decrease (base (self w))
                 ∧ bld_splitter b = s).
  { subst b. unfold carries. destruct (mln <? 0)%Z; by split_and!. }
  destruct Hcar as (Hcar & Himp & Hbs).
  exists (constructed ++ [call]), t, b, g. split.
  - eapply tree_built_intro; try done.
    + by rewrite Hbs.
    + by rewrite Hcalls, Hcalls2, Hcalls1.
    + by rewrite Hown.
    + unfold is_classifier. by rewrite Hown.
  - destruct Hsame as (H1 & H2 & H3). rewrite Hself2, Hself1 in H1, H2, H3.
    by split_and!.
Qed.

Lemma unsupervised_oblique_build_tree_inv X y sw msl mwl mln mss md rs w w' fc f a :
  own (self w) = UnsupervisedObliqueDecisionTree fc f a →
  UnsupervisedObliqueDecisionTree__build_tree X y sw msl mwl mln mss md rs w
  = (Ok tt, w') →
  ∃ preparation t b g,
    tree_built X y sw msl mwl mln mss md rs w w' preparation t b g
    ∧ same_except ["tree_"] w w'.
Proof.
  intros Hown H. unfold UnsupervisedObliqueDecisionTree__build_tree in H.
  rewrite bind_get_self, Hown in H.
  apply bind_Ok in H as (c & w1 & Hc & H).
  apply unsupervised_criterion_Ok in Hc as (Hself1 & call & Hcalls1 & Hcall).
  apply bind_Ok in H as (s & w2 & Hs & H).
  assert (Hsf : ∃ constructed,
             splitter_from (splitter_ (base (self w))) c msl mwl rs s constructed
             ∧ calls w2 = constructed ++ calls w1
             ∧ self w2 = self w1).
  { splitter_inv Hs (splitter_ (base (self w))). }
  destruct Hsf as (constructed & Hsf & Hcalls2 & Hself2).
  apply unsupervised_tail_inv in H
    as (t & b & g & Hb & Hcalls & Htree & Hcls & Hfresh & Hg & Hsame).
  assert (Hcar : carries b mss msl mwl md mln
                 ∧ bld_min_impurity_decrease b = min_impurity_decrease (base (self w))
                 ∧ bld_splitter b = s).
  { subst b. unfold carries. destruct (mln <? 0)%Z; by split_and!. }
  destruct Hcar as (Hcar & Himp & Hbs).
  exists (constructed ++ [call]), t, b, g. split.
  - eapply tree_built_intro; try done.
    + by rewrite Hbs.
    + by rewrite Hcalls, Hcalls2, Hcalls1.
    + by rewrite Hown.
    + unfold is_classifier. by rewrite Hown.
  - destruct Hsame as (H1 & H2 & H3). rewrite Hself2, Hself1 in H1, H2, H3.
    by split_and!.
Qed.

(** [min(a, b)] is at most [a]. *)
Lemma py_min_le a b : num_gt (py_min a b) a = false.
Proof.
  unfold py_min, num_gt.
  destruct (Qle_bool (to_Q a) (to_Q b)) eqn:Hab; simpl.
  - apply negb_false_iff, Qle_bool_iff, Qle_refl.
  - apply negb_false_iff, Qle_bool_iff.
    apply Qlt_le_weak, Qnot_le_lt. intros Hle%Qle_bool_iff. congruence.
Qed.

(** The value that the oblique classifier records in
    [feature_combinations_] for a parameter that passes the check. *)
Lemma oblique_feature_combinations_inv (fc : option number) (n_features : nat) w w1 :
  (match fc with
   | None =>
       setattr "feature_combinations_"
         (VNum (py_min (Int (Z.of_nat n_features)) (Float (3 # 2))))
   | Some fc =>
       if num_gt fc (Int (Z.of_nat n_features)) then
         raise (RuntimeError (FeatureCombinationsTooLarge fc n_features))
       else setattr "feature_combinations_" (VNum fc)
   end) w = (Ok tt, w1) →
  ∃ v, v = default (py_min (Int (Z.of_nat n_features)) (Float (3 # 2))) fc
       ∧ num_gt v (Int (Z.of_nat n_features)) = false
       ∧ w1 = {| self := {| base := base (self w); own := own (self w);
                            attrs := <["feature_combinations_" := VNum v]>
                                       (attrs (self w)) |};
                 calls := calls w |}.
Proof.
  destruct fc as [fc|]; simpl.
  - destruct (num_gt fc (Int (Z.of_nat n_features))) eqn:Hgt; [done|].
    intros [= <-]. by exists fc.
  - intros [= <-]. eexists. split_and!; [reflexivity|apply py_min_le|reflexivity].
Qed.

Lemma oblique_build_tree_inv X y sw msl mwl mln mss md rs w w' cw fc :
  own (self w) = ObliqueDecisionTreeClassifier cw fc →
  ObliqueDecisionTreeClassifier__build_tree X y sw msl mwl mln mss md rs w
  = (Ok tt, w') →
  issparse X = false
  ∧ ∃ preparation t b g v,
      tree_built X y sw msl mwl mln mss md rs w w' preparation t b g
      ∧ v = default (py_min (Int (Z.of_nat (shape1 X))) (Float (3 # 2))) fc
      ∧ num_gt v (Int (Z.of_nat (shape1 X))) = false
      ∧ attrs (self w') !! "feature_combinations_" = Some (VNum v)
      ∧ (∀ name, splitter_ (base (self w)) = ByName name →
           spl_extra (bld_splitter b) = FeatureCombinations v)
      ∧ ∃ w3, unwrap_single_output w3 = (Ok tt, w')
              ∧ same_except ["tree_"; "feature_combinations_"] w w3.
Proof.
  intros Hown H. unfold ObliqueDecisionTreeClassifier__build_tree in H.
  rewrite bind_get_self, Hown in H. cbv zeta in H.
  apply bind_Ok in H as ([] & w1 & Hpre & H).
  apply oblique_feature_combinations_inv in Hpre as (v & Hv & Hle & ->).
  apply bind_Ok in H as (c & w2 & Hc & H).
  apply supervised_criterion_Ok in Hc as (Hself1 & call & Hcalls1 & Hcall).
  destruct (issparse X); [done|]. split; [done|].
  apply bind_Ok in H as (s & w3 & Hs & H).
  destruct w2 as [e2 c2]. simpl in Hself1, Hcalls1. subst e2 c2.
  assert (Hsf : ∃ constructed,
             splitter_from (splitter_ (base (self w))) c msl mwl rs s constructed
             ∧ calls w3 = constructed ++ call :: calls w
             ∧ self w3 = {| base := base (self w); own := own (self w);
                            attrs := <["feature_combinations_" := VNum v]>
                                       (attrs (self w)) |}
             ∧ (∀ name, splitter_ (base (self w)) = ByName name →
                  spl_extra s = FeatureCombinations v)).
  { destruct (splitter_ (base (self w))) as [name|s0].
    - revert Hs. unfold_monad. run_all; intros; simplify_eq.
      eexists [_]. simpl. split_and!; reflexivity.
    - unfold ret in Hs. injection Hs as <- <-. by exists []. }
  destruct Hsf as (constructed & Hsf & Hcalls3 & Hself3 & Hextra).
  apply supervised_tail_inv in H
    as (t & b & g & Hcalls & Htree & Hcls & Hfresh & Hbs & Hcar & Himp & Hg & Hsame
        & w4 & Hunwrap & Hsame4).
  rewrite Hself3 in Himp. simpl in Himp.
  exists (constructed ++ [call]), t, b, g, v. split_and!; try done.
  - eapply tree_built_intro; try done.
    + by rewrite Hbs.
    + by rewrite Hcalls, Hcalls3.
    + by rewrite Hown.
    + unfold is_classifier. by rewrite Hown.
  - destruct Hsame as (_ & _ & Ha). rewrite Ha, Hself3; simpl.
    + by rewrite lookup_insert_eq.
    + rewrite !elem_of_cons, elem_of_nil. intros [|[|[|]]]; done.
  - intros name Hname. rewrite Hbs. by eapply Hextra.
  - exists w4. split; [done|].
    destruct Hsame4 as (Hb4 & Ho4 & Ha4). rewrite Hself3 in Hb4, Ho4, Ha4.
    split_and!; [done..|]. intros name Hn. rewrite Ha4.
    + simpl. apply lookup_insert_ne. intros <-. apply Hn. right. apply list_elem_of_here.
    + intros Hin%list_elem_of_singleton. apply Hn. subst name. apply list_elem_of_here.
Qed.

Lemma patch_build_tree_inv X y sw msl mwl mln mss md rs w w'
    cw h1 h2 w1 w2 dh dw :
  own (self w) = PatchObliqueDecisionTreeClassifier cw h1 h2 w1 w2 dh dw →
  PatchObliqueDecisionTreeClassifier__build_tree X y sw msl mwl mln mss md rs w
  = (Ok tt, w') →
  issparse X = false
  ∧ ∃ preparation t b g,
      tree_built X y sw msl mwl mln mss md rs w w' preparation t b g
      ∧ (∀ name, splitter_ (base (self w)) = ByName name →
           ∃ h w0,
             attrs (self w) !! "data_height_" = Some (VData (Scalar h))
             ∧ attrs (self w) !! "data_width_" = Some (VData (Scalar w0))
             ∧ spl_extra (bld_splitter b) = PatchGeometry h1 h2 w1 w2 h w0)
      ∧ ∃ w3, unwrap_single_output w3 = (Ok tt, w')
              ∧ same_except ["tree_"; "feature_combinations_"] w w3.
Proof.
  intros Hown H. unfold PatchObliqueDecisionTreeClassifier__build_tree in H.
  rewrite bind_get_self, Hown in H. cbv zeta in H.
  apply bind_Ok in H as (c & wa & Hc & H).
  apply supervised_criterion_Ok in Hc as (Hself1 & call & Hcalls1 & Hcall).
  destruct (issparse X); [done|]. split; [done|].
  apply bind_Ok in H as (s & wb & Hs & H).
  destruct wa as [e2 c2]. simpl in Hself1, Hcalls1. subst e2 c2.
  assert (Hsf : ∃ constructed,
             splitter_from (splitter_ (base (self w))) c msl mwl rs s constructed
             ∧ calls wb = constructed ++ call :: calls w
             ∧ self wb = self w
             ∧ (∀ name, splitter_ (base (self w)) = ByName name →
                  ∃ h w0,
                    attrs (self w) !! "data_height_" = Some (VData (Scalar h))
                    ∧ attrs (self w) !! "data_width_" = Some (VData (Scalar w0))
                    ∧ spl_extra s = PatchGeometry h1 h2 w1 w2 h w0)).
  { destruct (splitter_ (base (self w))) as [name|s0].
    - revert Hs. unfold_monad. run_all; intros; simplify_eq.
      eexists [_]. simpl. split_and!; try reflexivity.
      intros ? _. by eexists _, _.
    - unfold ret in Hs. injection Hs as <- <-. by exists []. }
  destruct Hsf as (constructed & Hsf & Hcalls3 & Hself3 & Hextra).
  apply supervised_tail_inv in H
    as (t & b & g & Hcalls & Htree & Hcls & Hfresh & Hbs & Hcar & Himp & Hg & Hsame
        & w4 & Hunwrap & Hsame4).
  rewrite Hself3 in Himp.
  exists (constructed ++ [call]), t, b, g. split_and!; try done.
  - eapply tree_built_intro; try done.
    + by rewrite Hbs.
    + by rewrite Hcalls, Hcalls3.
    + by rewrite Hown.
    + unfold is_classifier. by rewrite Hown.
  - intros name Hname. rewrite Hbs. by eapply Hextra.
  - exists w4. split; [done|].
    destruct Hsame4 as (Hb4 & Ho4 & Ha4). rewrite Hself3 in Hb4, Ho4, Ha4.
    split_and!; [done..|]. intros name Hn. rewrite Ha4; [done|].
    intros Hin%list_elem_of_singleton. apply Hn. subst name. apply list_elem_of_here.
Qed.

(** Every return of [_build_tree], whatever the class of the estimator. *)
Lemma build_tree_inv X y sw msl mwl mln mss md rs w w' :
  _build_tree X y sw msl mwl mln mss md rs w = (Ok tt, w') →
  ∃ preparation t b g,
    tree_built X y sw msl mwl mln mss md rs w w' preparation t b g.
Proof.
  unfold _build_tree. rewrite bind_get_self.
  destruct (own (self w)) as [f a|fc f a|cw fc|cw h1 h2 w1 w2 dh dw] eqn:Hown.
  - intros (p & t & b & g & H & _)%(unsupervised_build_tree_inv _ _ _ _ _ _ _ _ _ _ _ f a);
      [eauto|done].
  - intros (p & t & b & g & H & _)%(unsupervised_oblique_build_tree_inv
                                     _ _ _ _ _ _ _ _ _ _ _ fc f a); [eauto|done].
  - intros (_ & p & t & b & g & v & H & _)%(oblique_build_tree_inv
                                     _ _ _ _ _ _ _ _ _ _ _ cw fc); [eauto|done].
  - intros (_ & p & t & b & g & H & _)%(patch_build_tree_inv
                                     _ _ _ _ _ _ _ _ _ _ _ cw h1 h2 w1 w2 dh dw);
      [eauto|done].
Qed.

Lemma unwrap_single_output_inv w w' :
  unwrap_single_output w = (Ok tt, w') →
  ∃ n, attrs (self w) !! "n_outputs_" = Some (VData n)
       ∧ (n = Scalar 1 → is_classifier (self w) = true →
          ∃ nc cs nc0 cs0,
            attrs (self w) !! "n_classes_" = Some (VData nc)
            ∧ first_entry nc = Some nc0
            ∧ attrs (self w) !! "classes_" = Some (VData cs)
            ∧ first_entry cs = Some cs0
            ∧ w' = {| self := {| base := base (self w); own := own (self w);
                                 attrs := <["classes_" := VData cs0]>
                                            (<["n_classes_" := VData nc0]>
                                               (attrs (self w))) |};
                      calls := calls w |})
       ∧ (n ≠ Scalar 1 ∨ is_classifier (self w) = false → w' = w).
Proof.
  unfold unwrap_single_output, index0. unfold_monad.
  destruct (attrs (self w) !! "n_outputs_") as [[n| | | | |]|] eqn:Hn; simpl; try done.
  intros H. exists n. split; [done|].
  destruct (is_classifier (self w)) eqn:Hcls.
  - split.
    + intros -> _. revert H. run_all; intros; simplify_eq;
        eexists _, _, _, _; split_and!; try reflexivity; done.
    + intros [Hne|?]; [|done].
      destruct n as [[|[]|]| |]; simplify_eq/=; done.
  - split; [done|]. intros _.
    destruct n as [[|[]|]| |]; simplify_eq/=; done.
Qed.

(** *** What a returning [_build_tree] guarantees *)

(** X7. The growth parameters reach the builder unchanged.  When
    [_build_tree] returns, [tree_] has been grown by a builder that
    carries the [min_samples_split], [min_samples_leaf],
    [min_weight_leaf] and [max_depth] it was called with, [max_leaf_nodes]
    when it is best-first, and the [min_impurity_decrease] of the
    estimator; a splitter constructed by name carries [min_samples_leaf],
    [min_weight_leaf], [random_state] and the criterion constructed in
    this call, and a splitter given as an instance is used as it is. *)
Theorem build_tree_forwards_parameters X y sw msl mwl mln mss md rs w w' :
  _build_tree X y sw msl mwl mln mss md rs w = (Ok tt, w') →
  ∃ t b g,
    attrs (self w') !! "tree_" = Some (VTree (grow t g))
    ∧ head (calls w') = Some (Build b g)
    ∧ grown_by g = b
    ∧ carries b mss msl mwl md mln
    ∧ bld_min_impurity_decrease b = min_impurity_decrease (base (self w))
    ∧ ∃ criterion constructed,
        splitter_from (splitter_ (base (self w))) criterion msl mwl rs
          (bld_splitter b) constructed
        ∧ (NewCriterion criterion ∈ calls w' ∨ DeepCopy criterion ∈ calls w').
Proof.
  intros (prep & t & b & g & H)%build_tree_inv. destruct H.
  exists t, b, g. split_and!; try done.
  - by rewrite built_calls0.
  - destruct built_splitter0 as (c & constructed & Hsf & before & -> & Hbefore & Hlen).
    exists c, constructed. split; [done|].
    destruct before as [|call [|]]; simplify_eq/=.
    apply Forall_cons in Hbefore as [[-> | ->] _]; [left|right];
      rewrite built_calls0; do 3 apply list_elem_of_further;
      rewrite !elem_of_app, elem_of_cons; auto.
Qed.

(** X8. The data that reach the builder.  When [_build_tree] returns,
    [build] has been called on the feature matrix and the sample weights
    it was given; the targets are passed on by the two classifiers and
    dropped by the two unsupervised trees, whatever [y] they are
    given. *)
Theorem build_tree_passes_data X y sw msl mwl mln mss md rs w w' :
  _build_tree X y sw msl mwl mln mss md rs w = (Ok tt, w') →
  ∃ b g,
    head (calls w') = Some (Build b g)
    ∧ grown_X g = X
    ∧ grown_sample_weight g = sw
    ∧ (is_classifier (self w) = true → grown_y g = y)
    ∧ (is_classifier (self w) = false → grown_y g = None).
Proof.
  intros (prep & t & b & g & H)%build_tree_inv. destruct H.
  exists b, g. split_and!; try done.
  - by rewrite built_calls0.
  - intros Hc. by rewrite Hc in built_y0.
  - intros Hc. by rewrite Hc in built_y0.
Qed.

Lemma builders_run_preparation preparation l :
  Forall (λ c, is_preparation_call c = true) preparation →
  builders_run (preparation ++ l) = builders_run l.
Proof.
  unfold builders_run. induction 1 as [|c cs Hc _ IH]; [done|].
  destruct c; try done; simpl; exact IH.
Qed.

(** X9. One tree, one builder, one run.  When [_build_tree] returns it has
    constructed, after the criterion and possibly a splitter, exactly one
    tree (of the tree class of the estimator, and empty), then exactly
    one builder, and it has called [build] exactly once, last, on that
    tree: [tree_] never holds a tree left from an earlier fit. *)
Theorem build_tree_builds_once X y sw msl mwl mln mss md rs w w' :
  _build_tree X y sw msl mwl mln mss md rs w = (Ok tt, w') →
  ∃ preparation t b g,
    calls w' = Build b g :: NewBuilder b :: NewTree t :: preparation ++ calls w
    ∧ Forall (λ c, is_preparation_call c = true) preparation
    ∧ tree_class_ t = tree_class_of (own (self w))
    ∧ tree_growth t = None
    ∧ attrs (self w') !! "tree_" = Some (VTree (grow t g))
    ∧ builders_run (calls w') = b :: builders_run (calls w).
Proof.
  intros (prep & t & b & g & H)%build_tree_inv. destruct H.
  exists prep, t, b, g. split_and!; try done.
  rewrite built_calls0. simpl. f_equal.
  change (builders_run (prep ++ calls w) = builders_run (calls w)).
  by apply builders_run_preparation.
Qed.

(** X10. The oblique classifier grows its tree with at most [n_features]
    feature combinations: when its [_build_tree] returns,
    [feature_combinations_] holds the parameter, or [min(n_features, 1.5)]
    when the parameter is [None]; this value does not exceed the number
    of features, and it is the one given to the splitter constructed by
    name. *)
Theorem oblique_classifier_feature_combinations_bounded
    X y sw msl mwl mln mss md rs w w' cw fc :
  own (self w) = ObliqueDecisionTreeClassifier cw fc →
  _build_tree X y sw msl mwl mln mss md rs w = (Ok tt, w') →
  ∃ v b g,
    v = default (py_min (Int (Z.of_nat (shape1 X))) (Float (3 # 2))) fc
    ∧ num_gt v (Int (Z.of_nat (shape1 X))) = false
    ∧ attrs (self w') !! "feature_combinations_" = Some (VNum v)
    ∧ head (calls w') = Some (Build b g)
    ∧ (∀ name, splitter_ (base (self w)) = ByName name →
         spl_extra (bld_splitter b) = FeatureCombinations v).
Proof.
  intros Hown. unfold _build_tree. rewrite bind_get_self, Hown.
  intros (_ & prep & t & b & g & v & H & Hv & Hle & Hattr & Hextra & _)%(
    oblique_build_tree_inv _ _ _ _ _ _ _ _ _ _ _ cw fc); [|done].
  destruct H. exists v, b, g. split_and!; try done.
  by rewrite built_calls0.
Qed.

(** X11. [_build_tree] sets no attribute other than [tree_],
    [feature_combinations_], [n_classes_] and [classes_] (the
    unsupervised trees: none other than [tree_]), whether it returns or
    raises; the constructor parameters are never changed. *)
Theorem build_tree_sets_only_its_attributes X y sw msl mwl mln mss md rs w :
  let w' := snd (_build_tree X y sw msl mwl mln mss md rs w) in
  base (self w') = base (self w)
  ∧ own (self w') = own (self w)
  ∧ (∀ name, name ∉ build_tree_attributes →
       attrs (self w') !! name = attrs (self w) !! name)
  ∧ (is_classifier (self w) = false →
     ∀ name, name ≠ "tree_" → attrs (self w') !! name = attrs (self w) !! name).
Proof.
  destruct (build_tree_writes X y sw msl mwl mln mss md rs w) as (Hb & Ho & Ha).
  simpl. split_and!; try done.
  intros Hcls name Hname. unfold _build_tree. rewrite bind_get_self.
  unfold is_classifier in Hcls.
  destruct (own (self w)) eqn:Hown; try done.
  - assert (Hw : writes ["tree_"]
                   (UnsupervisedDecisionTree__build_tree X y sw msl mwl mln mss md rs)).
    { unfold UnsupervisedDecisionTree__build_tree. writes_auto. }
    apply (Hw w). rewrite list_elem_of_singleton. done.
  - assert (Hw : writes ["tree_"]
                   (UnsupervisedObliqueDecisionTree__build_tree
                      X y sw msl mwl mln mss md rs)).
    { unfold UnsupervisedObliqueDecisionTree__build_tree. writes_auto. }
    apply (Hw w). rewrite list_elem_of_singleton. done.
Qed.

Lemma classifier_build_tree_inv X y sw msl mwl mln mss md rs w w' :
  is_classifier (self w) = true →
  _build_tree X y sw msl mwl mln mss md rs w = (Ok tt, w') →
  issparse X = false
  ∧ ∃ w3, unwrap_single_output w3 = (Ok tt, w')
          ∧ same_except ["tree_"; "feature_combinations_"] w w3.
Proof.
  unfold is_classifier, _build_tree. rewrite bind_get_self.
  destruct (own (self w)) as [f a|fc f a|cw fc|cw h1 h2 w1 w2 dh dw] eqn:Hown;
    try done; intros _.
  - intros (Hsp & p & t & b & g & v & _ & _ & _ & _ & _ & H)%(
      oblique_build_tree_inv _ _ _ _ _ _ _ _ _ _ _ cw fc); done.
  - intros (Hsp & p & t & b & g & _ & _ & H)%(
      patch_build_tree_inv _ _ _ _ _ _ _ _ _ _ _ cw h1 h2 w1 w2 dh dw); done.
Qed.

(** X12. The fix-up that ends the [_build_tree] of the two classifiers.  When
    it returns for a single-output problem ([n_outputs_ == 1]),
    [n_classes_] and [classes_] hold the first entries of the arrays they
    held on entry; otherwise they are as they were on entry. *)
Theorem classifier_build_tree_unwraps_single_output
    X y sw msl mwl mln mss md rs w w' :
  is_classifier (self w) = true →
  _build_tree X y sw msl mwl mln mss md rs w = (Ok tt, w') →
  ∃ n,
    attrs (self w) !! "n_outputs_" = Some (VData n)
    ∧ attrs (self w') !! "n_outputs_" = Some (VData n)
    ∧ (n = Scalar 1 →
       ∃ nc cs nc0 cs0,
         attrs (self w) !! "n_classes_" = Some (VData nc)
         ∧ first_entry nc = Some nc0
         ∧ attrs (self w') !! "n_classes_" = Some (VData nc0)
         ∧ attrs (self w) !! "classes_" = Some (VData cs)
         ∧ first_entry cs = Some cs0
         ∧ attrs (self w') !! "classes_" = Some (VData cs0))
    ∧ (n ≠ Scalar 1 →
       attrs (self w') !! "n_classes_" = attrs (self w) !! "n_classes_"
       ∧ attrs (self w') !! "classes_" = attrs (self w) !! "classes_").
Proof.
  intros Hcls Hrun.
  pose proof (build_tree_writes X y sw msl mwl mln mss md rs w) as (_ & _ & Hall).
  rewrite Hrun in Hall. simpl in Hall.
  apply classifier_build_tree_inv in Hrun as (_ & w3 & Hunwrap & Hb3 & Ho3 & Ha3);
    [|done].
  assert (Hcls3 : is_classifier (self w3) = true).
  { unfold is_classifier in *. by rewrite Ho3. }
  assert (Hkeep : ∀ name, name ≠ "tree_" → name ≠ "feature_combinations_" →
                    attrs (self w3) !! name = attrs (self w) !! name).
  { intros name H1 H2. apply Ha3. rewrite !elem_of_cons, elem_of_nil.
    intros [|[|]]; done. }
  apply unwrap_single_output_inv in Hunwrap as (n & Hn & Hone & Hother).
  rewrite Hkeep in Hn by done.
  exists n. split_and!; [done| | |].
  - rewrite Hall; [done|]. unfold build_tree_attributes.
    rewrite !elem_of_cons, elem_of_nil. intros [|[|[|[|]]]]; done.
  - intros ->. destruct (Hone eq_refl Hcls3) as (nc & cs & nc0 & cs0 & H1 & H2 & H3 & H4 & ->).
    rewrite Hkeep in H1, H3 by done.
    exists nc, cs, nc0, cs0. simpl. split_and!; try done.
    + rewrite lookup_insert_ne by done. by rewrite lookup_insert_eq.
    + by rewrite lookup_insert_eq.
  - intros Hne. rewrite (Hother (or_introl Hne)). by rewrite !Hkeep.
Qed.

(** *** Names that are not registered *)

(** X13. An unsupervised tree whose [criterion] is a name other than
    ["twomeans"] and ["fastbic"] fails in [_build_tree] with the
    [KeyError] of the registry lookup, before anything is constructed or
    set: the estimator and the call log are as before.  The names of the
    supervised criteria (["gini"], ["squared_error"], ...) are among
    them. *)
Theorem unsupervised_unregistered_criterion X y sw msl mwl mln mss md rs w name :
  is_classifier (self w) = false →
  criterion_ (base (self w)) = ByName name →
  UNSUPERVISED_CRITERIA !! name = None →
  _build_tree X y sw msl mwl mln mss md rs w = (Raise (KeyError name), w)
  ∧ (∀ other cls,
       (CRITERIA_CLF !! other = Some cls ∨ CRITERIA_REG !! other = Some cls) →
       UNSUPERVISED_CRITERIA !! other = None).
Proof.
  intros Hcls Hcrit Hreg. split.
  - unfold _build_tree. rewrite bind_get_self. unfold is_classifier in Hcls.
    destruct (own (self w)) eqn:Hown; try done.
    + unfold UnsupervisedDecisionTree__build_tree.
      rewrite bind_get_self, Hcrit. unfold bind, dict_getitem. by rewrite Hreg.
    + unfold UnsupervisedObliqueDecisionTree__build_tree.
      rewrite bind_get_self, Hown, Hcrit. unfold bind, dict_getitem. by rewrite Hreg.
  - intros other cls Hother.
    destruct (UNSUPERVISED_CRITERIA !! other) as [c|] eqn:Hc; [|done]. exfalso.
    assert (Hin : other = "twomeans" ∨ other = "fastbic").
    { destruct (decide (other = "twomeans")) as [|H1]; [by left|].
      destruct (decide (other = "fastbic")) as [|H2]; [by right|].
      unfold UNSUPERVISED_CRITERIA in Hc. simpl in Hc.
      rewrite !lookup_insert_ne in Hc by done. by rewrite lookup_empty in Hc. }
    destruct Hin as [-> | ->], Hother as [H|H]; by vm_compute in H.
Qed.

Lemma supervised_criterion_unregistered n w name :
  is_classifier (self w) = true →
  criterion_ (base (self w)) = ByName name →
  CRITERIA_CLF !! name = None →
  supervised_criterion n w = (Raise (KeyError name), w).
Proof.
  intros Hcls Hcrit Hreg. unfold supervised_criterion.
  rewrite bind_get_self, Hcrit, Hcls. unfold bind, dict_getitem. by rewrite Hreg.
Qed.

Lemma classifier_build_tree_unregistered X y sw msl mwl mln mss md rs w name :
  is_classifier (self w) = true →
  criterion_ (base (self w)) = ByName name →
  CRITERIA_CLF !! name = None →
  ∃ err w',
    _build_tree X y sw msl mwl mln mss md rs w = (Raise err, w')
    ∧ calls w' = calls w
    ∧ (err = KeyError name
       ∨ ∃ fc, err = RuntimeError (FeatureCombinationsTooLarge fc (shape1 X))).
Proof.
  intros Hcls Hcrit Hreg. unfold _build_tree. rewrite bind_get_self.
  pose proof Hcls as Hcls'. unfold is_classifier in Hcls'.
  destruct (own (self w)) as [| |cw fc|cw h1 h2 w1 w2 dh dw] eqn:Hown; try done.
  - unfold ObliqueDecisionTreeClassifier__build_tree.
    rewrite bind_get_self, Hown. cbv zeta. rewrite bind_run.
    assert (Hkey : ∀ v,
               supervised_criterion (shape0 X)
                 {| self := {| base := base (self w); own := own (self w);
                               attrs := <["feature_combinations_" := v]>
                                          (attrs (self w)) |};
                    calls := calls w |}
               = (Raise (KeyError name),
                  {| self := {| base := base (self w); own := own (self w);
                                attrs := <["feature_combinations_" := v]>
                                           (attrs (self w)) |};
                     calls := calls w |})).
    { intros v. apply supervised_criterion_unregistered; simpl; done. }
    destruct fc as [fc|]; simpl.
    + destruct (num_gt fc (Int (Z.of_nat (shape1 X)))) eqn:Hgt; simpl.
      * eexists _, _. split_and!; [reflexivity|done|]. right. by exists fc.
      * rewrite bind_run, Hkey. eexists _, _. split_and!; [reflexivity|done|by left].
    + rewrite bind_run, Hkey. eexists _, _. split_and!; [reflexivity|done|by left].
  - unfold PatchObliqueDecisionTreeClassifier__build_tree.
    rewrite bind_get_self, Hown. cbv zeta. rewrite bind_run.
    rewrite (supervised_criterion_unregistered _ _ name) by done.
    eexists _, _. split_and!; [reflexivity|done|by left].
Qed.

Lemma base_fit_unregistered K X y sw ci w name :
  is_classifier (self w) = true →
  criterion_ (base (self w)) = ByName name →
  CRITERIA_CLF !! name = None →
  ∃ err w', BaseDecisionTree_fit K X y sw ci w = (Raise err, w') ∧ calls w' = calls w.
Proof.
  intros Hcls Hcrit Hreg. unfold BaseDecisionTree_fit.
  rewrite bind_get_self, bind_run. unfold lift at 1.
  destruct (base_prepare K (self w) X y sw ci) as [[a rec]|err]; [|by eexists _, _].
  rewrite bind_run. unfold record_attrs at 1. rewrite bind_get_self.
  unfold put_attrs at 1. rewrite bind_run.
  match goal with
  | |- context [_build_tree ?X' ?y' ?sw' ?a1 ?a2 ?a3 ?a4 ?a5 ?a6 ?w1] =>
      destruct (classifier_build_tree_unregistered X' y' sw' a1 a2 a3 a4 a5 a6 w1 name)
        as (err & w' & -> & Hcalls & _); [done..|]
  end.
  by eexists _, _.
Qed.

(** *** The checks of the patch classifier *)

Lemma spec_patch_check_input {I : world → Prop}
    (HI : stable (λ _, True) I) K X y :
  spec I (patch_check_input K X y) (λ _, True).
Proof. unfold patch_check_input. spec_auto HI idtac. Qed.

Lemma patch_fit_checks K X y sw (check_input : bool) w
    cw h1 h2 w1 w2 dh dw Xv yv wc :
  own (self w) = PatchObliqueDecisionTreeClassifier cw h1 h2 w1 w2 dh dw →
  (if check_input then patch_check_input K X y else ret (X, y)) w = (Ok (Xv, yv), wc) →
  PatchObliqueDecisionTreeClassifier_fit K X y sw check_input w
  = let dw_ := default (Z.of_nat (shape1 Xv)) dw in
    let w' := with_patch_shape wc dw_ dh in
    if negb (dh * dw_ =? Z.of_nat (shape1 Xv))%Z then
      (Raise (RuntimeError (PatchConfiguration DataShapeMismatch)), w')
    else if (h1 >? h2)%Z then
      (Raise (RuntimeError (PatchConfiguration MinHeightAboveMax)), w')
    else if (w1 >? w2)%Z then
      (Raise (RuntimeError (PatchConfiguration MinWidthAboveMax)), w')
    else if (w2 >? dw_)%Z then
      (Raise (RuntimeError (PatchConfiguration MaxWidthAboveData)), w')
    else if (h2 >? dh)%Z then
      (Raise (RuntimeError (PatchConfiguration MaxHeightAboveData)), w')
    else BaseDecisionTree_fit K Xv yv sw false w'.
Proof.
  intros Hown Hcheck. unfold PatchObliqueDecisionTreeClassifier_fit.
  rewrite bind_get_self, Hown. rewrite bind_run, Hcheck. cbv zeta.
  replace (match dw with Some w0 => w0 | None => Z.of_nat (shape1 Xv) end)
    with (default (Z.of_nat (shape1 Xv)) dw) by (by destruct dw).
  unfold setattr, bind, get_self, put_attrs, raise. simpl.
  fold (with_patch_shape wc (default (Z.of_nat (shape1 Xv)) dw) dh).
  repeat (match goal with |- context [if ?c then _ else _] => destruct c end;
          simpl; try reflexivity).
Qed.

Lemma patch_fit_check_failed K X y sw (check_input : bool) w
    cw h1 h2 w1 w2 dh dw err wc :
  own (self w) = PatchObliqueDecisionTreeClassifier cw h1 h2 w1 w2 dh dw →
  (if check_input then patch_check_input K X y else ret (X, y)) w = (Raise err, wc) →
  PatchObliqueDecisionTreeClassifier_fit K X y sw check_input w = (Raise err, wc).
Proof.
  intros Hown Hcheck. unfold PatchObliqueDecisionTreeClassifier_fit.
  by rewrite bind_get_self, Hown, bind_run, Hcheck.
Qed.

(** X14. A classifier whose [criterion] is a name outside ["gini"],
    ["log_loss"] and ["entropy"] cannot be fitted: [_build_tree], the
    [fit] of the base class and the [fit] of the patch classifier all
    raise, with nothing constructed.  The names of the regression
    criteria are such names, ["poisson"] included, so that the target
    checks that the patch classifier makes for ["poisson"] guard a fit
    that fails in any case. *)
Theorem classifier_unregistered_criterion K X y sw (check_input : bool) w name :
  is_classifier (self w) = true →
  criterion_ (base (self w)) = ByName name →
  CRITERIA_CLF !! name = None →
  (∀ msl mwl mln mss md rs,
     ∃ err w', _build_tree X y sw msl mwl mln mss md rs w = (Raise err, w')
               ∧ calls w' = calls w)
  ∧ (∃ err w', BaseDecisionTree_fit K X y sw check_input w = (Raise err, w')
               ∧ calls w' = calls w)
  ∧ (∃ err w', PatchObliqueDecisionTreeClassifier_fit K X y sw check_input w
               = (Raise err, w')
               ∧ calls w' = calls w)
  ∧ (∀ other cls, CRITERIA_REG !! other = Some cls → CRITERIA_CLF !! other = None).
Proof.
  intros Hcls Hcrit Hreg. split_and!.
  - intros msl mwl mln mss md rs.
    destruct (classifier_build_tree_unregistered X y sw msl mwl mln mss md rs w name)
      as (err & w' & Hrun & Hcalls & _); [done..|]. by exists err, w'.
  - by eapply base_fit_unregistered.
  - pose proof Hcls as Hcls'. unfold is_classifier in Hcls'.
    destruct (own (self w)) as [| |cw fc|cw h1 h2 w1 w2 dh dw] eqn:Hown; try done.
    { unfold PatchObliqueDecisionTreeClassifier_fit. rewrite bind_get_self, Hown.
      by eexists _, _. }
    pose proof (stable_params (base (self w)) (own (self w))) as HI.
    assert (Hpre : calls (snd ((if check_input then patch_check_input K X y
                                else ret (X, y)) w)) = calls w
                   ∧ base (self (snd ((if check_input then patch_check_input K X y
                                       else ret (X, y)) w))) = base (self w)
                   ∧ own (self (snd ((if check_input then patch_check_input K X y
                                      else ret (X, y)) w))) = own (self w)).
    { destruct check_input; [|done]. split; [apply patch_check_input_calls|].
      apply (spec_patch_check_input HI K X y w). done. }
    destruct ((if check_input then patch_check_input K X y else ret (X, y)) w)
      as [[[Xv yv]|err] wc] eqn:Hcheck; simpl in Hpre;
      destruct Hpre as (Hcalls & Hbase & Hown').
    + rewrite (patch_fit_checks K X y sw check_input w cw h1 h2 w1 w2 dh dw Xv yv wc)
        by done.
      cbv zeta.
      destruct (base_fit_unregistered K Xv yv sw false
                  (with_patch_shape wc (default (Z.of_nat (shape1 Xv)) dw) dh) name)
        as (err & w' & Hrun & Hcalls'); simpl.
      { unfold is_classifier. simpl. by rewrite Hown', Hown. }
      { by rewrite Hbase. }
      { done. }
      rewrite Hrun. simpl in Hcalls'.
      repeat (match goal with |- context [if ?c then _ else _] => destruct c end;
              try (eexists _, _; split; [reflexivity|simpl; congruence])).
    + rewrite (patch_fit_check_failed K X y sw check_input w cw h1 h2 w1 w2 dh dw err wc)
        by done.
      by eexists _, _.
  - intros other cls Hother.
    destruct (CRITERIA_CLF !! other) as [c|] eqn:Hc; [|done]. exfalso.
    assert (Hin : other = "gini" ∨ other = "log_loss" ∨ other = "entropy").
    { destruct (decide (other = "gini")) as [|H1]; [by left|].
      destruct (decide (other = "log_loss")) as [|H2]; [by right; left|].
      destruct (decide (other = "entropy")) as [|H3]; [by right; right|].
      unfold CRITERIA_CLF in Hc. simpl in Hc.
      rewrite !lookup_insert_ne in Hc by done. by rewrite lookup_empty in Hc. }
    destruct Hin as [-> | [-> | ->]]; by vm_compute in Hother.
Qed.

(** X15. The configuration checks are made in a fixed order (the shape of
    the data, then the patch heights, the patch widths, the maximal width
    and the maximal height against the data), and [fit] reports the first
    one that fails: a violation is the one reported exactly when no check
    made before it is violated. *)
Theorem patch_fit_reports_first_violation K X y sw (check_input : bool) w
    cw h1 h2 w1 w2 dh dw Xv yv wc v :
  own (self w) = PatchObliqueDecisionTreeClassifier cw h1 h2 w1 w2 dh dw →
  (if check_input then patch_check_input K X y else ret (X, y)) w = (Ok (Xv, yv), wc) →
  let dw_ := default (Z.of_nat (shape1 Xv)) dw in
  let violated := patch_violated h1 h2 w1 w2 dh dw_ (shape1 Xv) in
  violated v →
  (PatchObliqueDecisionTreeClassifier_fit K X y sw check_input w
   = (Raise (RuntimeError (PatchConfiguration v)), with_patch_shape wc dw_ dh)
   ↔ ∀ v', check_rank v' < check_rank v → ¬ violated v').
Proof.
  intros Hown Hcheck dw_ violated Hv.
  rewrite (patch_fit_checks K X y sw check_input w cw h1 h2 w1 w2 dh dw Xv yv wc)
    by done.
  cbv zeta. fold dw_. subst violated. clearbody dw_.
  destruct (Z.eqb_spec (dh * dw_) (Z.of_nat (shape1 Xv))) as [E0|E0]; simpl.
  2:{ split.
      - intros [= <-] v'. simpl. lia.
      - intros Hfirst. destruct v; try done;
          exfalso; apply (Hfirst DataShapeMismatch); simpl; (lia || done). }
  destruct (Z.gtb_spec h1 h2) as [E1|E1].
  { split.
    - intros [= <-] v'. destruct v'; simpl; intros; lia.
    - intros Hfirst. destruct v; try done; simpl in Hv; try lia;
        exfalso; apply (Hfirst MinHeightAboveMax); simpl; lia. }
  destruct (Z.gtb_spec w1 w2) as [E2|E2].
  { split.
    - intros [= <-] v'. destruct v'; simpl; intros; lia.
    - intros Hfirst. destruct v; try done; simpl in Hv; try lia;
        exfalso; apply (Hfirst MinWidthAboveMax); simpl; lia. }
  destruct (Z.gtb_spec w2 dw_) as [E3|E3].
  { split.
    - intros [= <-] v'. destruct v'; simpl; intros; lia.
    - intros Hfirst. destruct v; try done; simpl in Hv; try lia;
        exfalso; apply (Hfirst MaxWidthAboveData); simpl; lia. }
  destruct (Z.gtb_spec h2 dh) as [E4|E4].
  { split.
    - intros [= <-] v'. destruct v'; simpl; intros; lia.
    - intros Hfirst. destruct v; try done; simpl in Hv; try lia. }
  exfalso. destruct v; simpl in Hv; lia.
Qed.

(** X16. The default patch parameters (all patch sizes 1, [data_height=1],
    [data_width=None]) are valid for every feature matrix with at least
    one column, whatever the other parameters: [fit] goes on to the tree
    building of the base class with [data_width_ = n_features].  On a
    matrix without columns it fails the check of [max_patch_width]. *)
Theorem patch_default_configuration K X y sw (check_input : bool) w kw cw Xv yv wc :
  own (self w)
  = own (PatchObliqueDecisionTreeClassifier__init__ kw cw no_patch_kwargs) →
  (if check_input then patch_check_input K X y else ret (X, y)) w = (Ok (Xv, yv), wc) →
  let w' := with_patch_shape wc (Z.of_nat (shape1 Xv)) 1 in
  (0 < shape1 Xv →
   PatchObliqueDecisionTreeClassifier_fit K X y sw check_input w
   = BaseDecisionTree_fit K Xv yv sw false w')
  ∧ (shape1 Xv = 0 →
     PatchObliqueDecisionTreeClassifier_fit K X y sw check_input w
     = (Raise (RuntimeError (PatchConfiguration MaxWidthAboveData)), w')).
Proof.
  simpl. intros Hown Hcheck.
  rewrite (patch_fit_checks K X y sw check_input w _ 1 1 1 1 1 None Xv yv wc Hown Hcheck).
  simpl.
  destruct (Z.eqb_spec (1 * Z.of_nat (shape1 Xv)) (Z.of_nat (shape1 Xv))); [|lia].
  simpl. split.
  - intros Hpos. destruct (Z.gtb_spec 1 (Z.of_nat (shape1 Xv))); [lia|done].
  - intros ->. done.
Qed.

Lemma base_fit_inv K X y sw ci w e w' :
  BaseDecisionTree_fit K X y sw ci w = (Ok e, w') →
  ∃ a recorded,
    base_prepare K (self w) X y sw ci = Ok (a, recorded)
    ∧ e = self w'
    ∧ _build_tree (ba_X a) (ba_y a) (ba_sample_weight a) (ba_min_samples_leaf a)
        (ba_min_weight_leaf a) (ba_max_leaf_nodes a) (ba_min_samples_split a)
        (ba_max_depth a) (ba_random_state a)
        {| self := {| base := base (self w); own := own (self w);
                      attrs := recorded ∪ attrs (self w) |};
           calls := calls w |}
      = (Ok tt, w').
Proof.
  unfold BaseDecisionTree_fit. rewrite bind_get_self.
  intros ([a rec] & w1 & Hprep & H)%bind_Ok.
  unfold lift in Hprep.
  destruct (base_prepare K (self w) X y sw ci) as [p|]; [|done].
  injection Hprep as -> <-.
  apply bind_Ok in H as ([] & w2 & Hrec & H).
  unfold record_attrs in Hrec. rewrite bind_get_self in Hrec.
  unfold put_attrs in Hrec. injection Hrec as <-.
  apply bind_Ok in H as ([] & w3 & Hbuild & H).
  injection H as <- <-. by exists a, rec.
Qed.

(** X17. A fit of the patch classifier that returns has grown the tree with
    a valid patch geometry: the five constraints hold of the patch sizes
    of the constructor and of the data height and width that [fit]
    recorded, and (unless the base class overwrites [data_height_] or
    [data_width_]) these are the values given to the splitter
    constructed by name. *)
Theorem patch_fit_grows_with_valid_geometry K X y sw (check_input : bool) w
    cw h1 h2 w1 w2 dh dw name e w' :
  own (self w) = PatchObliqueDecisionTreeClassifier cw h1 h2 w1 w2 dh dw →
  splitter_ (base (self w)) = ByName name →
  (∀ e0 X0 y0 sw0 ci0 a recorded,
     base_prepare K e0 X0 y0 sw0 ci0 = Ok (a, recorded) →
     recorded !! "data_height_" = None ∧ recorded !! "data_width_" = None) →
  PatchObliqueDecisionTreeClassifier_fit K X y sw check_input w = (Ok e, w') →
  ∃ Xv yv wc b g,
    (if check_input then patch_check_input K X y else ret (X, y)) w = (Ok (Xv, yv), wc)
    ∧ let dw_ := default (Z.of_nat (shape1 Xv)) dw in
      (∀ v, ¬ patch_violated h1 h2 w1 w2 dh dw_ (shape1 Xv) v)
      ∧ head (calls w') = Some (Build b g)
      ∧ spl_extra (bld_splitter b) = PatchGeometry h1 h2 w1 w2 dh dw_.
Proof.
  intros Hown Hsplitter Hrec Hfit.
  pose proof (stable_params (base (self w)) (own (self w))) as HI.
  assert (Hpre : base (self (snd ((if check_input then patch_check_input K X y
                                   else ret (X, y)) w))) = base (self w)
                 ∧ own (self (snd ((if check_input then patch_check_input K X y
                                    else ret (X, y)) w))) = own (self w)).
  { destruct check_input; [|done].
    apply (spec_patch_check_input HI K X y w). done. }
  destruct ((if check_input then patch_check_input K X y else ret (X, y)) w)
    as [[[Xv yv]|err] wc] eqn:Hcheck; simpl in Hpre; destruct Hpre as (Hbase & Hown').
  2:{ rewrite (patch_fit_check_failed K X y sw check_input w cw h1 h2 w1 w2 dh dw err wc)
        in Hfit by done. done. }
  rewrite (patch_fit_checks K X y sw check_input w cw h1 h2 w1 w2 dh dw Xv yv wc)
    in Hfit by done.
  cbv zeta in Hfit.
  set (dw_ := default (Z.of_nat (shape1 Xv)) dw) in *.
  destruct (Z.eqb_spec (dh * dw_) (Z.of_nat (shape1 Xv))) as [E0|]; [|done].
  destruct (Z.gtb_spec h1 h2) as [|E1]; [done|].
  destruct (Z.gtb_spec w1 w2) as [|E2]; [done|].
  destruct (Z.gtb_spec w2 dw_) as [|E3]; [done|].
  destruct (Z.gtb_spec h2 dh) as [|E4]; [done|].
  simpl in Hfit.
  apply base_fit_inv in Hfit as (a & rec & Hprep & -> & Hbuild).
  destruct (Hrec _ _ _ _ _ _ _ Hprep) as [Hh Hw].
  unfold _build_tree in Hbuild. rewrite bind_get_self in Hbuild.
  simpl in Hbuild. rewrite Hown', Hown in Hbuild.
  apply (patch_build_tree_inv _ _ _ _ _ _ _ _ _ _ _ cw h1 h2 w1 w2 dh dw) in Hbuild
    as (_ & prep & t & b & g & Hbuilt & Hextra & _); [|simpl; congruence].
  destruct (Hextra name) as (h & w0 & Hh' & Hw' & Hgeo).
  { simpl. by rewrite Hbase. }
  simpl in Hh', Hw'.
  rewrite lookup_union_r in Hh' by done. rewrite lookup_union_r in Hw' by done.
  rewrite lookup_insert_eq in Hh'. rewrite lookup_insert_ne in Hw' by done.
  rewrite lookup_insert_eq in Hw'. simplify_eq.
  exists Xv, yv, wc, b, g. split; [done|]. split_and!.
  - intros v. destruct v; simpl; lia.
  - destruct Hbuilt. by rewrite built_calls0.
  - done.
Qed.

(** *** Attributes that make an estimator pass [check_is_fitted] *)

Lemma fitted_attributes_lookup e name v :
  attrs e !! name = Some v →
  endswith_underscore name = true →
  startswith_dunder name = false →
  fitted_attributes e ≠ [].
Proof.
  intros Hlook Hend Hstart Hnil.
  assert (Hin : In name (fitted_attributes e)).
  { unfold fitted_attributes. apply filter_In. split.
    - apply list_elem_of_In, list_elem_of_fmap. exists (name, v).
      split; [done|]. by apply elem_of_map_to_list.
    - by rewrite Hend, Hstart. }
  by rewrite Hnil in Hin.
Qed.

Lemma check_is_fitted_lookup w name v :
  attrs (self w) !! name = Some v →
  endswith_underscore name = true →
  startswith_dunder name = false →
  check_is_fitted w = (Ok tt, w).
Proof.
  intros Hlook Hend Hstart. unfold check_is_fitted. rewrite bind_get_self.
  pose proof (fitted_attributes_lookup _ _ _ Hlook Hend Hstart).
  by destruct (fitted_attributes (self w)).
Qed.

(** X18. The patch classifier records [data_width_] and [data_height_]
    before it checks them.  After a [fit] that failed a configuration
    check both attributes are set, so that [check_is_fitted] no longer
    raises for the estimator, although no tree has been built: [tree_] is
    as it was. *)
Theorem patch_failed_fit_records_data_shape K X y sw (check_input : bool) w
    cw h1 h2 w1 w2 dh dw Xv yv wc v :
  own (self w) = PatchObliqueDecisionTreeClassifier cw h1 h2 w1 w2 dh dw →
  (if check_input then patch_check_input K X y else ret (X, y)) w = (Ok (Xv, yv), wc) →
  patch_violated h1 h2 w1 w2 dh (default (Z.of_nat (shape1 Xv)) dw) (shape1 Xv) v →
  ∃ v' w',
    PatchObliqueDecisionTreeClassifier_fit K X y sw check_input w
    = (Raise (RuntimeError (PatchConfiguration v')), w')
    ∧ attrs (self w') !! "data_width_"
      = Some (VData (Scalar (default (Z.of_nat (shape1 Xv)) dw)))
    ∧ attrs (self w') !! "data_height_" = Some (VData (Scalar dh))
    ∧ check_is_fitted w' = (Ok tt, w')
    ∧ attrs (self w') !! "tree_" = attrs (self wc) !! "tree_"
    ∧ calls w' = calls wc.
Proof.
  intros Hown Hcheck Hv.
  rewrite (patch_fit_checks K X y sw check_input w cw h1 h2 w1 w2 dh dw Xv yv wc)
    by done.
  cbv zeta.
  set (dw_ := default (Z.of_nat (shape1 Xv)) dw) in *.
  assert (Hshape : ∀ v',
             ∃ w', (@Raise estimator (RuntimeError (PatchConfiguration v')),
                    with_patch_shape wc dw_ dh)
                   = (Raise (RuntimeError (PatchConfiguration v')), w')
                   ∧ attrs (self w') !! "data_width_" = Some (VData (Scalar dw_))
                   ∧ attrs (self w') !! "data_height_" = Some (VData (Scalar dh))
                   ∧ check_is_fitted w' = (Ok tt, w')
                   ∧ attrs (self w') !! "tree_" = attrs (self wc) !! "tree_"
                   ∧ calls w' = calls wc).
  { intros v'. exists (with_patch_shape wc dw_ dh).
    assert (Hh : attrs (self (with_patch_shape wc dw_ dh)) !! "data_height_"
                 = Some (VData (Scalar dh))) by (simpl; by rewrite lookup_insert_eq).
    split_and!; try done.
    - simpl. rewrite lookup_insert_ne by done. by rewrite lookup_insert_eq.
    - by eapply check_is_fitted_lookup.
    - simpl. by rewrite !lookup_insert_ne. }
  destruct (Z.eqb_spec (dh * dw_) (Z.of_nat (shape1 Xv))) as [E0|]; simpl;
    [|eexists; apply Hshape].
  destruct (Z.gtb_spec h1 h2) as [|E1]; [eexists; apply Hshape|].
  destruct (Z.gtb_spec w1 w2) as [|E2]; [eexists; apply Hshape|].
  destruct (Z.gtb_spec w2 dw_) as [|E3]; [eexists; apply Hshape|].
  destruct (Z.gtb_spec h2 dh) as [|E4]; [eexists; apply Hshape|].
  exfalso. destruct v; simpl in Hv; lia.
Qed.

(** *** Sparse matrices with 64-bit indices *)

(** X19. With [check_input], the [fit] of the unsupervised trees and the
    [fit] of the patch classifier reject a validated sparse matrix whose
    index arrays are not of type [intc]: they raise the [ValueError] of
    that check, after the attributes recorded by the validation and
    before anything is constructed. *)
Theorem fit_rejects_int64_sparse_indices K X y sw w Xv yv recorded :
  issparse Xv = true →
  index_not_intc Xv = true →
  let w' := {| self := {| base := base (self w); own := own (self w);
                          attrs := recorded ∪ attrs (self w) |};
               calls := calls w |} in
  (validate_data K (self w) X None = Ok (Xv, yv, recorded) →
   UnsupervisedDecisionTree_fit K X y sw true w
   = (Raise (ValueError Int64SparseIndices), w'))
  ∧ (validate_data K (self w) X y = Ok (Xv, yv, recorded) →
     (∃ cw h1 h2 w1 w2 dh dw,
        own (self w) = PatchObliqueDecisionTreeClassifier cw h1 h2 w1 w2 dh dw) →
     PatchObliqueDecisionTreeClassifier_fit K X y sw true w
     = (Raise (ValueError Int64SparseIndices), w')).
Proof.
  intros Hsparse Hidx w'. split.
  - intros Hval. unfold UnsupervisedDecisionTree_fit, unsupervised_check_input.
    rewrite bind_run, bind_get_self, bind_run. unfold lift at 1. rewrite Hval.
    rewrite bind_run. unfold record_attrs at 1. rewrite bind_get_self.
    unfold put_attrs at 1. by rewrite Hsparse, Hidx.
  - intros Hval (cw & h1 & h2 & w1 & w2 & dh & dw & Hown).
    apply (patch_fit_check_failed K X y sw true w cw h1 h2 w1 w2 dh dw); [done|].
    unfold patch_check_input.
    rewrite bind_get_self, bind_run. unfold lift at 1. rewrite Hval.
    rewrite bind_run. unfold record_attrs at 1. rewrite bind_get_self.
    unfold put_attrs at 1. rewrite bind_run. by rewrite Hsparse, Hidx.
Qed.

(** *** [predict], [transform] and [fit] of the unsupervised trees *)

Lemma stable_calls (cs : list call) : stable (λ _, False) (λ w, calls w = cs).
Proof. by split. Qed.

Lemma predict_calls K X check_input w :
  calls (snd (predict K X check_input w)) = calls w.
Proof.
  pose proof (stable_calls (calls w)) as HI.
  assert (Hs : spec (λ w0, calls w0 = calls w) (predict K X check_input) (λ _, True)).
  { unfold predict, transform, apply, _assign_labels, self_clustering_func,
      self_clustering_func_args.
    spec_auto HI idtac. }
  by apply (Hs w).
Qed.

(** X20. [predict] returns the labels without storing them.  Whatever its
    input and its outcome, it sets no attribute other than
    [clustering_func_] and [clustering_func_args_] and it constructs or
    runs nothing: in particular [labels_], [affinity_matrix_] and [tree_]
    stay those of the last [fit]. *)
Theorem predict_leaves_fitted_state K X (check_input : bool) w :
  let w' := snd (predict K X check_input w) in
  calls w' = calls w
  ∧ base (self w') = base (self w)
  ∧ own (self w') = own (self w)
  ∧ (∀ name, name ∉ clustering_attributes →
       attrs (self w') !! name = attrs (self w) !! name)
  ∧ attrs (self w') !! "labels_" = attrs (self w) !! "labels_"
  ∧ attrs (self w') !! "affinity_matrix_" = attrs (self w) !! "affinity_matrix_"
  ∧ attrs (self w') !! "tree_" = attrs (self w) !! "tree_".
Proof.
  destruct (predict_writes K X check_input w) as (Hb & Ho & Ha).
  simpl. split_and!; try done; [apply predict_calls|..];
    apply Ha; unfold clustering_attributes;
    rewrite !elem_of_cons, elem_of_nil; intros [|[|]]; done.
Qed.

(** X21. [_assign_labels] records the clustering routine it uses: after the
    call, whether the clustering succeeded or raised, [clustering_func_]
    holds [clustering_func] (or [AgglomerativeClustering] when that is
    [None]) and [clustering_func_args_] holds [clustering_func_args] (or
    the empty dictionary), whatever they held before; nothing else is
    changed, so that a second call leaves the estimator as the first
    left it. *)
Theorem assign_labels_records_routine K affinity_matrix w f a :
  (own (self w) = UnsupervisedDecisionTree f a
   ∨ ∃ fc, own (self w) = UnsupervisedObliqueDecisionTree fc f a) →
  let w' := snd (_assign_labels K affinity_matrix w) in
  attrs (self w') !! "clustering_func_" = Some (VCluster (routine_of f))
  ∧ attrs (self w') !! "clustering_func_args_" = Some (VKwargs (default ∅ a))
  ∧ (∀ name, name ∉ clustering_attributes →
       attrs (self w') !! name = attrs (self w) !! name)
  ∧ calls w' = calls w
  ∧ ∀ other, snd (_assign_labels K other w') = w'.
Proof.
  intros Hown. simpl.
  rewrite (assign_labels_full K affinity_matrix w f a Hown). simpl.
  split_and!.
  - rewrite lookup_insert_ne by done. by rewrite lookup_insert_eq.
  - by rewrite lookup_insert_eq.
  - intros name Hn. unfold clustering_attributes in Hn.
    rewrite !elem_of_cons, elem_of_nil in Hn.
    rewrite !lookup_insert_ne; [done|..]; intros <-; tauto.
  - done.
  - intros other.
    rewrite (assign_labels_full K other (with_clustering w f a) f a) by exact Hown.
    unfold with_clustering. simpl. do 2 f_equal.
    apply map_eq. intros name.
    destruct (decide (name = "clustering_func_args_")) as [->|H1].
    { by rewrite !lookup_insert_eq. }
    rewrite !(lookup_insert_ne _ "clustering_func_args_") by done.
    destruct (decide (name = "clustering_func_")) as [->|H2].
    { by rewrite !lookup_insert_eq. }
    by rewrite !lookup_insert_ne by done.
Qed.

(** Once the base class has built the tree, [fit] sets the attributes of
    [post_build_attributes] only. *)
Lemma fit_after_build K X y sw (check_input : bool) w e w' :
  UnsupervisedDecisionTree_fit K X y sw check_input w = (Ok e, w') →
  ∃ Xv w1 e2 w2,
    (if check_input then unsupervised_check_input K X else ret X) w = (Ok Xv, w1)
    ∧ BaseDecisionTree_fit K Xv None sw check_input w1 = (Ok e2, w2)
    ∧ same_except post_build_attributes w2 w'.
Proof.
  unfold UnsupervisedDecisionTree_fit.
  intros (Xv & w1 & Hcheck & H)%bind_Ok.
  apply bind_Ok in H as (e2 & w2 & Hbase & H).
  exists Xv, w1, e2, w2. split_and!; [done..|].
  match type of H with
  | ?tail w2 = _ =>
      assert (Htail : writes post_build_attributes tail)
  end.
  { unfold post_build_attributes.
    apply writes_bind; [|intros X_leaves].
    { eapply writes_mono; [|apply apply_writes]. intros n []%elem_of_nil. }
    apply writes_bind; [unfold _compute_affinity_matrix_m; writes_auto|intros aff].
    apply writes_bind; [writes_auto|intros _].
    apply writes_bind; [|intros _; writes_auto].
    destruct (2 <=? shape0 Xv); [|writes_auto].
    apply writes_bind; [unfold getattr_matrix; writes_auto|intros aff_].
    apply writes_bind; [|intros labels; writes_auto].
    eapply writes_mono; [|apply assign_labels_writes].
    unfold clustering_attributes. intros n Hn.
    rewrite !elem_of_cons in *. tauto. }
  specialize (Htail w2). by rewrite H in Htail.
Qed.

(** X22. The affinity matrix that [fit] stores is the one that [transform]
    computes for the training data: after a [fit] that returns,
    [transform] on the (validated) training matrix returns
    [affinity_matrix_], provided the validation of that matrix for
    prediction reads none of the attributes that [fit] sets once the tree
    is built ([affinity_matrix_], [labels_], [clustering_func_] and
    [clustering_func_args_]). *)
Theorem transform_of_training_data K X y sw (check_input : bool) w e w' Xv w1 :
  UnsupervisedDecisionTree_fit K X y sw check_input w = (Ok e, w') →
  (if check_input then unsupervised_check_input K X else ret X) w = (Ok Xv, w1) →
  (∀ e1 e2,
     base e1 = base e2 →
     own e1 = own e2 →
     (∀ name, name ∉ post_build_attributes → attrs e1 !! name = attrs e2 !! name) →
     validate_X_predict K e1 Xv true = validate_X_predict K e2 Xv true) →
  ∃ affinity_matrix,
    transform K Xv w' = (Ok affinity_matrix, w')
    ∧ attrs (self w') !! "affinity_matrix_" = Some (VMatrix affinity_matrix).
Proof.
  intros Hfit Hcheck Hval.
  pose proof (fit_after_build _ _ _ _ _ _ _ _ Hfit)
    as (Xv0 & w10 & e2 & w2' & Hcheck0 & Hbase0 & Hsame).
  apply fit_Ok in Hfit
    as (_ & Xv' & w1' & w2 & X_leaves & Hcheck' & Hbase & _ & Happly & Htree & Haff & _).
  rewrite Hcheck in Hcheck', Hcheck0.
  injection Hcheck' as <- <-. injection Hcheck0 as <- <-.
  rewrite Hbase in Hbase0. injection Hbase0 as _ <-.
  assert (Happly' : fst (apply K Xv w2) = Ok X_leaves) by (by rewrite Happly).
  apply apply_Ok in Happly' as (t & Xp & Ht & Hv & ->).
  exists (co_membership (tree_apply K t Xp)). split; [|done].
  destruct Hsame as (Hb & Ho & Ha).
  apply transform_fitted.
  - by eapply fitted_attributes_lookup.
  - by rewrite (Hval (self w') (self w2) Hb Ho Ha).
  - by rewrite Htree.
Qed.

(** X23. A failure of the clustering routine surfaces from [fit] unchanged,
    after the tree has been built and the affinity matrix stored:
    [tree_] and [affinity_matrix_] are set, [labels_] is not. *)
Theorem fit_propagates_clustering_failure K X y sw (check_input : bool) w
    f a Xv w1 e2 w2 X_leaves err :
  (own (self w) = UnsupervisedDecisionTree f a
   ∨ ∃ fc, own (self w) = UnsupervisedObliqueDecisionTree fc f a) →
  (if check_input then unsupervised_check_input K X else ret X) w = (Ok Xv, w1) →
  BaseDecisionTree_fit K Xv None sw check_input w1 = (Ok e2, w2) →
  2 ≤ shape0 Xv →
  fst (apply K Xv w2) = Ok X_leaves →
  fit_predict K (routine_of f) (default ∅ a) (co_membership X_leaves) = Raise err →
  ∃ w3,
    UnsupervisedDecisionTree_fit K X y sw check_input w = (Raise err, w3)
    ∧ attrs (self w3) !! "tree_" = attrs (self w2) !! "tree_"
    ∧ attrs (self w3) !! "affinity_matrix_" = Some (VMatrix (co_membership X_leaves))
    ∧ attrs (self w3) !! "labels_" = attrs (self w2) !! "labels_"
    ∧ calls w3 = calls w2.
Proof.
  intros Hown Hcheck Hbase Hn Happly Hcluster.
  assert (Hown2 : own (self w2) = own (self w)).
  { pose proof (stable_params (base (self w)) (own (self w))) as HI.
    assert (H1 : base (self w1) = base (self w) ∧ own (self w1) = own (self w)).
    { destruct check_input.
      - pose proof (spec_unsupervised_check_input HI K X w (conj eq_refl eq_refl)) as [H _].
        by rewrite Hcheck in H.
      - by injection Hcheck as <- <-. }
    pose proof (spec_base_fit HI K Xv None sw check_input w1 H1) as [[_ H] _].
    by rewrite Hbase in H. }
  pose proof (apply_frame K Xv w2) as Hframe.
  destruct (apply K Xv w2) as [r w2'] eqn:Hap. simpl in *. subst r w2'.
  eexists. split.
  - unfold UnsupervisedDecisionTree_fit.
    rewrite bind_run, Hcheck. rewrite bind_run, Hbase. rewrite bind_run, Hap.
    unfold _compute_affinity_matrix_m. rewrite compute_affinity_matrix_eq.
    apply Nat.leb_le in Hn. rewrite Hn.
    unfold getattr_matrix, getattr, setattr, bind, ret, get_self, put_attrs.
    simpl. rewrite lookup_insert_eq.
    rewrite assign_labels_full with (f := f) (a := a)
      by (simpl; rewrite Hown2; exact Hown).
    rewrite Hcluster.
    reflexivity.
  - unfold with_clustering. simpl.
    split_and!; [|rewrite !lookup_insert_ne by done; by rewrite lookup_insert_eq
                 |by rewrite !lookup_insert_ne|done].
    by rewrite !lookup_insert_ne.
Qed.

(** *** The properties at concrete inputs *)

Lemma build_tree_forwards_parameters_witness :
  _build_tree X_two_pairs None None 1 0 (-1) 2 (2 ^ 31 - 1) 0 w_prepared
  = (Ok tt, w_grown)
  ∧ ∃ t b g,
      attrs (self w_grown) !! "tree_" = Some (VTree (grow t g))
      ∧ head (calls w_grown) = Some (Build b g)
      ∧ carries b 2 1 0 (2 ^ 31 - 1) (-1).
Proof.
  assert (Hrun : _build_tree X_two_pairs None None 1 0 (-1) 2 (2 ^ 31 - 1) 0 w_prepared
                 = (Ok tt, w_grown)) by (vm_compute; reflexivity).
  split; [exact Hrun|].
  destruct (build_tree_forwards_parameters _ _ _ _ _ _ _ _ _ _ _ Hrun)
    as (t & b & g & Ht & Hhead & _ & Hcar & _).
  exists t, b, g. split; [exact Ht|]. split; [exact Hhead|exact Hcar].
Defined.

Lemma build_tree_passes_data_witness :
  (_build_tree X_two_pairs y_four None 1 0 (-1) 2 (2 ^ 31 - 1) 0 w_prepared
   = (Ok tt, w_grown)
   ∧ is_classifier (self w_prepared) = false)
  ∧ ∃ b g,
      head (calls w_grown) = Some (Build b g)
      ∧ grown_X g = X_two_pairs
      ∧ grown_y g = None.
Proof.
  assert (Hrun : _build_tree X_two_pairs y_four None 1 0 (-1) 2 (2 ^ 31 - 1) 0 w_prepared
                 = (Ok tt, w_grown)) by (vm_compute; reflexivity).
  split; [by split|].
  destruct (build_tree_passes_data _ _ _ _ _ _ _ _ _ _ _ Hrun)
    as (b & g & Hhead & HX & _ & _ & Hy).
  exists b, g. split_and!; [done..|]. by apply Hy.
Defined.

Lemma build_tree_builds_once_witness :
  _build_tree X_two_pairs None None 1 0 (-1) 2 (2 ^ 31 - 1) 0 w_prepared
  = (Ok tt, w_grown)
  ∧ ∃ b, builders_run (calls w_grown) = b :: builders_run (calls w_prepared).
Proof.
  assert (Hrun : _build_tree X_two_pairs None None 1 0 (-1) 2 (2 ^ 31 - 1) 0 w_prepared
                 = (Ok tt, w_grown)) by (vm_compute; reflexivity).
  split; [exact Hrun|].
  destruct (build_tree_builds_once _ _ _ _ _ _ _ _ _ _ _ Hrun)
    as (prep & t & b & g & _ & _ & _ & _ & _ & Hb).
  by exists b.
Defined.

Lemma oblique_classifier_feature_combinations_bounded_witness :
  (own (self w_classifier) = ObliqueDecisionTreeClassifier None None
   ∧ _build_tree X_two_pairs y_four None 1 0 (-1) 2 (2 ^ 31 - 1) 0 w_classifier
     = (Ok tt, w_classifier_grown))
  ∧ attrs (self w_classifier_grown) !! "feature_combinations_"
    = Some (VNum (Float (3 # 2)))
  ∧ num_gt (Float (3 # 2)) (Int 2) = false.
Proof.
  assert (Hrun : _build_tree X_two_pairs y_four None 1 0 (-1) 2 (2 ^ 31 - 1) 0
                   w_classifier = (Ok tt, w_classifier_grown))
    by (vm_compute; reflexivity).
  assert (Hown : own (self w_classifier) = ObliqueDecisionTreeClassifier None None)
    by reflexivity.
  split; [by split|].
  destruct (oblique_classifier_feature_combinations_bounded
              _ _ _ _ _ _ _ _ _ _ _ None None Hown Hrun)
    as (v & b & g & -> & Hle & Hattr & _).
  split; [exact Hattr|exact Hle].
Defined.

Lemma build_tree_sets_only_its_attributes_witness :
  (("max_features_" ∉ build_tree_attributes)
   ∧ is_classifier (self w_prepared) = false)
  ∧ attrs (self w_grown) !! "max_features_" = Some (VData (Scalar 2))
  ∧ attrs (self w_grown) !! "n_classes_" = attrs (self w_prepared) !! "n_classes_".
Proof.
  assert (Hnot : "max_features_" ∉ build_tree_attributes).
  { unfold build_tree_attributes. rewrite !elem_of_cons, elem_of_nil.
    intros [|[|[|[|]]]]; done. }
  split; [by split|].
  destruct (build_tree_sets_only_its_attributes X_two_pairs None None 1 0 (-1) 2
              (2 ^ 31 - 1) 0 w_prepared) as (_ & _ & Hall & Hunsup).
  split.
  - exact (Hall "max_features_" Hnot).
  - apply Hunsup; done.
Defined.

Lemma classifier_build_tree_unwraps_single_output_witness :
  (is_classifier (self w_classifier) = true
   ∧ _build_tree X_two_pairs y_four None 1 0 (-1) 2 (2 ^ 31 - 1) 0 w_classifier
     = (Ok tt, w_classifier_grown)
   ∧ attrs (self w_classifier) !! "n_outputs_" = Some (VData (Scalar 1))
   ∧ attrs (self w_classifier) !! "n_classes_" = Some (VData (Array [2%Z])))
  ∧ attrs (self w_classifier_grown) !! "n_classes_" = Some (VData (Scalar 2)).
Proof.
  assert (Hrun : _build_tree X_two_pairs y_four None 1 0 (-1) 2 (2 ^ 31 - 1) 0
                   w_classifier = (Ok tt, w_classifier_grown))
    by (vm_compute; reflexivity).
  assert (Hcls : is_classifier (self w_classifier) = true) by reflexivity.
  assert (Hout : attrs (self w_classifier) !! "n_outputs_" = Some (VData (Scalar 1)))
    by reflexivity.
  assert (Hnc : attrs (self w_classifier) !! "n_classes_" = Some (VData (Array [2%Z])))
    by reflexivity.
  split; [by split_and!|].
  destruct (classifier_build_tree_unwraps_single_output _ _ _ _ _ _ _ _ _ _ _ Hcls Hrun)
    as (n & Hn & _ & Hone & _).
  rewrite Hout in Hn. injection Hn as <-.
  destruct (Hone eq_refl) as (nc & cs & nc0 & cs0 & H1 & H2 & H3 & _).
  rewrite Hnc in H1. injection H1 as <-. simpl in H2. injection H2 as <-.
  exact H3.
Defined.

Lemma unsupervised_unregistered_criterion_witness :
  (is_classifier (self w_unsupervised_gini) = false
   ∧ criterion_ (base (self w_unsupervised_gini)) = ByName "gini"
   ∧ UNSUPERVISED_CRITERIA !! "gini" = None)
  ∧ _build_tree X_two_pairs None None 1 0 (-1) 5 (2 ^ 31 - 1) 0 w_unsupervised_gini
    = (Raise (KeyError "gini"), w_unsupervised_gini).
Proof.
  split; [by split_and!|].
  apply (unsupervised_unregistered_criterion X_two_pairs None None 1 0 (-1) 5
           (2 ^ 31 - 1) 0 w_unsupervised_gini "gini"); reflexivity.
Defined.

Lemma classifier_unregistered_criterion_witness :
  (is_classifier (self w_patch_poisson) = true
   ∧ criterion_ (base (self w_patch_poisson)) = ByName "poisson"
   ∧ CRITERIA_CLF !! "poisson" = None)
  ∧ ∃ err w',
      PatchObliqueDecisionTreeClassifier_fit toy X_two_pairs y_four None true
        w_patch_poisson = (Raise err, w')
      ∧ calls w' = calls w_patch_poisson.
Proof.
  split; [by split_and!|].
  apply (classifier_unregistered_criterion toy X_two_pairs y_four None true
           w_patch_poisson "poisson"); reflexivity.
Defined.

Lemma patch_fit_reports_first_violation_witness :
  (own (self w_patch_min_height_2)
   = PatchObliqueDecisionTreeClassifier None 2 1 1 1 1 None
   ∧ patch_violated 2 1 1 1 1 2 2 MinHeightAboveMax
   ∧ ∀ v', check_rank v' < check_rank MinHeightAboveMax →
           ¬ patch_violated 2 1 1 1 1 2 2 v')
  ∧ PatchObliqueDecisionTreeClassifier_fit toy X_two_pairs y_four None false
      w_patch_min_height_2
    = (Raise (RuntimeError (PatchConfiguration MinHeightAboveMax)),
       with_patch_shape w_patch_min_height_2 2 1).
Proof.
  assert (Hv : patch_violated 2 1 1 1 1 2 2 MinHeightAboveMax) by (simpl; lia).
  assert (Hfirst : ∀ v', check_rank v' < check_rank MinHeightAboveMax →
                         ¬ patch_violated 2 1 1 1 1 2 2 v').
  { intros [] Hr; simpl in *; lia. }
  split; [by split_and!|].
  apply (patch_fit_reports_first_violation toy X_two_pairs y_four None false
           w_patch_min_height_2 None 2 1 1 1 1 None X_two_pairs y_four
           w_patch_min_height_2 MinHeightAboveMax eq_refl eq_refl Hv).
  exact Hfirst.
Defined.

Lemma patch_default_configuration_witness :
  (own (self w_patch)
   = own (PatchObliqueDecisionTreeClassifier__init__ no_kwargs None no_patch_kwargs)
   ∧ 0 < shape1 X_two_pairs
   ∧ shape1 X_no_feature = 0)
  ∧ PatchObliqueDecisionTreeClassifier_fit toy X_two_pairs y_four None false w_patch
    = BaseDecisionTree_fit toy X_two_pairs y_four None false
        (with_patch_shape w_patch 2 1)
  ∧ PatchObliqueDecisionTreeClassifier_fit toy X_no_feature None None false w_patch
    = (Raise (RuntimeError (PatchConfiguration MaxWidthAboveData)),
       with_patch_shape w_patch 0 1).
Proof.
  assert (Hpos : 0 < shape1 X_two_pairs) by (simpl; lia).
  split; [by split_and!|]. split.
  - exact (proj1 (patch_default_configuration toy X_two_pairs y_four None false w_patch
                    no_kwargs None X_two_pairs y_four w_patch eq_refl eq_refl) Hpos).
  - exact (proj2 (patch_default_configuration toy X_no_feature None None false w_patch
                    no_kwargs None X_no_feature None w_patch eq_refl eq_refl) eq_refl).
Defined.

Lemma patch_fit_grows_with_valid_geometry_witness :
  (own (self w_patch) = PatchObliqueDecisionTreeClassifier None 1 1 1 1 1 None
   ∧ splitter_ (base (self w_patch)) = ByName "best"
   ∧ PatchObliqueDecisionTreeClassifier_fit toy X_two_pairs y_four None true w_patch
     = (Ok (self w_patch_fitted), w_patch_fitted))
  ∧ ∃ b g,
      head (calls w_patch_fitted) = Some (Build b g)
      ∧ spl_extra (bld_splitter b) = PatchGeometry 1 1 1 1 1 2.
Proof.
  assert (Hfit : PatchObliqueDecisionTreeClassifier_fit toy X_two_pairs y_four None true
                   w_patch = (Ok (self w_patch_fitted), w_patch_fitted))
    by (vm_compute; reflexivity).
  split; [by split_and!|].
  destruct (patch_fit_grows_with_valid_geometry toy X_two_pairs y_four None true w_patch
              None 1 1 1 1 1 None "best" (self w_patch_fitted) w_patch_fitted
              eq_refl eq_refl)
    as (Xv & yv & wc & b & g & Hcheck & _ & Hhead & Hgeo).
  - intros e0 X0 y0 sw0 ci0 a recorded [= _ <-]. split; reflexivity.
  - exact Hfit.
  - exists b, g. split; [exact Hhead|].
    assert (HX : Xv = X_two_pairs) by (by injection Hcheck as <- _ _).
    rewrite HX in Hgeo. exact Hgeo.
Defined.

Lemma patch_failed_fit_records_data_shape_witness :
  (own (self w_patch_min_height_2)
   = PatchObliqueDecisionTreeClassifier None 2 1 1 1 1 None
   ∧ patch_violated 2 1 1 1 1 2 2 MinHeightAboveMax)
  ∧ ∃ v' w',
      PatchObliqueDecisionTreeClassifier_fit toy X_two_pairs y_four None false
        w_patch_min_height_2
      = (Raise (RuntimeError (PatchConfiguration v')), w')
      ∧ check_is_fitted w' = (Ok tt, w')
      ∧ attrs (self w') !! "tree_" = None.
Proof.
  assert (Hv : patch_violated 2 1 1 1 1 2 2 MinHeightAboveMax) by (simpl; lia).
  split; [by split|].
  destruct (patch_failed_fit_records_data_shape toy X_two_pairs y_four None false
              w_patch_min_height_2 None 2 1 1 1 1 None X_two_pairs y_four
              w_patch_min_height_2 MinHeightAboveMax eq_refl eq_refl Hv)
    as (v' & w' & Hrun & _ & _ & Hfitted & Htree & _).
  exists v', w'. split_and!; [exact Hrun|exact Hfitted|].
  rewrite Htree. reflexivity.
Defined.

Lemma fit_rejects_int64_sparse_indices_witness :
  (issparse X_sparse_int64 = true
   ∧ index_not_intc X_sparse_int64 = true
   ∧ validate_data toy (self w_unsupervised) X_sparse_int64 None
     = Ok (X_sparse_int64, None, {["n_features_in_" := VData (Scalar 2)]}))
  ∧ fst (UnsupervisedDecisionTree_fit toy X_sparse_int64 None None true w_unsupervised)
    = Raise (ValueError Int64SparseIndices).
Proof.
  split; [by split_and!|].
  destruct (fit_rejects_int64_sparse_indices toy X_sparse_int64 None None w_unsupervised
              X_sparse_int64 None {["n_features_in_" := VData (Scalar 2)]}
              eq_refl eq_refl) as [Hunsup _].
  by rewrite Hunsup.
Defined.

Lemma predict_leaves_fitted_state_witness :
  ("labels_" ∉ clustering_attributes)
  ∧ attrs (self (snd (predict toy X_one_feature true w_fitted))) !! "labels_"
    = Some (VData (Array [0; 0; 2; 2]%Z))
  ∧ calls (snd (predict toy X_one_feature true w_fitted)) = calls w_fitted.
Proof.
  assert (Hnot : "labels_" ∉ clustering_attributes).
  { unfold clustering_attributes. rewrite !elem_of_cons, elem_of_nil.
    intros [|[|]]; done. }
  split; [exact Hnot|].
  destruct (predict_leaves_fitted_state toy X_one_feature true w_fitted)
    as (Hcalls & _ & _ & Hall & _).
  split; [|exact Hcalls].
  rewrite (Hall "labels_" Hnot). by vm_compute.
Defined.

Lemma assign_labels_records_routine_witness :
  own (self w_built) = UnsupervisedDecisionTree None None
  ∧ attrs (self (snd (_assign_labels toy aff_two_pairs w_built)))
      !! "clustering_func_" = Some (VCluster AgglomerativeClustering)
  ∧ attrs (self (snd (_assign_labels toy aff_two_pairs w_built)))
      !! "clustering_func_args_" = Some (VKwargs ∅).
Proof.
  assert (Hown : own (self w_built) = UnsupervisedDecisionTree None None)
    by (vm_compute; reflexivity).
  split; [vm_compute; reflexivity|].
  destruct (assign_labels_records_routine toy aff_two_pairs w_built None None
              (or_introl Hown)) as (H1 & H2 & _).
  split; [exact H1|exact H2].
Defined.

Lemma transform_of_training_data_witness :
  (UnsupervisedDecisionTree_fit toy_checking_features X_two_pairs None None true
     w_unsupervised
   = (Ok (self w_fitted), w_fitted)
   ∧ unsupervised_check_input toy_checking_features X_two_pairs w_unsupervised
     = (Ok X_two_pairs, w_checked)
   ∧ ∀ e1 e2,
       base e1 = base e2 →
       own e1 = own e2 →
       (∀ name, name ∉ post_build_attributes → attrs e1 !! name = attrs e2 !! name) →
       validate_X_predict toy_checking_features e1 X_two_pairs true
       = validate_X_predict toy_checking_features e2 X_two_pairs true)
  ∧ ∃ affinity_matrix,
      transform toy_checking_features X_two_pairs w_fitted
      = (Ok affinity_matrix, w_fitted)
      ∧ attrs (self w_fitted) !! "affinity_matrix_" = Some (VMatrix affinity_matrix).
Proof.
  assert (Hfit : UnsupervisedDecisionTree_fit toy_checking_features X_two_pairs None
                   None true w_unsupervised = (Ok (self w_fitted), w_fitted))
    by (vm_compute; reflexivity).
  assert (Hcheck : unsupervised_check_input toy_checking_features X_two_pairs
                     w_unsupervised
                   = (Ok X_two_pairs, w_checked)) by (vm_compute; reflexivity).
  assert (Hval : ∀ e1 e2,
             base e1 = base e2 →
             own e1 = own e2 →
             (∀ name, name ∉ post_build_attributes
                      → attrs e1 !! name = attrs e2 !! name) →
             validate_X_predict toy_checking_features e1 X_two_pairs true
             = validate_X_predict toy_checking_features e2 X_two_pairs true).
  { intros e1 e2 _ _ Hattrs. simpl.
    rewrite (Hattrs "n_features_in_"); [reflexivity|].
    unfold post_build_attributes. rewrite !elem_of_cons, elem_of_nil.
    intros [H|[H|[H|[H|[]]]]]; discriminate H. }
  split; [by split_and!|].
  exact (transform_of_training_data toy_checking_features X_two_pairs None None true
           w_unsupervised (self w_fitted) w_fitted X_two_pairs w_checked
           Hfit Hcheck Hval).
Defined.

Lemma fit_propagates_clustering_failure_witness :
  (own (self w_unsupervised) = UnsupervisedDecisionTree None None
   ∧ 2 ≤ shape0 X_two_pairs)
  ∧ ∃ w3,
      UnsupervisedDecisionTree_fit toy_failing_clustering X_two_pairs None None true
        w_unsupervised
      = (Raise (CollaboratorError 1), w3)
      ∧ attrs (self w3) !! "affinity_matrix_"
        = Some (VMatrix (co_membership [1; 1; 2; 2]%Z))
      ∧ attrs (self w3) !! "labels_" = None.
Proof.
  assert (Hn : 2 ≤ shape0 X_two_pairs) by (simpl; lia).
  split; [by split|].
  destruct (fit_propagates_clustering_failure toy_failing_clustering X_two_pairs None
              None true w_unsupervised None None X_two_pairs w_checked
              (self w_built) w_built [1; 1; 2; 2]%Z (CollaboratorError 1))
    as (w3 & Hfit & _ & Haff & Hlab & _).
  - by left.
  - vm_compute. reflexivity.
  - vm_compute. reflexivity.
  - exact Hn.
  - vm_compute. reflexivity.
  - reflexivity.
  - exists w3. split_and!; [exact Hfit|exact Haff|].
    rewrite Hlab. by vm_compute.
Defined.

End EffectsFacts.

(** ** The builder at work: choice, sparse input and the default threshold *)

Module GrowthFacts.
Import Numpy Affinity Py Classes Fixtures Samples AffinityFacts ClassesFacts Effects
  EffectsFacts.
Local Open Scope py_scope.

(** Forward execution: the reads of attributes known to be there. *)
Ltac run_forward :=
  simpl in *;
  repeat (simpl;
          first [ rewrite lookup_insert_eq
                | rewrite lookup_insert_ne by done
                | match goal with
                  | H : _ !! _ = Some _ |- _ => rewrite H
                  | H : num_gt _ _ = _ |- _ => rewrite H
                  | H : criterion_ _ = _ |- _ => rewrite H
                  | H : splitter_ _ = _ |- _ => rewrite H
                  | |- context [(?m <? 0)%Z] => destruct (m <? 0)%Z
                  end ]);
  simpl.

Ltac ready_data H :=
  let d := fresh "d" in destruct H as [d H].

Ltac ready_criterion H :=
  unfold criterion_ready in H; simpl in H;
  match type of H with
  | match ?c with _ => _ end =>
      let name := fresh "cname" in
      let cls := fresh "ccls" in
      let E := fresh "Hcriterion" in
      destruct c as [name|?] eqn:E; [destruct H as [cls H]|]
  end.

Ltac ready_splitter H :=
  unfold splitter_ready in H; simpl in H;
  match type of H with
  | match ?c with _ => _ end =>
      let name := fresh "sname" in
      let cls := fresh "scls" in
      let Hmf := fresh "Hmf" in
      let E := fresh "Hsplitter" in
      destruct c as [name|?] eqn:E;
      [destruct H as [[cls H] Hmf]; ready_data Hmf|]
  end.

(** [_build_tree] returns when the estimator is ready, whatever
    [max_leaf_nodes] is. *)
Lemma build_tree_returns X y sw msl mwl mln mss md rs w :
  build_ready X (self w) →
  ∃ w', _build_tree X y sw msl mwl mln mss md rs w = (Ok tt, w').
Proof.
  destruct w as [[b o a] log]. unfold build_ready. simpl.
  intros [Hn Hready]. ready_data Hn.
  unfold _build_tree, UnsupervisedDecisionTree__build_tree,
    UnsupervisedObliqueDecisionTree__build_tree,
    ObliqueDecisionTreeClassifier__build_tree,
    PatchObliqueDecisionTreeClassifier__build_tree,
    supervised_criterion, supervised_tree, supervised_builder,
    unwrap_single_output, build, feature_combinations_valid in *.
  unfold_monad. simpl in *.
  destruct o as [f ca|fc f ca|ps fc|ps h1 h2 w1 w2 dd ii]; simpl in *.
  - destruct Hready as [Hc Hs]. ready_criterion Hc; ready_splitter Hs;
      run_forward; by eexists.
  - destruct Hready as [Hc Hs]. ready_criterion Hc; ready_splitter Hs;
      run_forward; by eexists.
  - destruct Hready as (Hfc & Hdense & Hc & Hnc & Hs & n & Hno & Hsingle).
    destruct Hnc as [nc Hnc]. rewrite Hdense.
    assert (Hunwrap :
      n = Scalar 1 ∨ (∀ A (x y : A), match n with Scalar 1 => x | _ => y end = y)).
    { destruct n as [[|[?|?|]|?]| |]; auto. }
    destruct Hunwrap as [->|Hother].
    + destruct (Hsingle eq_refl) as (nc' & cs & Hnc' & [nc0 Hnc0] & Hcs & [cs0 Hcs0]).
      simpl in Hnc, Hnc'. rewrite Hnc in Hnc'. injection Hnc' as <-.
      destruct fc as [fc|]; ready_criterion Hc; ready_splitter Hs;
        run_forward;
        (destruct nc as [?|[|? ?]|[|? ?]]; try discriminate Hnc0);
        (destruct cs as [?|[|? ?]|[|? ?]]; try discriminate Hcs0);
        run_forward; by eexists.
    + destruct fc as [fc|]; ready_criterion Hc; ready_splitter Hs;
        run_forward; rewrite ?Hother; by eexists.
  - destruct Hready as (Hdense & Hc & Hnc & Hs & Hgeo & n & Hno & Hsingle).
    destruct Hnc as [nc Hnc]. rewrite Hdense.
    assert (Hunwrap :
      n = Scalar 1 ∨ (∀ A (x y : A), match n with Scalar 1 => x | _ => y end = y)).
    { destruct n as [[|[?|?|]|?]| |]; auto. }
    destruct Hunwrap as [->|Hother].
    + destruct (Hsingle eq_refl) as (nc' & cs & Hnc' & [nc0 Hnc0] & Hcs & [cs0 Hcs0]).
      simpl in Hnc, Hnc'. rewrite Hnc in Hnc'. injection Hnc' as <-.
      ready_criterion Hc; ready_splitter Hs;
        try (destruct (Hgeo _ eq_refl) as (hh & ww & Hh & Hw));
        run_forward;
        (destruct nc as [?|[|? ?]|[|? ?]]; try discriminate Hnc0);
        (destruct cs as [?|[|? ?]|[|? ?]]; try discriminate Hcs0);
        run_forward; by eexists.
    + ready_criterion Hc; ready_splitter Hs;
        try (destruct (Hgeo _ eq_refl) as (hh & ww & Hh & Hw));
        run_forward; rewrite ?Hother; by eexists.
Qed.

(** C6. In every tree build (the two unsupervised trees, the oblique and
    the patch classifier) the best-first builder is used exactly when
    [max_leaf_nodes] is bounded (non-negative) and the depth-first
    builder exactly when it is the unbounded sentinel
    ([max_leaf_nodes < 0]).  Every builder constructed or run by
    [_build_tree] is the one [max_leaf_nodes] calls for.  And a builder
    is used: on an estimator that is ready for the build, [_build_tree]
    returns, whatever [max_leaf_nodes] is, having run exactly one
    builder, which has grown [tree_]; it is best-first (and was given
    [max_leaf_nodes]) when [0 <= max_leaf_nodes], depth-first when
    [max_leaf_nodes < 0]. *)
Theorem build_tree_builder_choice X y sw msl mwl mln mss md rs w :
  builder_chosen mln w (_build_tree X y sw msl mwl mln mss md rs w)
  ∧ (build_ready X (self w) →
     ∃ w' t g,
       _build_tree X y sw msl mwl mln mss md rs w = (Ok tt, w')
       ∧ attrs (self w') !! "tree_" = Some (VTree (grow t g))
       ∧ builders_run (calls w') = grown_by g :: builders_run (calls w)
       ∧ right_builder mln (grown_by g)
       ∧ bld_max_leaf_nodes (grown_by g)
         = (if (mln <? 0)%Z then None else Some mln)).
Proof.
  split; [apply build_tree_builders_chosen|].
  intros Hready.
  destruct (build_tree_returns X y sw msl mwl mln mss md rs w Hready) as [w' Hrun].
  destruct (build_tree_inv _ _ _ _ _ _ _ _ _ _ _ Hrun)
    as (preparation & t & b & g & Hbuilt).
  destruct (build_tree_Ok _ _ _ _ _ _ _ _ _ _ _ Hrun) as (t' & g' & Ht' & _ & Hright).
  destruct Hbuilt as [Hcalls Hprep _ Htree _ _ Hcarries _ Hby _ _ _].
  assert (Hg : g' = g).
  { rewrite Htree in Ht'. unfold grow in Ht'. by injection Ht' as _ _ ->. }
  subst g'. exists w', t, g. split_and!; [done|done| |done|].
  - rewrite Hcalls, Hby. simpl. f_equal.
    change (builders_run (preparation ++ calls w) = builders_run (calls w)).
    by apply builders_run_preparation.
  - rewrite Hby. apply Hcarries.
Qed.





(** *** The properties at concrete inputs *)

Lemma w_prepared_ready : build_ready X_two_pairs (self w_prepared).
Proof.
  split; [exists (Scalar 2); by vm_compute|].
  split; [exists TwoMeans; by vm_compute|].
  split; [exists BestUnsupervisedSplitter; by vm_compute|].
  exists (Scalar 2); by vm_compute.
Qed.

Lemma w_unsupervised_oblique_sparse_ready :
  build_ready X_sparse (self w_unsupervised_oblique_sparse).
Proof.
  split; [exists (Scalar 2); by vm_compute|].
  split; [exists TwoMeans; by vm_compute|].
  split; [eexists; by vm_compute|exists (Scalar 2); by vm_compute].
Qed.

Lemma w_classifier_ready : build_ready X_two_pairs (self w_classifier).
Proof.
  split; [exists (Scalar 2); by vm_compute|].
  split_and!.
  - exact I.
  - reflexivity.
  - exists Gini. by vm_compute.
  - exists (Array [2%Z]). by vm_compute.
  - split; [eexists; by vm_compute|exists (Scalar 2); by vm_compute].
  - exists (Scalar 1). split; [by vm_compute|]. intros _.
    exists (Array [2%Z]), (ArrayList [[0; 1]%Z]).
    split_and!; [by vm_compute|by eexists|by vm_compute|by eexists].
Qed.

Lemma w_patch_prepared_ready : build_ready X_two_pairs (self w_patch_prepared).
Proof.
  split; [exists (Scalar 2); by vm_compute|].
  split_and!.
  - reflexivity.
  - exists Gini. by vm_compute.
  - exists (Array [2%Z]). by vm_compute.
  - split; [eexists; by vm_compute|exists (Scalar 2); by vm_compute].
  - intros name _. exists 1%Z, 2%Z. split; by vm_compute.
  - exists (Scalar 1). split; [by vm_compute|]. intros _.
    exists (Array [2%Z]), (ArrayList [[0; 1]%Z]).
    split_and!; [by vm_compute|by eexists|by vm_compute|by eexists].
Qed.

Lemma build_tree_builder_choice_witness :
  (build_ready X_two_pairs (self w_prepared)
   ∧ build_ready X_sparse (self w_unsupervised_oblique_sparse)
   ∧ build_ready X_two_pairs (self w_classifier)
   ∧ build_ready X_two_pairs (self w_patch_prepared))
  ∧ (∃ w' b,
       _build_tree X_two_pairs None None 1 0 (-1) 2 (2 ^ 31 - 1) 0 w_prepared
       = (Ok tt, w')
       ∧ builders_run (calls w') = [b]
       ∧ is_depth_first b = true
       ∧ bld_max_leaf_nodes b = None)
  ∧ (∃ w' b,
       _build_tree X_two_pairs None None 1 0 3 2 (2 ^ 31 - 1) 0 w_prepared
       = (Ok tt, w')
       ∧ builders_run (calls w') = [b]
       ∧ is_best_first b = true
       ∧ bld_max_leaf_nodes b = Some 3%Z)
  ∧ (∃ w' b,
       _build_tree X_sparse None None 1 0 0 5 (2 ^ 31 - 1) 0
         w_unsupervised_oblique_sparse
       = (Ok tt, w')
       ∧ builders_run (calls w') = [b]
       ∧ is_best_first b = true
       ∧ bld_max_leaf_nodes b = Some 0%Z)
  ∧ (∃ w' b,
       _build_tree X_two_pairs y_four None 1 0 3 2 (2 ^ 31 - 1) 0 w_classifier
       = (Ok tt, w')
       ∧ builders_run (calls w') = [b]
       ∧ is_best_first b = true
       ∧ bld_max_leaf_nodes b = Some 3%Z)
  ∧ (∃ w' b,
       _build_tree X_two_pairs y_four None 1 0 (-1) 2 (2 ^ 31 - 1) 0 w_patch_prepared
       = (Ok tt, w')
       ∧ builders_run (calls w') = [b]
       ∧ is_depth_first b = true
       ∧ bld_max_leaf_nodes b = None).
Proof.
  pose proof w_prepared_ready as Hu.
  pose proof w_unsupervised_oblique_sparse_ready as Huo.
  pose proof w_classifier_ready as Hc.
  pose proof w_patch_prepared_ready as Hp.
  split; [by split_and!|]. split_and!.
  - destruct (build_tree_builder_choice X_two_pairs None None 1 0 (-1) 2
                (2 ^ 31 - 1) 0 w_prepared) as [_ H].
    destruct (H Hu) as (w' & t & g & Hrun & _ & Hb & [_ Hdf] & Hmln).
    exists w', (grown_by g). split_and!; [exact Hrun|exact Hb| |exact Hmln].
    apply Hdf. lia.
  - destruct (build_tree_builder_choice X_two_pairs None None 1 0 3 2
                (2 ^ 31 - 1) 0 w_prepared) as [_ H].
    destruct (H Hu) as (w' & t & g & Hrun & _ & Hb & [Hbf _] & Hmln).
    exists w', (grown_by g). split_and!; [exact Hrun|exact Hb| |exact Hmln].
    apply Hbf. lia.
  - destruct (build_tree_builder_choice X_sparse None None 1 0 0 5
                (2 ^ 31 - 1) 0 w_unsupervised_oblique_sparse) as [_ H].
    destruct (H Huo) as (w' & t & g & Hrun & _ & Hb & [Hbf _] & Hmln).
    exists w', (grown_by g). split_and!; [exact Hrun|exact Hb| |exact Hmln].
    apply Hbf. lia.
  - destruct (build_tree_builder_choice X_two_pairs y_four None 1 0 3 2
                (2 ^ 31 - 1) 0 w_classifier) as [_ H].
    destruct (H Hc) as (w' & t & g & Hrun & _ & Hb & [Hbf _] & Hmln).
    exists w', (grown_by g). split_and!; [exact Hrun|exact Hb| |exact Hmln].
    apply Hbf. lia.
  - destruct (build_tree_builder_choice X_two_pairs y_four None 1 0 (-1) 2
                (2 ^ 31 - 1) 0 w_patch_prepared) as [_ H].
    destruct (H Hp) as (w' & t & g & Hrun & _ & Hb & [_ Hdf] & Hmln).
    exists w', (grown_by g). split_and!; [exact Hrun|exact Hb| |exact Hmln].
    apply Hdf. lia.
Defined.




End GrowthFacts.
